(** * LEL course scheduler: the allocation engine and its calendar rules

    A shallow embedding of [src/utils/timeSlots.js], [src/utils/quarterUtils.js]
    and [src/utils/scheduleEngine.js], followed by the properties of the
    engine that its specification states.

    Conventions of the embedding.
    - A JavaScript [Date] is the number of its calendar day, counted from
      1970-01-01 in the proleptic Gregorian calendar.  Every date the engine
      builds is a local midnight, except the quarter's [endDate], which
      date-fns puts at the last millisecond of its day and which is only
      ever compared with midnights; it is modelled by its day.
    - The constructor [new Date(year, monthIndex, day)] reads a year from
      0 to 99 as 1900 + year ([newDate]); the setters and date-fns do not
      ([make]).
    - The time value of a [Date] stays within 100,000,000 days of
      1970-01-01, beyond which JavaScript has the Invalid Date.  The day
      numbers here have no such end: they are the dates of the code as long
      as every date it builds lies in the years 0 to 275759, whose days are
      all within the bound.  A statement that needs this says so by
      [representableYear].
    - [format(date, "yyyy-MM-dd")] is the triple (year, month, day).  The
      keys of the code are compared for equality only, and from the year 1
      on two keys are equal when the triples are; before the year 1
      date-fns prints 1 - year for the year.
    - Strings are [string]; the slot times are the literal "HH:MM" texts of
      the source.
    - Numbers are integers of [Z] where the source counts; the hours of
      [getTimeDifferenceInHours] are rationals; the utilization is computed
      in binary64 as the source does.
    - The mutable [Map] objects are association lists in insertion order,
      updated functionally; a loop that may not end runs on fuel and
      reports when the fuel is used up. *)

From Stdlib Require Import ZArith List String Ascii Bool Lia Permutation.
From Stdlib Require Import QArith.
From Stdlib Require Import Floats.PrimFloat Floats.FloatOps Floats.SpecFloat.
From Stdlib Require Import Numbers.Cyclic.Int63.Uint63.
Import ListNotations.

#[local] Open Scope string_scope.
#[local] Open Scope list_scope.
#[local] Open Scope Z_scope.

(* ================================================================== *)
(** * The platform: dates *)

Module JsDate.

Definition Date : Type := Z.

(** The key produced by [format(date, "yyyy-MM-dd")]. *)
Definition DateKey : Type := (Z * Z * Z)%type.

Definition key_eqb (a b : DateKey) : bool :=
    let '(y1, m1, d1) := a in
    let '(y2, m2, d2) := b in
    (y1 =? y2) && (m1 =? m2) && (d1 =? d2).

(** Day number of the civil date [y]-[m]-[d], [m] in 1..12. *)
Definition days_from_civil (y m d : Z) : Z :=
    let y' := if m <=? 2 then y - 1 else y in
    let era := y' / 400 in
    let yoe := y' - era * 400 in
    let mp := if 2 <? m then m - 3 else m + 9 in
    let doy := (153 * mp + 2) / 5 + d - 1 in
    let doe := yoe * 365 + yoe / 4 - yoe / 100 + doy in
    era * 146097 + doe - 719468.

(** Civil date of a day number. *)
Definition civil_from_days (z : Z) : DateKey :=
    let z' := z + 719468 in
    let era := z' / 146097 in
    let doe := z' - era * 146097 in
    let yoe := (doe - doe / 1460 + doe / 36524 - doe / 146096) / 365 in
    let doy := doe - (365 * yoe + yoe / 4 - yoe / 100) in
    let mp := (5 * doy + 2) / 153 in
    let d := doy - (153 * mp + 2) / 5 + 1 in
    let m := if mp <? 10 then mp + 3 else mp - 9 in
    (if m <=? 2 then yoe + era * 400 + 1 else yoe + era * 400, m, d).

(** The date of a year, a month index and a day of the month, as the
    setters [setFullYear], [setMonth], [setDate] and the constructor put it
    together: the month index is 0-based and overflows into the years, the
    day counts on from the first of the month. *)
Definition make (year monthIndex day : Z) : Date :=
    days_from_civil (year + monthIndex / 12) (monthIndex mod 12 + 1) 1
    + (day - 1).

(** The year the constructor takes for its first argument: a year from 0
    to 99 stands for 1900 + year. *)
Definition fullYear (year : Z) : Z :=
    if (0 <=? year) && (year <=? 99) then 1900 + year else year.

(** [new Date(year, monthIndex, day)]. *)
Definition newDate (year monthIndex day : Z) : Date :=
    make (fullYear year) monthIndex day.

Definition format (d : Date) : DateKey := civil_from_days d.

Definition getFullYear (d : Date) : Z := fst (fst (civil_from_days d)).
(** 0-based, as in JavaScript. *)
Definition getMonth (d : Date) : Z := snd (fst (civil_from_days d)) - 1.
Definition getDate (d : Date) : Z := snd (civil_from_days d).

(** 0 = Sunday ... 6 = Saturday; 1970-01-01 was a Thursday. *)
Definition getDay (d : Date) : Z := (d + 4) mod 7.

Definition addDays (d : Date) (n : Z) : Date := d + n.
Definition addWeeks (d : Date) (n : Z) : Date := addDays d (n * 7).

(** date-fns [startOfMonth] and [endOfMonth]. *)
Definition startOfMonth (d : Date) : Date :=
    make (getFullYear d) (getMonth d) 1.
Definition endOfMonth (d : Date) : Date :=
    make (getFullYear d) (getMonth d + 1) 0.

End JsDate.

Import JsDate.

(* ================================================================== *)
(** * The platform: strings and numbers *)

(** [s.split(":")]. *)
Fixpoint split_colon_aux (acc : string) (s : string) : list string :=
  match s with
  | EmptyString => [acc]
  | String c rest =>
      if Ascii.eqb c ":"%char then acc :: split_colon_aux "" rest
      else split_colon_aux (acc ++ String c "")%string rest
  end.

Definition split_colon (s : string) : list string := split_colon_aux "" s.

(** [s.replace(":", "")]: only the first colon goes. *)
Fixpoint replace_colon (s : string) : string :=
  match s with
  | EmptyString => EmptyString
  | String c rest =>
      if Ascii.eqb c ":"%char then rest else String c (replace_colon rest)
  end.

Definition digit_of_ascii (c : ascii) : option Z :=
  let n := Z.of_N (N_of_ascii c) in
  if (48 <=? n) && (n <=? 57) then Some (n - 48) else None.

Fixpoint number_aux (acc : Z) (s : string) : option Z :=
  match s with
  | EmptyString => Some acc
  | String c rest =>
      match digit_of_ascii c with
      | Some d => number_aux (10 * acc + d) rest
      | None => None
      end
  end.

(** [Number(s)] on the strings the engine converts, which are runs of
    decimal digits; [None] is NaN. *)
Definition Number (s : string) : option Z := number_aux 0 s.

(** The element at an index of the array [s.split(":").map(Number)];
    a missing element is [undefined], which behaves as NaN in arithmetic. *)
Definition number_part (i : nat) (s : string) : option Z :=
  match nth_error (map Number (split_colon s)) i with
  | Some n => n
  | None => None
  end.

Definition lower_ascii (c : ascii) : ascii :=
  let n := N_of_ascii c in
  if ((65 <=? n) && (n <=? 90))%N then ascii_of_N (n + 32) else c.

(** [s.toLowerCase()] on ASCII text. *)
Fixpoint toLowerCase (s : string) : string :=
  match s with
  | EmptyString => EmptyString
  | String c rest => String (lower_ascii c) (toLowerCase rest)
  end.

(** [hay.includes(needle)]. *)
Fixpoint includes (hay needle : string) : bool :=
  String.prefix needle hay
  || match hay with
     | EmptyString => false
     | String _ rest => includes rest needle
     end.

(** [q < r] on numbers. *)
Definition Qltb (q r : Q) : bool := negb (Qle_bool r q).

(** [xs.findIndex(p)], [None] for -1. *)
Fixpoint findIndex {A : Type} (p : A -> bool) (xs : list A) : option nat :=
  match xs with
  | [] => None
  | x :: rest =>
      if p x then Some O
      else match findIndex p rest with
           | Some i => Some (S i)
           | None => None
           end
  end.

(** [xs.indexOf(x)] on strings, -1 when absent. *)
Fixpoint indexOf (xs : list string) (x : string) : Z :=
  match xs with
  | [] => -1
  | y :: rest =>
      if String.eqb y x then 0
      else let i := indexOf rest x in if i <? 0 then -1 else i + 1
  end.

(** The element of an array at an index, updated in place. *)
Fixpoint update_nth {A : Type} (i : nat) (f : A -> A) (xs : list A) : list A :=
  match xs, i with
  | [], _ => []
  | x :: rest, O => f x :: rest
  | x :: rest, S j => x :: update_nth j f rest
  end.

(* ================================================================== *)
(** * timeSlots.js *)

Record TimeSlot : Type := mkTimeSlot { start : string; end_ : string }.

Definition WEEKLY_SCHEDULE : list (string * list TimeSlot) :=
  [ ("MONDAY",
     [ mkTimeSlot "06:00" "06:30"; mkTimeSlot "07:00" "07:30";
       mkTimeSlot "09:00" "09:30"; mkTimeSlot "10:00" "10:30";
       mkTimeSlot "11:00" "11:30"; mkTimeSlot "12:00" "12:30";
       mkTimeSlot "13:00" "13:30"; mkTimeSlot "14:00" "14:30";
       mkTimeSlot "15:00" "15:30"; mkTimeSlot "16:00" "16:30";
       mkTimeSlot "17:00" "17:30"; mkTimeSlot "18:00" "18:30";
       mkTimeSlot "19:00" "19:30"; mkTimeSlot "20:00" "20:30" ]);
    ("TUESDAY",
     [ mkTimeSlot "06:00" "06:30"; mkTimeSlot "07:00" "07:30";
       mkTimeSlot "09:00" "09:30"; mkTimeSlot "10:00" "10:30";
       mkTimeSlot "11:00" "11:30"; mkTimeSlot "12:00" "12:30";
       mkTimeSlot "13:00" "13:30"; mkTimeSlot "14:00" "14:30";
       mkTimeSlot "15:00" "15:30"; mkTimeSlot "16:00" "16:30";
       mkTimeSlot "17:00" "17:30" ]);
    ("WEDNESDAY",
     [ mkTimeSlot "06:00" "06:30"; mkTimeSlot "07:00" "07:30";
       mkTimeSlot "08:00" "08:30"; mkTimeSlot "09:00" "09:30";
       mkTimeSlot "10:00" "10:30"; mkTimeSlot "11:00" "11:30";
       mkTimeSlot "12:00" "12:30"; mkTimeSlot "13:00" "13:30";
       mkTimeSlot "14:00" "14:30"; mkTimeSlot "15:00" "15:30";
       mkTimeSlot "16:00" "16:30"; mkTimeSlot "17:00" "17:30" ]);
    ("THURSDAY",
     [ mkTimeSlot "06:00" "06:30"; mkTimeSlot "07:00" "07:30";
       mkTimeSlot "08:00" "08:30"; mkTimeSlot "09:00" "09:30";
       mkTimeSlot "10:00" "10:30"; mkTimeSlot "11:00" "11:30";
       mkTimeSlot "12:00" "12:30"; mkTimeSlot "13:00" "13:30";
       mkTimeSlot "14:00" "14:30"; mkTimeSlot "15:00" "15:30";
       mkTimeSlot "16:00" "16:30"; mkTimeSlot "17:00" "17:30" ]);
    ("FRIDAY",
     [ mkTimeSlot "06:00" "06:30"; mkTimeSlot "07:00" "07:30";
       mkTimeSlot "08:00" "08:30"; mkTimeSlot "09:00" "09:30";
       mkTimeSlot "10:00" "10:30"; mkTimeSlot "11:00" "11:30";
       mkTimeSlot "12:00" "12:30"; mkTimeSlot "13:00" "13:30" ]) ].

Definition DAY_NAMES : list string :=
  [ "SUNDAY"; "MONDAY"; "TUESDAY"; "WEDNESDAY"; "THURSDAY"; "FRIDAY";
    "SATURDAY" ].

(** [DAY_NAMES[i]]. *)
Definition dayName (i : Z) : string := nth (Z.to_nat i) DAY_NAMES "".

(** [WEEKLY_SCHEDULE[dayName] || []]. *)
Fixpoint schedule_lookup (tbl : list (string * list TimeSlot)) (name : string)
  : list TimeSlot :=
  match tbl with
  | [] => []
  | (k, v) :: rest => if String.eqb k name then v else schedule_lookup rest name
  end.

(** The [while (thursdayCount < 4)] loop of [getThanksgivingDate]; the
    statement after the loop returns [date], and so does the model when the
    fuel runs out. *)
Fixpoint thanksgiving_loop (fuel : nat) (thursdayCount : Z) (date : Date)
  : Date :=
  match fuel with
  | O => date
  | S fuel' =>
      if thursdayCount <? 4 then
        if getDay date =? 4 then
          if thursdayCount + 1 =? 4 then date
          else thanksgiving_loop fuel' (thursdayCount + 1) (date + 1)
        else thanksgiving_loop fuel' thursdayCount (date + 1)
      else date
  end.

(** The fourth Thursday is reached within the first 28 days of November.
    (On an Invalid Date the loop of the source does not end; the first of
    November is one for a year past 275759, see the conventions.) *)
Definition getThanksgivingDate (year : Z) : Date :=
  thanksgiving_loop 28 0 (newDate year 10 1).

Record RestrictedDate : Type :=
  mkRestricted { r_date : Date; afterTime : string }.

Record SpecialDates : Type :=
  mkSpecialDates { noSessionDates : list Date;
                   restrictedDates : list RestrictedDate }.

Definition getSpecialDatesForYear (year : Z) : SpecialDates :=
  {| noSessionDates :=
       [ newDate year 0 1; newDate year 6 4; getThanksgivingDate year;
         newDate year 11 25 ];
     restrictedDates :=
       [ mkRestricted (newDate year 3 17) "08:30";
         mkRestricted (newDate year 4 22) "08:30";
         mkRestricted (newDate year 5 19) "08:30";
         mkRestricted (newDate year 11 24) "13:00";
         mkRestricted (newDate year 11 31) "13:00" ] |}.

Definition getAvailableTimeSlots (date : Date) : list TimeSlot :=
  let dayName := dayName (getDay date) in
  if String.eqb dayName "SUNDAY" || String.eqb dayName "SATURDAY" then []
  else
    let baseSlots := schedule_lookup WEEKLY_SCHEDULE dayName in
    let year := getFullYear date in
    let specialDates := getSpecialDatesForYear year in
    let dateStr := format date in
    if existsb (fun noSessionDate => key_eqb (format noSessionDate) dateStr)
               (noSessionDates specialDates)
    then []
    else
      match find (fun restricted => key_eqb (format (r_date restricted)) dateStr)
                 (restrictedDates specialDates) with
      | Some restricted =>
          filter (fun slot =>
                    let slotTime := replace_colon (start slot) in
                    let afterTime := replace_colon (afterTime restricted) in
                    String.ltb slotTime afterTime)
                 baseSlots
      | None => baseSlots
      end.

(** [h * 60 + m] of a "HH:MM" text, NaN when a part is not a number. *)
Definition minutesOf (time : string) : option Z :=
  match number_part 0 time, number_part 1 time with
  | Some h, Some m => Some (h * 60 + m)
  | _, _ => None
  end.

(** The difference in hours; [None] is NaN. *)
Definition getTimeDifferenceInHours (time1 time2 : string) : option Q :=
  match minutesOf time1, minutesOf time2 with
  | Some minutes1, Some minutes2 =>
      Some (Qmake (Z.abs (minutes1 - minutes2)) 60)
  | _, _ => None
  end.

Definition isValidForFinancialIntelligence (dayName startTime : string)
  : bool :=
  if negb (String.eqb dayName "TUESDAY") && negb (String.eqb dayName "WEDNESDAY")
  then false
  else
    match number_part 0 startTime with
    | Some hour => (10 <=? hour) && (hour <? 13)
    | None => false
    end.

(* ================================================================== *)
(** * Results of a call *)

(** A call returns, throws, or is cut off by the fuel of a loop that the
    source does not bound. *)
Inductive JsError : Type :=
| Error (message : string)
| TypeError.

Inductive Outcome (A : Type) : Type :=
| Returned (a : A)
| Thrown (e : JsError)
| OutOfFuel.

Arguments Returned {A} a.
Arguments Thrown {A} e.
Arguments OutOfFuel {A}.

Definition bind {A B : Type} (m : Outcome A) (k : A -> Outcome B) : Outcome B :=
  match m with
  | Returned a => k a
  | Thrown e => Thrown e
  | OutOfFuel => OutOfFuel
  end.

Notation "x <- m ;; k" := (bind m (fun x => k))
  (at level 61, m at next level, right associativity).
Notation "' pat <- m ;; k" := (bind m (fun x => match x with pat => k end))
  (at level 61, pat pattern, m at next level, right associativity).

(* ================================================================== *)
(** * quarterUtils.js

    The repository holds the file twice: with the quarters of the calendar
    year, and with the quarters of a financial year that starts in April
    and whose Q4 falls in the next calendar year. *)

Inductive YearStart : Type := January | April.

Definition QUARTERS (cfg : YearStart) : list (string * list Z) :=
  match cfg with
  | January =>
      [ ("Q1", [1; 2; 3]); ("Q2", [4; 5; 6]); ("Q3", [7; 8; 9]);
        ("Q4", [10; 11; 12]) ]
  | April =>
      [ ("Q1", [4; 5; 6]); ("Q2", [7; 8; 9]); ("Q3", [10; 11; 12]);
        ("Q4", [1; 2; 3]) ]
  end.

(** The names an object literal inherits: [QUARTERS[name]] is defined for
    them too, but has no [months]. *)
Definition object_prototype_keys : list string :=
  [ "constructor"; "hasOwnProperty"; "isPrototypeOf"; "propertyIsEnumerable";
    "toLocaleString"; "toString"; "valueOf"; "__proto__";
    "__defineGetter__"; "__defineSetter__"; "__lookupGetter__";
    "__lookupSetter__" ].

Fixpoint quarter_lookup (tbl : list (string * list Z)) (quarter : string)
  : option (list Z) :=
  match tbl with
  | [] => None
  | (k, v) :: rest =>
      if String.eqb k quarter then Some v else quarter_lookup rest quarter
  end.

Definition getQuarterDateRange (cfg : YearStart) (quarter : string) (year : Z)
  : Outcome (Date * Date) :=
  match quarter_lookup (QUARTERS cfg) quarter with
  | None =>
      if existsb (String.eqb quarter) object_prototype_keys
      then Thrown TypeError
      else Thrown (Error ("Invalid quarter: " ++ quarter)%string)
  | Some months =>
      let firstMonth := nth 0 months 0 in
      let lastMonth := nth 2 months 0 in
      let startYear :=
        match cfg with
        | January => year
        | April => if String.eqb quarter "Q4" then year + 1 else year
        end in
      let endYear := startYear in
      let startDate := startOfMonth (newDate startYear (firstMonth - 1) 1) in
      let endDate := endOfMonth (newDate endYear (lastMonth - 1) 1) in
      Returned (startDate, endDate)
  end.

Definition getFinancialYearStart (cfg : YearStart) (year : Z) : Date :=
  match cfg with
  | January => newDate year 0 1
  | April => newDate year 3 1
  end.

(** The loop of [getAllDatesInQuarter]: it meets its condition after
    [endDate - startDate + 1] rounds, which is the fuel given below. *)
Fixpoint dates_loop (fuel : nat) (currentDate endDate : Date) : list Date :=
  match fuel with
  | O => []
  | S fuel' =>
      if currentDate <=? endDate
      then currentDate :: dates_loop fuel' (currentDate + 1) endDate
      else []
  end.

Definition getAllDatesInQuarter (cfg : YearStart) (quarter : string) (year : Z)
  : Outcome (list Date) :=
  '(startDate, endDate) <- getQuarterDateRange cfg quarter year ;;
  Returned (dates_loop (Z.to_nat (endDate - startDate + 1)) startDate endDate).

Definition getWeekdaysInQuarter (cfg : YearStart) (quarter : string) (year : Z)
  : Outcome (list Date) :=
  allDates <- getAllDatesInQuarter cfg quarter year ;;
  Returned (filter (fun date =>
                      let day := getDay date in (1 <=? day) && (day <=? 5))
                   allDates).

(* ================================================================== *)
(** * scheduleEngine.js: data *)

(** A course of the cadence file; the engine reads these three fields. *)
Record Course : Type :=
  mkCourse { title : string; cadence : Z; sessions : Z }.

(** The [session] field of a booked slot. *)
Record Occupant : Type :=
  mkOccupant { course : string; occ_sessionNumber : Z }.

(** A slot of the grid: the time slot spread into it, with its two flags. *)
Record GridSlot : Type :=
  mkGridSlot { slot : TimeSlot; available : bool; session : option Occupant }.

Record DayData : Type := mkDayData { day_date : Date; slots : list GridSlot }.

(** The availability grid, a [Map] from date keys to day data. *)
Definition AvailabilityGrid : Type := list (DateKey * DayData).

Record ScheduledSession : Type :=
  mkSession { date : Date;
              courseName : string;
              sessionNumber : Z;
              startTime : string;
              endTime : string;
              instructorFirstName : string;
              instructorLastName : string }.

(** An entry of a course's history: the start of one booked instance. *)
Record HistoryEntry : Type :=
  mkHistoryEntry { h_startDate : Date;
                   h_dayOfWeek : string;
                   h_startTime : string }.

(** The course history, a [Map] from titles to arrays of entries. *)
Definition CourseHistory : Type := list (string * list HistoryEntry).

(** What [findSuitableSlot] returns. *)
Record SuitableSlot : Type :=
  mkSuitableSlot { dayOfWeek : string; slotStart : string; slotEnd : string }.

(** [grid.get(key)]. *)
Fixpoint grid_get (grid : AvailabilityGrid) (key : DateKey) : option DayData :=
  match grid with
  | [] => None
  | (k, v) :: rest => if key_eqb k key then Some v else grid_get rest key
  end.

(** [grid.set(key, value)]: a present key keeps its place. *)
Fixpoint grid_set (grid : AvailabilityGrid) (key : DateKey) (value : DayData)
  : AvailabilityGrid :=
  match grid with
  | [] => [(key, value)]
  | (k, v) :: rest =>
      if key_eqb k key then (k, value) :: rest
      else (k, v) :: grid_set rest key value
  end.

(** An assignment to the fields of [dayData.slots[i]], where [dayData] is
    the object the grid holds under [key]. *)
Definition grid_update_slot (grid : AvailabilityGrid) (key : DateKey)
  (i : nat) (f : GridSlot -> GridSlot) : AvailabilityGrid :=
  map (fun entry : DateKey * DayData =>
         let (k, dayData) := entry in
         if key_eqb k key
         then (k, mkDayData (day_date dayData) (update_nth i f (slots dayData)))
         else entry)
      grid.

(** [courseHistory.get(title) || []]. *)
Fixpoint history_get (h : CourseHistory) (t : string) : list HistoryEntry :=
  match h with
  | [] => []
  | (k, v) :: rest => if String.eqb k t then v else history_get rest t
  end.

Fixpoint history_set (h : CourseHistory) (t : string) (v : list HistoryEntry)
  : CourseHistory :=
  match h with
  | [] => [(t, v)]
  | (k, w) :: rest =>
      if String.eqb k t then (k, v) :: rest else (k, w) :: history_set rest t v
  end.

(** [xs[xs.length - 1]], [None] for [undefined]. *)
Fixpoint last_entry {A : Type} (xs : list A) : option A :=
  match xs with
  | [] => None
  | [x] => Some x
  | _ :: rest => last_entry rest
  end.

(* ================================================================== *)
(** * scheduleEngine.js: the engine *)

Definition initializeAvailabilityGrid (dates : list Date) : AvailabilityGrid :=
  fold_left
    (fun grid date =>
       let dateKey := format date in
       let slots := getAvailableTimeSlots date in
       grid_set grid dateKey
         (mkDayData date (map (fun slot => mkGridSlot slot true None) slots)))
    dates [].

(** One round of the [for (const slot of dayData.slots)] loop of
    [findSuitableSlot]: [true] when the round ends in [continue]. *)
Definition slot_skipped (dayOfWeek : string) (lastInstance : option HistoryEntry)
  (isFinancialIntelligence : bool) (s : GridSlot) : bool :=
  if negb (available s) then true
  else if isFinancialIntelligence
          && negb (isValidForFinancialIntelligence dayOfWeek (start (slot s)))
  then true
  else
    match lastInstance with
    | Some lastInstance =>
        if negb isFinancialIntelligence
           && String.eqb dayOfWeek (h_dayOfWeek lastInstance)
        then true
        else
          match getTimeDifferenceInHours (start (slot s))
                                         (h_startTime lastInstance) with
          | Some timeDiff => Qltb timeDiff 3
          | None => false
          end
    | None => false
    end.

Definition findSuitableSlot (date : Date) (c : Course)
  (availabilityGrid : AvailabilityGrid) (history : list HistoryEntry)
  (isFinancialIntelligence : bool) : option SuitableSlot :=
  let dateKey := format date in
  match grid_get availabilityGrid dateKey with
  | None => None
  | Some dayData =>
      let dayOfWeek := dayName (getDay date) in
      let lastInstance := last_entry history in
      match find (fun s => negb (slot_skipped dayOfWeek lastInstance
                                              isFinancialIntelligence s))
                 (slots dayData) with
      | Some s => Some (mkSuitableSlot dayOfWeek (start (slot s)) (end_ (slot s)))
      | None => None
      end
  end.

Definition findNextAvailableDate (fromDate : Date) (targetDayOfWeek : string)
  (quarterDates : list Date) : option Date :=
  let targetDayIndex := indexOf DAY_NAMES targetDayOfWeek in
  find (fun date => (fromDate <=? date) && (getDay date =? targetDayIndex))
       quarterDates.

Definition rollbackSessions (sessions : list ScheduledSession)
  (availabilityGrid : AvailabilityGrid) : AvailabilityGrid :=
  fold_left
    (fun grid session =>
       let dateKey := format (date session) in
       match grid_get grid dateKey with
       | Some dayData =>
           match findIndex (fun s => String.eqb (start (slot s))
                                                (startTime session))
                           (slots dayData) with
           | Some slotIndex =>
               grid_update_slot grid dateKey slotIndex
                 (fun s => mkGridSlot (slot s) true None)
           | None => grid
           end
       | None => grid
       end)
    sessions availabilityGrid.

(** The [for (sessionNum = 1; sessionNum <= course.sessions; ...)] loop of
    [scheduleCourseSessions], with [remaining] rounds to go. *)
Fixpoint bookSessions (c : Course) (suitableSlot : SuitableSlot)
  (quarterDates : list Date) (remaining : nat) (sessionNum : Z)
  (currentSessionDate : Date) (availabilityGrid : AvailabilityGrid)
  (sessions : list ScheduledSession)
  : AvailabilityGrid * list ScheduledSession :=
  match remaining with
  | O => (availabilityGrid, sessions)
  | S remaining' =>
      match findNextAvailableDate currentSessionDate (dayOfWeek suitableSlot)
                                  quarterDates with
      | None => (rollbackSessions sessions availabilityGrid, [])
      | Some sessionDate =>
          let dateKey := format sessionDate in
          match grid_get availabilityGrid dateKey with
          | None => (rollbackSessions sessions availabilityGrid, [])
          | Some dayData =>
              match findIndex
                      (fun s => String.eqb (start (slot s))
                                           (slotStart suitableSlot)
                                && available s)
                      (slots dayData) with
              | None => (rollbackSessions sessions availabilityGrid, [])
              | Some slotIndex =>
                  let grid' :=
                    grid_update_slot availabilityGrid dateKey slotIndex
                      (fun s => mkGridSlot (slot s) false
                                  (Some (mkOccupant (title c) sessionNum))) in
                  let sessions' :=
                    sessions ++
                    [ mkSession sessionDate (title c) sessionNum
                                (slotStart suitableSlot) (slotEnd suitableSlot)
                                "" "" ] in
                  bookSessions c suitableSlot quarterDates remaining'
                               (sessionNum + 1) (addWeeks sessionDate 1)
                               grid' sessions'
              end
          end
      end
  end.

Definition scheduleCourseSessions (c : Course) (startDate : Date)
  (quarterDates : list Date) (availabilityGrid : AvailabilityGrid)
  (courseHistory : CourseHistory) (isFinancialIntelligence : bool)
  : AvailabilityGrid * list ScheduledSession :=
  let history := history_get courseHistory (title c) in
  match findSuitableSlot startDate c availabilityGrid history
                         isFinancialIntelligence with
  | None => (availabilityGrid, [])
  | Some suitableSlot =>
      bookSessions c suitableSlot quarterDates (Z.to_nat (sessions c)) 1
                   startDate availabilityGrid []
  end.

(** The loop that moves the start of the financial year off a weekend; two
    rounds are the most it can take. *)
Fixpoint skip_weekend (fuel : nat) (currentDate : Date) : Date :=
  match fuel with
  | O => currentDate
  | S fuel' =>
      if (getDay currentDate =? 0) || (getDay currentDate =? 6)
      then skip_weekend fuel' (addDays currentDate 1)
      else currentDate
  end.

(** [currentDate <= quarterDates[quarterDates.length - 1]]; the comparison
    with [undefined] is false. *)
Definition before_last (currentDate : Date) (quarterDates : list Date) : bool :=
  match last_entry quarterDates with
  | Some lastDate => currentDate <=? lastDate
  | None => false
  end.

(** The [while (currentDate <= financialYearEnd)] loop; it does not end
    when the cadence is not positive.  A positive cadence moves the date by
    a week or more in each round, so the days up to [financialYearEnd],
    and two, are fuel enough. *)
Fixpoint cadence_loop (fuel : nat) (c : Course) (quarterDates : list Date)
  (financialYearEnd currentDate : Date) : Outcome (list Date) :=
  match fuel with
  | O => OutOfFuel
  | S fuel' =>
      if currentDate <=? financialYearEnd then
        rest <- cadence_loop fuel' c quarterDates financialYearEnd
                             (addWeeks currentDate (cadence c)) ;;
        Returned (if before_last currentDate quarterDates
                  then currentDate :: rest else rest)
      else Returned []
  end.

Definition setFullYear (d : Date) (year : Z) : Date :=
  make year (getMonth d) (getDate d).
Definition setMonth (d : Date) (monthIndex : Z) : Date :=
  make (getFullYear d) monthIndex (getDate d).
Definition setDate (d : Date) (day : Z) : Date :=
  make (getFullYear d) (getMonth d) day.

Definition calculateCadenceStartDates (c : Course) (financialYearStart : Date)
  (quarterDates : list Date) : Outcome (list Date) :=
  let financialYearEnd :=
    setDate (setMonth (setFullYear financialYearStart
                                   (getFullYear financialYearStart + 1)) 2) 31 in
  let currentDate := skip_weekend 2 financialYearStart in
  cadence_loop (S (S (Z.to_nat (financialYearEnd - currentDate)))) c
               quarterDates financialYearEnd currentDate.

(** What the engine holds while it runs. *)
Definition EngineState : Type :=
  (AvailabilityGrid * CourseHistory * list ScheduledSession)%type.

(** The body of [for (const startDate of availableDates)] in
    [scheduleCourse]. *)
Definition tryStartDate (c : Course) (quarterDates : list Date)
  (isFinancialIntelligence : bool) (st : EngineState) (startDate : Date)
  : EngineState :=
  let '(availabilityGrid, courseHistory, sessions) := st in
  let '(grid', scheduled) :=
    scheduleCourseSessions c startDate quarterDates availabilityGrid
                           courseHistory isFinancialIntelligence in
  match scheduled with
  | first :: _ =>
      let history := history_get courseHistory (title c) in
      let history' :=
        history ++ [ mkHistoryEntry startDate (dayName (getDay startDate))
                                    (startTime first) ] in
      (grid', history_set courseHistory (title c) history',
       sessions ++ scheduled)
  | [] => (grid', courseHistory, sessions)
  end.

(** [scheduleCourse]; the sessions it returns are the third component. *)
Definition scheduleCourse (c : Course) (financialYearStart : Date)
  (quarterDates : list Date) (availabilityGrid : AvailabilityGrid)
  (courseHistory : CourseHistory) : Outcome EngineState :=
  let isFinancialIntelligence :=
    includes (toLowerCase (title c)) "financial intelligence" in
  cadenceStartDates <-
    calculateCadenceStartDates c financialYearStart quarterDates ;;
  Returned
    (fold_left
       (fun st cadenceDate =>
          let availableDates :=
            filter (fun date => cadenceDate <=? date) quarterDates in
          fold_left (tryStartDate c quarterDates isFinancialIntelligence)
                    availableDates st)
       cadenceStartDates
       (availabilityGrid, courseHistory, [])).

(** [courses.forEach(...)] of [generateSchedule]. *)
Fixpoint scheduleCourses (courses : list Course) (financialYearStart : Date)
  (quarterDates : list Date) (st : EngineState) : Outcome EngineState :=
  match courses with
  | [] => Returned st
  | c :: rest =>
      let '(availabilityGrid, courseHistory, scheduledSessions) := st in
      '(grid', history', sessions) <-
        scheduleCourse c financialYearStart quarterDates availabilityGrid
                       courseHistory ;;
      scheduleCourses rest financialYearStart quarterDates
                      (grid', history', scheduledSessions ++ sessions)
  end.

(** The comparator of the final sort; [localeCompare] orders the "HH:MM"
    texts as their characters do. *)
Definition compareSessions (a b : ScheduledSession) : comparison :=
  if negb (date a =? date b) then Z.compare (date a) (date b)
  else String.compare (startTime a) (startTime b).

(** [Array.prototype.sort] is stable; so is insertion from the right. *)
Fixpoint insertSession (x : ScheduledSession) (l : list ScheduledSession)
  : list ScheduledSession :=
  match l with
  | [] => [x]
  | y :: rest =>
      match compareSessions x y with
      | Gt => y :: insertSession x rest
      | _ => x :: l
      end
  end.

Fixpoint sortSessions (l : list ScheduledSession) : list ScheduledSession :=
  match l with
  | [] => []
  | x :: rest => insertSession x (sortSessions rest)
  end.

(* ================================================================== *)
(** * scheduleEngine.js: the calendar view and the statistics *)

(** The label [`${startTime} - ${endTime}`]. *)
Definition timeSlotLabel (s : ScheduledSession) : string :=
  (startTime s ++ " - " ++ endTime s)%string.

Fixpoint label_push (cells : list (string * list Occupant)) (label : string)
  (o : Occupant) : list (string * list Occupant) :=
  match cells with
  | [] => [(label, [o])]
  | (k, v) :: rest =>
      if String.eqb k label then (k, v ++ [o]) :: rest
      else (k, v) :: label_push rest label o
  end.

Fixpoint calendar_push (grid : list (DateKey * list (string * list Occupant)))
  (key : DateKey) (label : string) (o : Occupant)
  : list (DateKey * list (string * list Occupant)) :=
  match grid with
  | [] => [(key, [(label, [o])])]
  | (k, cells) :: rest =>
      if key_eqb k key then (k, label_push cells label o) :: rest
      else (k, cells) :: calendar_push rest key label o
  end.

Fixpoint insertLabel (x : string) (l : list string) : list string :=
  match l with
  | [] => [x]
  | y :: rest => if String.leb x y then x :: l else y :: insertLabel x rest
  end.

(** [new Set] of the labels, then [Array.from(...).sort()]. *)
Definition sortedLabels (labels : list string) : list string :=
  fold_right insertLabel []
    (fold_left (fun seen l => if existsb (String.eqb l) seen then seen
                              else seen ++ [l])
               labels []).

Record CalendarData : Type :=
  mkCalendarData { dates : list Date;
                   timeSlots : list string;
                   calendar : list (DateKey * list (string * list Occupant)) }.

Definition generateCalendarGrid (sessions : list ScheduledSession)
  (quarterDates : list Date) : CalendarData :=
  {| dates := quarterDates;
     timeSlots := sortedLabels (map timeSlotLabel sessions);
     calendar :=
       fold_left
         (fun grid s =>
            calendar_push grid (format (date s)) (timeSlotLabel s)
                          (mkOccupant (courseName s) (sessionNumber s)))
         sessions [] |}.

(** The value of [utilizationPercentage]: the number 0, or the text that
    [toFixed(2)] prints, held as the count of hundredths it denotes. *)
Inductive Utilization : Type :=
| Zero
| Fixed2 (hundredths : Z).

(** An integer of the source as a binary64 number; the counts of a grid
    are far below 2^53 and convert exactly. *)
Definition float_of_Z (n : Z) : float := PrimFloat.of_uint63 (Uint63.of_Z n).

(** [x.toFixed(2)] for a finite [x >= 0]: the integer [n] with [n / 100]
    nearest to [x], the larger one of two. *)
Definition toFixed2 (x : float) : Z :=
  match Prim2SF x with
  | S754_finite false m e =>
      if 0 <=? e then Z.shiftl (100 * Zpos m) e
      else Z.shiftr (200 * Zpos m + Z.shiftl 1 (- e)) (- e + 1)
  | _ => 0
  end.

Definition utilization (totalSlots availableSlots : Z) : Utilization :=
  if 0 <? totalSlots then
    Fixed2 (toFixed2
              (PrimFloat.mul
                 (PrimFloat.div (float_of_Z (totalSlots - availableSlots))
                                (float_of_Z totalSlots))
                 (float_of_Z 100)))
  else Zero.

Record Statistics : Type :=
  mkStatistics { totalAvailableSlots : Z;
                 slotsAfterScheduling : Z;
                 totalScheduledSessions : Z;
                 fullyBookedDates : list Date;
                 utilizationPercentage : Utilization }.

(** The three accumulators of [calculateStatistics] after the
    [availabilityGrid.forEach]. *)
Definition statistics_loop (availabilityGrid : AvailabilityGrid)
  : Z * Z * list Date :=
  fold_left
    (fun (acc : Z * Z * list Date) (entry : DateKey * DayData) =>
       let '(totalSlots, availableSlots, fullyBookedDates) := acc in
       let dayData := snd entry in
       let dayTotalSlots := Z.of_nat (List.length (slots dayData)) in
       let dayAvailableSlots :=
         Z.of_nat (List.length (filter available (slots dayData))) in
       (totalSlots + dayTotalSlots, availableSlots + dayAvailableSlots,
        if (0 <? dayTotalSlots) && (dayAvailableSlots =? 0)
        then fullyBookedDates ++ [day_date dayData]
        else fullyBookedDates))
    availabilityGrid (0, 0, []).

Definition calculateStatistics (availabilityGrid : AvailabilityGrid)
  (sessions : list ScheduledSession) : Statistics :=
  let '(totalSlots, availableSlots, fullyBookedDates) :=
    statistics_loop availabilityGrid in
  {| totalAvailableSlots := totalSlots;
     slotsAfterScheduling := availableSlots;
     totalScheduledSessions := Z.of_nat (List.length sessions);
     fullyBookedDates := fullyBookedDates;
     utilizationPercentage := utilization totalSlots availableSlots |}.

(* ================================================================== *)
(** * scheduleEngine.js: generateSchedule *)

Record Schedule : Type :=
  mkSchedule { scheduledSessions : list ScheduledSession;
               calendarData : CalendarData;
               statistics : Statistics }.

(** The engine up to the end of [courses.forEach]: the grid, the history
    and the sessions in the order of their booking. *)
Definition runEngine (cfg : YearStart) (courses : list Course)
  (quarter : string) (year : Z) : Outcome (list Date * EngineState) :=
  let financialYearStart := getFinancialYearStart cfg year in
  quarterDates <- getWeekdaysInQuarter cfg quarter year ;;
  let availabilityGrid := initializeAvailabilityGrid quarterDates in
  st <- scheduleCourses courses financialYearStart quarterDates
                        (availabilityGrid, [], []) ;;
  Returned (quarterDates, st).

Definition generateSchedule (cfg : YearStart) (courses : list Course)
  (quarter : string) (year : Z) : Outcome Schedule :=
  '(quarterDates, (availabilityGrid, _, sessions)) <-
    runEngine cfg courses quarter year ;;
  let scheduledSessions := sortSessions sessions in
  let calendarData := generateCalendarGrid scheduledSessions quarterDates in
  Returned {| scheduledSessions := scheduledSessions;
              calendarData := calendarData;
              statistics :=
                calculateStatistics availabilityGrid scheduledSessions |}.

(* ================================================================== *)
(** * Vocabulary of the properties *)

(** ** Calendar *)

Definition isLeapYear (y : Z) : bool :=
  ((y mod 4 =? 0) && negb (y mod 100 =? 0)) || (y mod 400 =? 0).

Definition daysInMonth (y m : Z) : Z :=
  if m =? 2 then (if isLeapYear y then 29 else 28)
  else if (m =? 4) || (m =? 6) || (m =? 9) || (m =? 11) then 30
  else 31.

(** A date of the calendar. *)
Definition validCivil (k : DateKey) : Prop :=
  let '(y, m, d) := k in 1 <= m <= 12 /\ 1 <= d <= daysInMonth y m.

Definition days_of_key (k : DateKey) : Z :=
  let '(y, m, d) := k in days_from_civil y m d.


(** The 1-based month and the day of the month. *)
Definition monthOf (date : Date) : Z := snd (fst (format date)).
Definition dayOfMonth (date : Date) : Z := snd (format date).

Definition isWeekend (date : Date) : bool :=
  (getDay date =? 0) || (getDay date =? 6).

(** January 1, July 4 and December 25. *)
Definition isFixedHoliday (date : Date) : bool :=
  ((monthOf date =? 1) && (dayOfMonth date =? 1))
  || ((monthOf date =? 7) && (dayOfMonth date =? 4))
  || ((monthOf date =? 12) && (dayOfMonth date =? 25)).

(** A Thursday of November with three Thursdays of the month before it. *)
Definition isFourthThursdayOfNovember (date : Date) : bool :=
  (monthOf date =? 11) && (getDay date =? 4)
  && ((dayOfMonth date - 1) / 7 =? 3).

Definition isFullDayExclusion (date : Date) : bool :=
  isFixedHoliday date || isFourthThursdayOfNovember date.

(** The cutoff of a partially restricted date. *)
Definition restrictionCutoff (date : Date) : option string :=
  let m := monthOf date in
  let d := dayOfMonth date in
  if ((m =? 4) && (d =? 17)) || ((m =? 5) && (d =? 22))
     || ((m =? 6) && (d =? 19))
  then Some "08:30"
  else if (m =? 12) && ((d =? 24) || (d =? 31)) then Some "13:00"
  else None.

(** The time values of JavaScript reach 100,000,000 days to either side
    of 1970-01-01, the last of them in September of the year 275760. *)
Definition inTimeRange (d : Date) : Prop := -100000000 <= d <= 100000000.

(** The years of the common era all of whose days are dates of JavaScript.
    (Before the year 1 the keys that date-fns prints leave out the sign of
    the year.) *)
Definition representableYear (y : Z) : Prop := 0 <= y <= 275759.

(** The years the constructor of [Date] takes for 1900 to 1999. *)
Definition twoDigitYear (y : Z) : bool := (0 <=? y) && (y <=? 99).

(** The template of the date's weekday. *)
Definition weekdayTemplate (date : Date) : list TimeSlot :=
  schedule_lookup WEEKLY_SCHEDULE (dayName (getDay date)).


(** The start times that occur in the weekly schedule. *)
Definition templateStarts : list string :=
  [ "06:00"; "07:00"; "08:00"; "09:00"; "10:00"; "11:00"; "12:00"; "13:00";
    "14:00"; "15:00"; "16:00"; "17:00"; "18:00"; "19:00"; "20:00" ].

(** No text occurs twice in the list. *)
Fixpoint distinct_strings (l : list string) : bool :=
  match l with
  | [] => true
  | x :: rest => negb (existsb (String.eqb x) rest) && distinct_strings rest
  end.

(** ** The grid *)

(** The start time of a grid slot. *)
Definition slotTime (s : GridSlot) : string := start (slot s).

(** What a booking and a release write into a slot. *)
Definition occupy (o : Occupant) (s : GridSlot) : GridSlot :=
  mkGridSlot (slot s) false (Some o).
Definition release (s : GridSlot) : GridSlot := mkGridSlot (slot s) true None.

(** A day of the grid: no two slots start at the same time, and a free
    slot has no occupant. *)
Definition day_wf (dayData : DayData) : Prop :=
  NoDup (map slotTime (slots dayData))
  /\ forall s, In s (slots dayData) -> available s = true -> session s = None.

(** A grid is a map: no key occurs twice; and its days are well formed. *)
Definition grid_wf (grid : AvailabilityGrid) : Prop :=
  NoDup (map fst grid)
  /\ forall key dayData, In (key, dayData) grid -> day_wf dayData.

(** The grid of the dates [quarterDates], whatever its bookings: its keys
    are the keys of the dates in their order, and each day holds the slots
    the calendar gives its date. *)
Definition grid_seeded (quarterDates : list Date) (grid : AvailabilityGrid)
  : Prop :=
  map fst grid = map format quarterDates
  /\ forall key dayData, In (key, dayData) grid ->
       key = format (day_date dayData)
       /\ map slot (slots dayData) = getAvailableTimeSlots (day_date dayData)
       /\ forall s, In s (slots dayData) -> available s = true ->
                    session s = None.

(** The date and start time a session occupies. *)
Definition sessionPair (x : ScheduledSession) : Date * string :=
  (date x, startTime x).

(** The dates and start times of the occupied slots of a grid. *)
Definition occupiedPairs (grid : AvailabilityGrid) : list (Date * string) :=
  flat_map (fun entry : DateKey * DayData =>
              map (fun s => (day_date (snd entry), slotTime s))
                  (filter (fun s => negb (available s)) (slots (snd entry))))
           grid.

(** [booked g0 xs g]: the grid [g] is [g0] after the sessions [xs] were
    booked one after the other, each on a free slot of a date of its own. *)
Inductive booked (g0 : AvailabilityGrid)
  : list ScheduledSession -> AvailabilityGrid -> Prop :=
| booked_nil : booked g0 [] g0
| booked_snoc (xs : list ScheduledSession) (g : AvailabilityGrid)
    (x : ScheduledSession) (dayData : DayData) (i : nat) (o : Occupant) :
    booked g0 xs g ->
    grid_get g (format (date x)) = Some dayData ->
    findIndex (fun s => String.eqb (slotTime s) (startTime x) && available s)
              (slots dayData) = Some i ->
    (forall y, In y xs -> date y <> date x) ->
    booked g0 (xs ++ [x]) (grid_update_slot g (format (date x)) i (occupy o)).

(** The dates the booking loop visits from [cur] on: each is the next
    date of the target weekday, a week after the one before. *)
Inductive date_chain (quarterDates : list Date) (targetDayOfWeek : string)
  : Date -> list Date -> Prop :=
| chain_nil (cur : Date) : date_chain quarterDates targetDayOfWeek cur []
| chain_cons (cur d : Date) (ds : list Date) :
    findNextAvailableDate cur targetDayOfWeek quarterDates = Some d ->
    date_chain quarterDates targetDayOfWeek (addWeeks d 1) ds ->
    date_chain quarterDates targetDayOfWeek cur (d :: ds).

(** The sessions of one course on the dates [ds], numbered from [num]. *)
Fixpoint sessions_on (c : Course) (st en : string) (num : Z) (ds : list Date)
  : list ScheduledSession :=
  match ds with
  | [] => []
  | d :: rest =>
      mkSession d (title c) num st en "" ""
      :: sessions_on c st en (num + 1) rest
  end.

(** [n] dates a week apart, from [d0] on. *)
Fixpoint weekly (d0 : Date) (n : nat) : list Date :=
  match n with
  | O => []
  | S n' => d0 :: weekly (d0 + 7) n'
  end.

(** The weekdays from [first] to [last], as [getWeekdaysInQuarter] lists
    them. *)
Definition weekdaysBetween (first last : Date) : list Date :=
  filter (fun date => let day := getDay date in (1 <=? day) && (day <=? 5))
         (dates_loop (Z.to_nat (last - first + 1)) first last).

(** ** Courses and their instances *)

(** The course falls under the special rules. *)
Definition isSpecial (t : string) : bool :=
  includes (toLowerCase t) "financial intelligence".

(** The first session of an instance of the course titled [t]. *)
Definition isInstanceStart (t : string) (x : ScheduledSession) : bool :=
  String.eqb (courseName x) t && (sessionNumber x =? 1).

(** The history entry of an instance that starts with the session [x]. *)
Definition startEntry (x : ScheduledSession) : HistoryEntry :=
  mkHistoryEntry (date x) (dayName (getDay (date x))) (startTime x).

(** Two starts are at least three hours apart. *)
Definition threeHoursApart (a b : string) : bool :=
  match getTimeDifferenceInHours a b with
  | Some q => Qle_bool 3 q
  | None => false
  end.

(** The separation rule between two instance starts. *)
Definition separationOk (a b : HistoryEntry) : bool :=
  negb (String.eqb (h_dayOfWeek a) (h_dayOfWeek b))
  && threeHoursApart (h_startTime a) (h_startTime b).

(** The rule holds between every entry and the next. *)
Fixpoint separated (l : list HistoryEntry) : bool :=
  match l with
  | a :: (b :: _) as rest => separationOk a b && separated rest
  | _ => true
  end.

(** The instance of the course [c] that starts on [d0] at [st]. *)
Definition instance_of (c : Course) (d0 : Date) (st en : string)
  : list ScheduledSession :=
  sessions_on c st en 1 (weekly d0 (Z.to_nat (sessions c))).

(** [inst] is an instance of one of the [courses], on a slot the calendar
    gives its start date and, for a special course, inside the special
    window. *)
Definition is_instance (courses : list Course) (quarterDates : list Date)
  (inst : list ScheduledSession) : Prop :=
  exists c d0 st en,
    In c courses /\ In d0 quarterDates /\ 1 <= sessions c
    /\ inst = instance_of c d0 st en
    /\ In (mkTimeSlot st en) (getAvailableTimeSlots d0)
    /\ (isSpecial (title c) = true ->
        isValidForFinancialIntelligence (dayName (getDay d0)) st = true).

(** [inst] is what one attempt of the engine booked: the call of
    [scheduleCourseSessions] for the course [c] on the candidate start date
    [startDate], on a grid of the quarter, where [findSuitableSlot] chose
    the slot [sl] of that date. *)
Definition attempt_booked (quarterDates : list Date) (c : Course)
  (startDate : Date) (sl : SuitableSlot) (inst : list ScheduledSession)
  : Prop :=
  exists (grid : AvailabilityGrid) (history : CourseHistory),
    grid_seeded quarterDates grid
    /\ findSuitableSlot startDate c grid (history_get history (title c))
                        (isSpecial (title c)) = Some sl
    /\ snd (scheduleCourseSessions c startDate quarterDates grid history
                                   (isSpecial (title c))) = inst.

(** [inst] is the whole instance of one of the [courses] that an attempt
    on a date of the quarter booked, from that date on, at a slot the
    calendar gives the date. *)
Definition attempt_instance (courses : list Course) (quarterDates : list Date)
  (inst : list ScheduledSession) : Prop :=
  exists (c : Course) (startDate : Date) (sl : SuitableSlot),
    In c courses /\ In startDate quarterDates
    /\ attempt_booked quarterDates c startDate sl inst
    /\ In (mkTimeSlot (slotStart sl) (slotEnd sl))
          (getAvailableTimeSlots startDate)
    /\ 1 <= sessions c
    /\ inst = instance_of c startDate (slotStart sl) (slotEnd sl).

(** The sessions are sorted by start date. *)
Fixpoint sortedByDate (l : list ScheduledSession) : bool :=
  match l with
  | a :: (b :: _) as rest => (date a <=? date b) && sortedByDate rest
  | _ => true
  end.

(** The body of the loop of [rollbackSessions]: the slot of the date that
    starts at [st] is set free. *)
Definition release_at (grid : AvailabilityGrid) (d : Date) (st : string)
  : AvailabilityGrid :=
  match grid_get grid (format d) with
  | Some dayData =>
      match findIndex (fun s => String.eqb (start (slot s)) st)
                      (slots dayData) with
      | Some slotIndex =>
          grid_update_slot grid (format d) slotIndex
            (fun s => mkGridSlot (slot s) true None)
      | None => grid
      end
  | None => grid
  end.

(** The dates of [quarterDates] from [d] on that fall on the weekday of
    [d]: the weekly meetings an instance that starts on [d] can have. *)
Definition matchingDates (quarterDates : list Date) (d : Date) : list Date :=
  filter (fun x => (d <=? x) && (getDay x =? getDay d)) quarterDates.

(** The number of free slots of a grid. *)
Definition freeSlots (grid : AvailabilityGrid) : Z :=
  fold_right (fun (entry : DateKey * DayData) n =>
                Z.of_nat (List.length (filter available (slots (snd entry)))) + n)
             0 grid.

(** The number of slots of a grid. *)
Definition totalSlots (grid : AvailabilityGrid) : Z :=
  fold_right (fun (entry : DateKey * DayData) n =>
                Z.of_nat (List.length (slots (snd entry))) + n)
             0 grid.

(** The hour of a start time lies in the window of the special course. *)
Definition inSpecialHours (st : string) : bool :=
  match number_part 0 st with
  | Some hour => (10 <=? hour) && (hour <? 13)
  | None => false
  end.

(** ** The invariant of a run *)

(** The entry of the history lies in the window of the special course. *)
Definition specialEntry (e : HistoryEntry) : Prop :=
  isValidForFinancialIntelligence (h_dayOfWeek e) (h_startTime e) = true.

(** What holds of the grid, the history and the sessions booked so far, at
    every point between two attempts of a run over the dates
    [quarterDates]. *)
Record engine_inv (courses : list Course) (quarterDates : list Date)
  (grid : AvailabilityGrid) (history : CourseHistory)
  (booked_sessions : list ScheduledSession) : Prop :=
  { inv_seeded : grid_seeded quarterDates grid;
    inv_occupied :
      Permutation (occupiedPairs grid) (map sessionPair booked_sessions);
    inv_history :
      forall t, history_get history t
                = map startEntry (filter (isInstanceStart t) booked_sessions);
    inv_separated :
      forall t, isSpecial t = false -> separated (history_get history t) = true;
    inv_special :
      forall t, isSpecial t = true ->
                (List.length (history_get history t) <= 1)%nat
                /\ Forall specialEntry (history_get history t);
    inv_times :
      forall t e, In e (history_get history t) ->
                  In (h_startTime e) templateStarts;
    inv_instances :
      exists insts, booked_sessions = List.concat insts
                    /\ Forall (is_instance courses quarterDates) insts }.

(** The day [initializeAvailabilityGrid] stores for a date. *)
Definition freshDay (d : Date) : DayData :=
  mkDayData d (map (fun slot => mkGridSlot slot true None)
                   (getAvailableTimeSlots d)).

(** The sessions of a list on a date at a start time. *)
Definition sessionsAt (l : list ScheduledSession) (d : Date) (st : string)
  : list ScheduledSession :=
  filter (fun x => (date x =? d) && String.eqb (startTime x) st) l.

(** Equality of the pairs of a date and a start time is decidable. *)
Definition pair_dec (x y : Date * string) : {x = y} + {x <> y}.
Proof.
  destruct x as [d1 s1], y as [d2 s2].
  destruct (Z.eq_dec d1 d2) as [Ed|Ed]; [|right; congruence].
  destruct (string_dec s1 s2) as [Es|Es]; [|right; congruence].
  left. congruence.
Defined.

(** ** Sample runs *)

Definition emptySchedule : Schedule :=
  mkSchedule [] (mkCalendarData [] [] []) (mkStatistics 0 0 0 [] Zero).

(** What a call returned, or the empty schedule. *)
Definition returned (o : Outcome Schedule) : Schedule :=
  match o with
  | Returned r => r
  | _ => emptySchedule
  end.

Definition emptyRun : list Date * EngineState := ([], ([], [], [])).

Definition returnedRun (o : Outcome (list Date * EngineState))
  : list Date * EngineState :=
  match o with
  | Returned r => r
  | _ => emptyRun
  end.

(** A course of two weekly sessions every twelve weeks, and the special
    course, in the first quarter of the financial year 2025. *)
Definition sampleCourses : list Course :=
  [ mkCourse "Leading Teams" 12 2; mkCourse "Financial Intelligence" 12 2 ].

Definition sampleSchedule : Schedule :=
  returned (generateSchedule April sampleCourses "Q1" 2025).

Definition sampleRun : list Date * EngineState :=
  returnedRun (runEngine April sampleCourses "Q1" 2025).

(** ** The separation of instances, read by start date *)

(** In every list of the first sessions of a course that are not special,
    ordered by date, each session and the next are on different weekdays
    and three hours apart. *)
Definition separation_by_start_date (cfg : YearStart) (courses : list Course)
  (quarter : string) (year : Z) : Prop :=
  forall (r : Schedule) (t : string) (l : list ScheduledSession),
    generateSchedule cfg courses quarter year = Returned r ->
    isSpecial t = false ->
    Permutation l (filter (isInstanceStart t) (scheduledSessions r)) ->
    sortedByDate l = true ->
    separated (map startEntry l) = true.

(** ** The calendar rules, read for every date *)



(** ** The run, read for every course list *)



(** One course of a single session, every twelve weeks. *)
Definition singleSessionCourse : list Course := [ mkCourse "Leading Teams" 12 1 ].

(** ** Checks that compute *)

Fixpoint distinct_keys (l : list DateKey) : bool :=
  match l with
  | [] => true
  | k :: rest => negb (existsb (key_eqb k) rest) && distinct_keys rest
  end.

(** [grid_wf], as a check. *)
Definition grid_wfb (grid : AvailabilityGrid) : bool :=
  distinct_keys (map fst grid)
  && forallb (fun entry : DateKey * DayData =>
                distinct_strings (map slotTime (slots (snd entry)))
                && forallb (fun s => negb (available s)
                                     || match session s with
                                        | None => true
                                        | Some _ => false
                                        end)
                           (slots (snd entry)))
             grid.

(** The weekdays of April to June 2025. *)
Definition sampleDates : list Date :=
  weekdaysBetween (make 2025 3 1) (make 2025 5 30).

(** A course of three weekly sessions, and one of more weekly sessions
    than a quarter has weeks. *)
Definition threeSessions : Course := mkCourse "Leading Teams" 1 3.
Definition longCourse : Course := mkCourse "Leading Teams" 4 15.

(** The four quarters the engine knows. *)
Definition quarterNames : list string := [ "Q1"; "Q2"; "Q3"; "Q4" ].

(** ** Statistics *)

(** The date has a slot and no free slot. *)
Definition isFullyBooked (dayData : DayData) : bool :=
  (0 <? Z.of_nat (List.length (slots dayData)))
  && (Z.of_nat (List.length (filter available (slots dayData))) =? 0).

(** [n] hundredths are the percentage of [total - free] in [total],
    rounded to two decimal places: no other count of hundredths is nearer. *)
Definition roundedPercentage (total free n : Z) : Prop :=
  2 * Z.abs (n * total - 10000 * (total - free)) <= total.

(** The check of the utilization that binary64 arithmetic computes for
    [total] slots of which [free] are free. *)
Definition utilization_ok (total free : Z) : bool :=
  match utilization total free with
  | Fixed2 n =>
      (0 <=? n) && (n <=? 10000)
      && (2 * Z.abs (n * total - 10000 * (total - free)) <=? total)
  | Zero => false
  end.

(** [p] holds of the [fuel] integers from [i] on. *)
Fixpoint all_from (fuel : nat) (i : Z) (p : Z -> bool) : bool :=
  match fuel with
  | O => true
  | S fuel' => p i && all_from fuel' (i + 1) p
  end.

(** A quarter has at most 92 days, and a day at most 14 slots. *)
Definition maxQuarterSlots : Z := 14 * 92.

(* ================================================================== *)
(** * The rest of the three files, and what their callers read *)

(** ** timeSlots.js: getAllTimeSlots *)

(** The label [`${slot.start} - ${slot.end}`] of a time slot. *)
Definition slotLabel (t : TimeSlot) : string :=
  (start t ++ " - " ++ end_ t)%string.

(** The labels of all days enter a [Set] in the order of
    [Object.values(WEEKLY_SCHEDULE)]; the set is then sorted as an array. *)
Definition getAllTimeSlots : list string :=
  sortedLabels
    (flat_map (fun entry : string * list TimeSlot => map slotLabel (snd entry))
              WEEKLY_SCHEDULE).

(** ** quarterUtils.js: the quarter table with its names and labels *)

Record QuarterInfo : Type :=
  mkQuarterInfo { q_name : string; q_months : list Z; q_label : string }.

(** The object [QUARTERS] with all three fields of its entries. *)
Definition QUARTER_TABLE (cfg : YearStart) : list (string * QuarterInfo) :=
  match cfg with
  | January =>
      [ ("Q1", mkQuarterInfo "Q1" [1; 2; 3] "Q1 (Jan-Mar)");
        ("Q2", mkQuarterInfo "Q2" [4; 5; 6] "Q2 (Apr-Jun)");
        ("Q3", mkQuarterInfo "Q3" [7; 8; 9] "Q3 (Jul-Sep)");
        ("Q4", mkQuarterInfo "Q4" [10; 11; 12] "Q4 (Oct-Dec)") ]
  | April =>
      [ ("Q1", mkQuarterInfo "Q1" [4; 5; 6] "Q1 (Apr-Jun)");
        ("Q2", mkQuarterInfo "Q2" [7; 8; 9] "Q2 (Jul-Sep)");
        ("Q3", mkQuarterInfo "Q3" [10; 11; 12] "Q3 (Oct-Dec)");
        ("Q4", mkQuarterInfo "Q4" [1; 2; 3] "Q4 (Jan-Mar)") ]
  end.

(** An option of the quarter dropdown. *)
Record QuarterOption : Type :=
  mkQuarterOption { opt_value : string; opt_label : string }.

(** [Object.values(QUARTERS).map(q => ({ value: q.name, label: q.label }))]. *)
Definition getQuarterOptions (cfg : YearStart) : list QuarterOption :=
  map (fun entry : string * QuarterInfo =>
         mkQuarterOption (q_name (snd entry)) (q_label (snd entry)))
      (QUARTER_TABLE cfg).

(** ** The calendar view, as the calendar sheet reads it *)

Fixpoint cells_get (cells : list (string * list Occupant)) (label : string)
  : list Occupant :=
  match cells with
  | [] => []
  | (k, v) :: rest => if String.eqb k label then v else cells_get rest label
  end.

Fixpoint calendar_get (grid : list (DateKey * list (string * list Occupant)))
  (key : DateKey) : list (string * list Occupant) :=
  match grid with
  | [] => []
  | (k, cells) :: rest =>
      if key_eqb k key then cells else calendar_get rest key
  end.

(** [grid[dateKey]?.[timeSlot] || []]. *)
Definition calendar_cell (grid : list (DateKey * list (string * list Occupant)))
  (key : DateKey) (label : string) : list Occupant :=
  cells_get (calendar_get grid key) label.

(** The key of the week of a session in the sheet by weeks:
    [weekStart.setDate(weekStart.getDate() - weekStart.getDay() + 1)]. *)
Definition weekStartOf (d : Date) : Date :=
  setDate d (getDate d - getDay d + 1).

(** ** Vocabulary *)

(** The [n] days from [d] on. *)
Fixpoint days_from (n : nat) (d : Date) : list Date :=
  match n with
  | O => []
  | S n' => d :: days_from n' (d + 1)
  end.

Definition isBusinessDay (d : Date) : bool :=
  let day := getDay d in (1 <=? day) && (day <=? 5).

(** Each date is before the next. *)
Fixpoint ascending (l : list Date) : bool :=
  match l with
  | a :: (b :: _) as rest => (a <? b) && ascending rest
  | _ => true
  end.

(** Each text is before the next in the order of the characters. *)
Fixpoint ascending_strings (l : list string) : bool :=
  match l with
  | a :: (b :: _) as rest => String.ltb a b && ascending_strings rest
  | _ => true
  end.

(** The order of the result list: by date, then by start time. *)
Definition sessionBefore (a b : ScheduledSession) : bool :=
  (date a <? date b)
  || ((date a =? date b) && String.ltb (startTime a) (startTime b)).

Fixpoint strictlySorted (l : list ScheduledSession) : bool :=
  match l with
  | a :: (b :: _) as rest => sessionBefore a b && strictlySorted rest
  | _ => true
  end.

(** [n] dates from [d] on, [step] days apart. *)
Fixpoint progression (d : Date) (step : Z) (n : nat) : list Date :=
  match n with
  | O => []
  | S n' => d :: progression (d + step) step n'
  end.

(** The text "HH:MM" of an hour and a minute below 100. *)
Definition digit_ascii (d : Z) : ascii := ascii_of_N (Z.to_N (48 + d)).

Definition pad2 (n : Z) : string :=
  String (digit_ascii (n / 10)) (String (digit_ascii (n mod 10)) "").

Definition clockTime (h m : Z) : string := (pad2 h ++ ":" ++ pad2 m)%string.

(** The occupants of all cells of a calendar view. *)
Definition calendar_entries
  (grid : list (DateKey * list (string * list Occupant))) : list Occupant :=
  flat_map (fun entry : DateKey * list (string * list Occupant) =>
              flat_map (fun cell : string * list Occupant => snd cell)
                       (snd entry))
           grid.

(** The end of the financial year as [calculateCadenceStartDates] computes
    it: a copy of the start, moved by [setFullYear], [setMonth(2)] and
    [setDate(31)]. *)
Definition financialYearEnd (financialYearStart : Date) : Date :=
  setDate (setMonth (setFullYear financialYearStart
                                 (getFullYear financialYearStart + 1)) 2) 31.

(** The comparator of the final sort does not put [a] after [b]. *)
Definition notAfter (a b : ScheduledSession) : bool :=
  match compareSessions a b with
  | Gt => false
  | _ => true
  end.

Fixpoint orderedSessions (l : list ScheduledSession) : bool :=
  match l with
  | a :: (b :: _) as rest => notAfter a b && orderedSessions rest
  | _ => true
  end.

(** The entry a session leaves in its cell of the calendar view. *)
Definition occupantOf (s : ScheduledSession) : Occupant :=
  mkOccupant (courseName s) (sessionNumber s).

(** The sessions of a date key and a label, in the order of the list. *)
Definition cellSessions (sessions : list ScheduledSession) (key : DateKey)
  (label : string) : list ScheduledSession :=
  filter (fun s => key_eqb (format (date s)) key
                   && String.eqb (timeSlotLabel s) label)
         sessions.

(** The slot of the date [d] that starts at [st] is in the grid and free. *)
Definition slotFree (grid : AvailabilityGrid) (d : Date) (st : string) : bool :=
  match grid_get grid (format d) with
  | Some dayData =>
      existsb (fun s => String.eqb (start (slot s)) st && available s)
              (slots dayData)
  | None => false
  end.

(** Every key of the grid is the key of one of the dates. *)
Definition keysAmong (grid : AvailabilityGrid) (quarterDates : list Date)
  : bool :=
  forallb (fun key => existsb (fun d => key_eqb (format d) key) quarterDates)
          (map fst grid).

(** The slots the calendar gives the dates of a list. *)
Definition capacity (quarterDates : list Date) : Z :=
  fold_right (fun d n => Z.of_nat (List.length (getAvailableTimeSlots d)) + n)
             0 quarterDates.

(** ** The application: a schedule for the four quarters of a year *)

(** A session with the [quarter] property the application adds. *)
Record TaggedSession : Type :=
  mkTagged { session_of : ScheduledSession; quarter_of : string }.

(** The statistics the application adds up over the quarters. *)
Record YearStatistics : Type :=
  mkYearStatistics { y_totalAvailableSlots : Z;
                     y_totalScheduledSessions : Z;
                     y_slotsAfterScheduling : Z;
                     y_utilizationPercentage : float }.

(** The loop [for (const quarter of quarters)] of [handleGenerateSchedule];
    an error of [generateSchedule] ends it. *)
Fixpoint yearLoop (cfg : YearStart) (courses : list Course) (year : Z)
  (quarters : list string) (allSessions : list TaggedSession)
  (totals : Z * Z * Z) : Outcome (list TaggedSession * (Z * Z * Z)) :=
  match quarters with
  | [] => Returned (allSessions, totals)
  | quarter :: rest =>
      result <- generateSchedule cfg courses quarter year ;;
      let sessionsWithQuarter :=
        map (fun s => mkTagged s quarter) (scheduledSessions result) in
      let '(available, scheduled, after) := totals in
      yearLoop cfg courses year rest (allSessions ++ sessionsWithQuarter)
        (available + totalAvailableSlots (statistics result),
         scheduled + totalScheduledSessions (statistics result),
         after + slotsAfterScheduling (statistics result))
  end.

(** The schedule of the full year and its statistics, as the application
    builds them from the four quarters. *)
Definition generateFullYear (cfg : YearStart) (courses : list Course)
  (year : Z) : Outcome (list TaggedSession * YearStatistics) :=
  '(allSessions, (available, scheduled, after)) <-
    yearLoop cfg courses year ["Q1"; "Q2"; "Q3"; "Q4"] [] (0, 0, 0) ;;
  Returned
    (allSessions,
     {| y_totalAvailableSlots := available;
        y_totalScheduledSessions := scheduled;
        y_slotsAfterScheduling := after;
        y_utilizationPercentage :=
          PrimFloat.mul (PrimFloat.div (float_of_Z scheduled)
                                       (float_of_Z available))
                        (float_of_Z 100) |}).

(* ================================================================== *)
(** * The calendar *)

Section Calendar.

Lemma key_eqb_eq (a b : DateKey) : key_eqb a b = true <-> a = b.
Proof.
  destruct a as [[y1 m1] d1], b as [[y2 m2] d2]; unfold key_eqb.
  rewrite !andb_true_iff, !Z.eqb_eq. split.
  - intros [[-> ->] ->]; reflexivity.
  - intros H; injection H as -> -> ->; auto.
Qed.

Lemma key_eqb_refl (a : DateKey) : key_eqb a a = true.
Proof. apply key_eqb_eq; reflexivity. Qed.

Lemma key_eqb_neq (a b : DateKey) : key_eqb a b = false <-> a <> b.
Proof.
  split.
  - intros H Heq. apply key_eqb_eq in Heq. congruence.
  - intros H. destruct (key_eqb a b) eqn:E; [|reflexivity].
    apply key_eqb_eq in E. contradiction.
Qed.

(** Every day number is the day number of its civil date. *)
Lemma days_of_civil (z : Z) : days_of_key (civil_from_days z) = z.
Proof.
  unfold days_of_key, civil_from_days, days_from_civil.
  cbv zeta.
  set (z' := z + 719468).
  set (era := z' / 146097).
  set (doe := z' - era * 146097).
  assert (Hdoe : 0 <= doe < 146097) by (subst doe era; Z.div_mod_to_equations; lia).
  assert (Hz : z = era * 146097 + doe - 719468) by (subst doe z'; ring).
  clearbody doe.
  set (yoe := (doe - doe / 1460 + doe / 36524 - doe / 146096) / 365).
  assert (Hyoe : 0 <= yoe <= 399) by (subst yoe; Z.div_mod_to_equations; lia).
  set (doy := doe - (365 * yoe + yoe / 4 - yoe / 100)).
  assert (Hdoy : 0 <= doy <= 365).
  { subst doy yoe. Z.div_mod_to_equations; lia. }
  set (mp := (5 * doy + 2) / 153).
  assert (Hmp : 0 <= mp <= 11) by (subst mp; Z.div_mod_to_equations; lia).
  assert (Hera : forall a, 0 <= a <= 399 -> (a + era * 400) / 400 = era).
  { intros a Ha. symmetry. apply (Z.div_unique _ _ _ a); lia. }
  destruct (mp <? 10) eqn:E1.
  - apply Z.ltb_lt in E1.
    destruct (mp + 3 <=? 2) eqn:E2; [apply Z.leb_le in E2; lia|].
    replace (2 <? mp + 3) with true by (symmetry; apply Z.ltb_lt; lia).
    rewrite Hera by lia.
    replace (yoe + era * 400 - era * 400) with yoe by ring.
    replace (mp + 3 - 3) with mp by ring.
    transitivity (era * 146097 + doe - 719468); [unfold doy; ring|symmetry; exact Hz].
  - apply Z.ltb_ge in E1.
    destruct (mp - 9 <=? 2) eqn:E2; [|apply Z.leb_gt in E2; lia].
    replace (2 <? mp - 9) with false by (symmetry; apply Z.ltb_ge; lia).
    replace (yoe + era * 400 + 1 - 1) with (yoe + era * 400) by ring.
    rewrite Hera by lia.
    replace (yoe + era * 400 - era * 400) with yoe by ring.
    replace (mp - 9 + 9) with mp by ring.
    transitivity (era * 146097 + doe - 719468); [unfold doy; ring|symmetry; exact Hz].
Qed.

Lemma format_inj (a b : Date) : format a = format b -> a = b.
Proof.
  unfold format. intros H.
  rewrite <- (days_of_civil a), <- (days_of_civil b), H. reflexivity.
Qed.

Lemma daysInMonth_bounds (y m : Z) : 28 <= daysInMonth y m <= 31.
Proof.
  unfold daysInMonth.
  destruct (m =? 2); [destruct (isLeapYear y); lia|].
  destruct ((m =? 4) || (m =? 6) || (m =? 9) || (m =? 11)); lia.
Qed.

(** Every date of the calendar is the civil date of its day number. *)
Lemma civil_of_days (y m d : Z) :
  validCivil (y, m, d) -> civil_from_days (days_from_civil y m d) = (y, m, d).
Proof.
  intros [Hm Hd].
  unfold civil_from_days, days_from_civil. cbv zeta.
  set (y' := if m <=? 2 then y - 1 else y).
  set (era := y' / 400).
  set (yoe := y' - era * 400).
  assert (Hyoe : 0 <= yoe <= 399) by (subst yoe era; Z.div_mod_to_equations; lia).
  set (mp := if 2 <? m then m - 3 else m + 9).
  assert (Hmp : 0 <= mp <= 11) by (subst mp; destruct (2 <? m) eqn:E; [apply Z.ltb_lt in E|apply Z.ltb_ge in E]; lia).
  set (doy := (153 * mp + 2) / 5 + d - 1).
  (* leap condition in terms of yoe *)
  assert (Hleap : isLeapYear (y' + 1) = ((((yoe + 1) mod 4 =? 0) && negb ((yoe + 1) mod 100 =? 0)) || ((yoe + 1) mod 400 =? 0))).
  { unfold isLeapYear. replace (y' + 1) with (yoe + 1 + era * 400) by (subst yoe; ring).
    replace (yoe + 1 + era * 400) with (yoe + 1 + (100 * era) * 4) at 1 by ring.
    replace (yoe + 1 + era * 400) with (yoe + 1 + (4 * era) * 100) at 1 by ring.
    rewrite !Z.mod_add by lia. reflexivity. }
  assert (Hsel : (m <= 2 /\ mp = m + 9 /\ y' = y - 1) \/ (2 < m /\ mp = m - 3 /\ y' = y)).
  { subst mp y'. destruct (2 <? m) eqn:E; [apply Z.ltb_lt in E|apply Z.ltb_ge in E].
    - right. replace (m <=? 2) with false by (symmetry; apply Z.leb_gt; lia). lia.
    - left. replace (m <=? 2) with true by (symmetry; apply Z.leb_le; lia). lia. }
  clearbody mp.
  assert (Hdoy : 0 <= doy <= 365 /\ (doy = 365 -> isLeapYear (y' + 1) = true)
                 /\ (5 * doy + 2) / 153 = mp /\ doy - (153 * mp + 2) / 5 + 1 = d).
  { subst doy. unfold daysInMonth in Hd. clear Hleap.
    assert (Hc : m = 1 \/ m = 2 \/ m = 3 \/ m = 4 \/ m = 5 \/ m = 6 \/ m = 7 \/ m = 8 \/ m = 9 \/ m = 10 \/ m = 11 \/ m = 12) by lia.
    destruct Hc as [->|[->|[->|[->|[->|[->|[->|[->|[->|[->|[->| ->]]]]]]]]]]];
      cbn [Z.eqb Pos.eqb orb] in Hd;
      (assert (Hmpv : mp = 10 \/ mp = 11 \/ mp = 0 \/ mp = 1 \/ mp = 2 \/ mp = 3 \/ mp = 4 \/ mp = 5 \/ mp = 6 \/ mp = 7 \/ mp = 8 \/ mp = 9) by lia);
      try (split; [Z.div_mod_to_equations; lia | split; [intros H; exfalso; Z.div_mod_to_equations; lia | split; Z.div_mod_to_equations; lia]]).
    assert (Ey : y' + 1 = y) by lia. rewrite Ey.
    destruct (isLeapYear y); (split; [Z.div_mod_to_equations; lia | split; [auto; intros H; exfalso; Z.div_mod_to_equations; lia | split; Z.div_mod_to_equations; lia]]). }
  clearbody doy. rewrite Hleap in Hdoy. clear Hleap.
  set (doe := yoe * 365 + yoe / 4 - yoe / 100 + doy).
  assert (Hdoe : 0 <= doe <= 146096).
  { subst doe. destruct Hdoy as (Hb & Hl & _).
    destruct (Z.eq_dec doy 365) as [E|E].
    - specialize (Hl E). apply orb_true_iff in Hl.
      rewrite andb_true_iff, negb_true_iff, !Z.eqb_eq, Z.eqb_neq in Hl.
      Z.div_mod_to_equations; lia.
    - Z.div_mod_to_equations; lia. }
  replace (era * 146097 + doe - 719468 + 719468) with (doe + era * 146097) by ring.
  assert (Hera : (doe + era * 146097) / 146097 = era).
  { symmetry; apply (Z.div_unique _ _ _ doe). all: lia. }
  rewrite Hera.
  replace (doe + era * 146097 - era * 146097) with doe by ring.
  assert (Hy : (doe - doe / 1460 + doe / 36524 - doe / 146096) / 365 = yoe).
  { subst doe. destruct Hdoy as (Hb & Hl & _).
    destruct (Z.eq_dec doy 365) as [E|E].
    - specialize (Hl E). apply orb_true_iff in Hl.
      rewrite andb_true_iff, negb_true_iff, !Z.eqb_eq, Z.eqb_neq in Hl.
      (Z.div_mod_to_equations; lia).
    - (Z.div_mod_to_equations; lia). }
  rewrite Hy.
  replace (doe - (365 * yoe + yoe / 4 - yoe / 100)) with doy by (subst doe; ring).
  destruct Hdoy as (_ & _ & Hmp' & Hd').
  rewrite Hmp', Hd'.
  destruct Hsel as [(H1 & H2 & H3)|(H1 & H2 & H3)].
  - replace (mp <? 10) with false by (symmetry; apply Z.ltb_ge; lia).
    replace (mp - 9 <=? 2) with true by (symmetry; apply Z.leb_le; lia).
    replace (yoe + era * 400 + 1) with y by (subst yoe; lia).
    replace (mp - 9) with m by lia. reflexivity.
  - replace (mp <? 10) with true by (symmetry; apply Z.ltb_lt; lia).
    replace (mp + 3 <=? 2) with false by (symmetry; apply Z.leb_gt; lia).
    replace (yoe + era * 400) with y by (subst yoe; lia).
    replace (mp + 3) with m by lia. reflexivity.
Qed.

Lemma days_from_civil_day (y m d : Z) :
  days_from_civil y m d = days_from_civil y m 1 + (d - 1).
Proof. unfold days_from_civil. ring. Qed.

Lemma make_civil (y mi d : Z) :
  0 <= mi <= 11 -> make y mi d = days_from_civil y (mi + 1) d.
Proof.
  intros H. unfold make.
  rewrite Z.div_small, Z.mod_small by lia.
  rewrite Z.add_0_r. symmetry. apply days_from_civil_day.
Qed.

Lemma format_make (y mi d : Z) :
  0 <= mi <= 11 -> 1 <= d <= daysInMonth y (mi + 1) ->
  format (make y mi d) = (y, mi + 1, d).
Proof.
  intros Hm Hd. rewrite make_civil by assumption.
  apply civil_of_days. split; lia.
Qed.

Lemma date_of_format (date : Date) (y m d : Z) :
  format date = (y, m, d) -> date = days_from_civil y m d.
Proof.
  intros H. rewrite <- (days_of_civil date). unfold format in H.
  rewrite H. reflexivity.
Qed.

(** The constructor never builds a date of the years 0 to 99. *)
Lemma fullYear_cases (year : Z) :
  (twoDigitYear year = true /\ fullYear year = 1900 + year)
  \/ (twoDigitYear year = false /\ fullYear year = year).
Proof.
  unfold fullYear, twoDigitYear.
  destruct ((0 <=? year) && (year <=? 99)); auto.
Qed.

Lemma fullYear_not_twoDigit (year : Z) : twoDigitYear (fullYear year) = false.
Proof.
  unfold fullYear, twoDigitYear.
  destruct ((0 <=? year) && (year <=? 99)) eqn:E; [|exact E].
  apply andb_true_iff in E as [H1 H2].
  apply Z.leb_le in H1, H2.
  apply andb_false_iff. right. apply Z.leb_gt. lia.
Qed.

Lemma fullYear_id (year : Z) : twoDigitYear year = false -> fullYear year = year.
Proof.
  intros H. destruct (fullYear_cases year) as [[E _]|[_ E]]; congruence.
Qed.

Lemma getDay_bounds (d : Date) : 0 <= getDay d <= 6.
Proof. unfold getDay. pose proof (Z.mod_pos_bound (d + 4) 7). lia. Qed.

Lemma getDay_shift (d k : Z) : getDay (d + 7 * k) = getDay d.
Proof.
  unfold getDay. replace (d + 7 * k + 4) with (d + 4 + k * 7) by ring.
  apply Z.mod_add. lia.
Qed.

Lemma getDay_addWeeks (d n : Z) : getDay (addWeeks d n) = getDay d.
Proof.
  unfold addWeeks, addDays. replace (n * 7) with (7 * n) by ring.
  apply getDay_shift.
Qed.

Lemma getDay_succ (d : Date) : getDay (d + 1) = (getDay d + 1) mod 7.
Proof. unfold getDay. Z.div_mod_to_equations. lia. Qed.

(** The loop of [getThanksgivingDate] stops on the Thursday it looks for
    whenever the fuel reaches that far. *)
Lemma thanksgiving_loop_reaches (fuel : nat) :
  forall (c d : Z),
    c < 4 ->
    (4 - getDay d) mod 7 + 7 * (3 - c) < Z.of_nat fuel ->
    thanksgiving_loop fuel c d = d + (4 - getDay d) mod 7 + 7 * (3 - c).
Proof.
  induction fuel as [|fuel IH]; intros c d Hc Hfuel.
  - pose proof (Z.mod_pos_bound (4 - getDay d) 7 ltac:(lia)).
    change (Z.of_nat 0) with 0 in Hfuel. lia.
  - cbn [thanksgiving_loop].
    pose proof (getDay_bounds d) as Hb.
    replace (c <? 4) with true by (symmetry; apply Z.ltb_lt; lia).
    destruct (getDay d =? 4) eqn:E.
    + apply Z.eqb_eq in E.
      destruct (c + 1 =? 4) eqn:E4.
      * apply Z.eqb_eq in E4. rewrite E. change ((4 - 4) mod 7) with 0. lia.
      * apply Z.eqb_neq in E4.
        rewrite IH; rewrite ?getDay_succ, ?E in *;
          change ((4 + 1) mod 7) with 5 in *;
          change ((4 - 5) mod 7) with 6 in *;
          change ((4 - 4) mod 7) with 0 in *; lia.
    + apply Z.eqb_neq in E.
      assert (Hk : (4 - getDay (d + 1)) mod 7 = (4 - getDay d) mod 7 - 1).
      { rewrite getDay_succ. Z.div_mod_to_equations. lia. }
      rewrite IH; rewrite ?Hk; lia.
Qed.

Lemma getThanksgivingDate_spec (year : Z) :
  getThanksgivingDate year
  = newDate year 10 1 + (4 - getDay (newDate year 10 1)) mod 7 + 21.
Proof.
  unfold getThanksgivingDate.
  rewrite thanksgiving_loop_reaches.
  - lia.
  - lia.
  - pose proof (Z.mod_pos_bound (4 - getDay (newDate year 10 1)) 7).
    change (Z.of_nat 28) with 28. lia.
Qed.

(** The loop does not depend on the fuel beyond the 28 rounds it is given. *)
Lemma thanksgiving_loop_fuel (fuel : nat) (year : Z) :
  (28 <= fuel)%nat ->
  thanksgiving_loop fuel 0 (newDate year 10 1) = getThanksgivingDate year.
Proof.
  intros H. rewrite getThanksgivingDate_spec.
  rewrite thanksgiving_loop_reaches.
  - lia.
  - lia.
  - pose proof (Z.mod_pos_bound (4 - getDay (newDate year 10 1)) 7). lia.
Qed.

Lemma format_thanksgiving (year : Z) :
  format (getThanksgivingDate year)
  = (fullYear year, 11, 22 + (4 - getDay (newDate year 10 1)) mod 7).
Proof.
  rewrite getThanksgivingDate_spec.
  pose proof (Z.mod_pos_bound (4 - getDay (newDate year 10 1)) 7 ltac:(lia)) as Hk.
  remember ((4 - getDay (newDate year 10 1)) mod 7) as k eqn:Ek. clear Ek.
  unfold newDate. generalize (fullYear year) as y. intros y.
  rewrite make_civil by lia. change (10 + 1) with 11.
  replace (days_from_civil y 11 1 + k + 21)
    with (days_from_civil y 11 1 + (22 + k - 1)) by ring.
  rewrite <- days_from_civil_day.
  unfold format. apply civil_of_days.
  split; [lia|]. change (daysInMonth y 11) with 30. lia.
Qed.

Lemma getDay_thanksgiving (year : Z) : getDay (getThanksgivingDate year) = 4.
Proof.
  rewrite getThanksgivingDate_spec.
  unfold getDay. Z.div_mod_to_equations. lia.
Qed.


(** ** The year of a date *)

Lemma newYear_mono (y1 y2 : Z) :
  y1 < y2 -> days_from_civil y1 1 1 + 365 <= days_from_civil y2 1 1.
Proof.
  intros H. unfold days_from_civil.
  cbn [Z.leb Z.ltb Z.compare Pos.compare Pos.compare_cont Z.add Pos.add
       Z.mul Pos.mul Z.sub Z.opp Z.pos_sub Z.succ_double Z.pred_double
       Z.double Pos.pred_double Pos.succ].
  Z.div_mod_to_equations. lia.
Qed.

(** A day lies between the first of January of its year and of the next. *)
Lemma year_of_day (z : Z) :
  days_from_civil (getFullYear z) 1 1 <= z
  < days_from_civil (getFullYear z + 1) 1 1.
Proof.
  unfold getFullYear, civil_from_days. cbv zeta. cbn [fst snd].
  set (z' := z + 719468).
  set (era := z' / 146097).
  set (doe := z' - era * 146097).
  assert (Hdoe : 0 <= doe < 146097)
    by (subst doe era; Z.div_mod_to_equations; lia).
  assert (Hz : z = era * 146097 + doe - 719468) by (subst doe z'; ring).
  clearbody doe. clearbody era. clear z'.
  set (yoe := (doe - doe / 1460 + doe / 36524 - doe / 146096) / 365).
  assert (Hyoe : 0 <= yoe <= 399) by (subst yoe; Z.div_mod_to_equations; lia).
  set (doy := doe - (365 * yoe + yoe / 4 - yoe / 100)).
  assert (Hdoy : 0 <= doy <= 365
                 /\ (doy = 365 ->
                     (yoe + 1) mod 4 = 0
                     /\ ((yoe + 1) mod 100 <> 0 \/ yoe = 399))).
  { subst doy yoe. Z.div_mod_to_equations; lia. }
  assert (Hdoe' : doe = 365 * yoe + yoe / 4 - yoe / 100 + doy)
    by (subst doy; ring).
  clearbody doy. clearbody yoe.
  set (mp := (5 * doy + 2) / 153).
  assert (Hmp : 0 <= mp <= 11 /\ (mp < 10 <-> doy < 306))
    by (subst mp; Z.div_mod_to_equations; lia).
  clearbody mp.
  unfold days_from_civil.
  cbn [Z.leb Z.ltb Z.compare Pos.compare Pos.compare_cont Z.add Pos.add
       Z.mul Pos.mul Z.sub Z.opp Z.pos_sub Z.succ_double Z.pred_double
       Z.double Pos.pred_double Pos.succ].
  destruct (mp <? 10) eqn:E1.
  - apply Z.ltb_lt in E1.
    replace (mp + 3 <=? 2) with false by (symmetry; apply Z.leb_gt; lia).
    subst z doe. Z.div_mod_to_equations. lia.
  - apply Z.ltb_ge in E1.
    replace (mp - 9 <=? 2) with true by (symmetry; apply Z.leb_le; lia).
    subst z doe. Z.div_mod_to_equations. lia.
Qed.


(** Every day of a representable year is a time value of JavaScript, with
    a day to spare for the time zone. *)
Lemma representable_inTimeRange (d : Date) :
  representableYear (getFullYear d) ->
  inTimeRange (d - 1) /\ inTimeRange (d + 1).
Proof.
  intros [Hlo Hhi]. pose proof (year_of_day d) as Hd.
  assert (H0 : days_from_civil 0 1 1 <= days_from_civil (getFullYear d) 1 1).
  { destruct (Z.eq_dec (getFullYear d) 0) as [->|Hne]; [lia|].
    pose proof (newYear_mono 0 (getFullYear d) ltac:(lia)). lia. }
  assert (H1 : days_from_civil (getFullYear d + 1) 1 1
               <= days_from_civil 275760 1 1).
  { destruct (Z.eq_dec (getFullYear d + 1) 275760) as [->|Hne]; [lia|].
    pose proof (newYear_mono (getFullYear d + 1) 275760 ltac:(lia)). lia. }
  change (days_from_civil 0 1 1) with (-719528) in H0.
  change (days_from_civil 275760 1 1) with 99999744 in H1.
  unfold inTimeRange. lia.
Qed.

(** ** Months and quarters *)

Lemma make_format (y mi : Z) :
  0 <= mi <= 11 -> format (make y mi 1) = (y, mi + 1, 1).
Proof.
  intros H. apply format_make; [assumption|].
  pose proof (daysInMonth_bounds y (mi + 1)). lia.
Qed.

Lemma startOfMonth_make (y mi : Z) :
  0 <= mi <= 11 -> startOfMonth (make y mi 1) = make y mi 1.
Proof.
  intros H. unfold startOfMonth, getFullYear, getMonth.
  change (civil_from_days (make y mi 1)) with (format (make y mi 1)).
  rewrite make_format by assumption. cbn [fst snd]. f_equal. ring.
Qed.

Lemma endOfMonth_make (y mi : Z) :
  0 <= mi <= 11 -> endOfMonth (make y mi 1) = make y (mi + 1) 0.
Proof.
  intros H. unfold endOfMonth, getFullYear, getMonth.
  change (civil_from_days (make y mi 1)) with (format (make y mi 1)).
  rewrite make_format by assumption. cbn [fst snd]. f_equal. ring.
Qed.

(** Three months from the first of January, April, July or October. *)
Lemma quarter_span (y mi : Z) :
  mi = 0 \/ mi = 3 \/ mi = 6 \/ mi = 9 ->
  90 <= make y (mi + 2 + 1) 0 - make y mi 1 + 1 <= 92.
Proof.
  intros H. unfold make, days_from_civil.
  destruct H as [->|[->|[->| ->]]];
    cbn [Z.add Pos.add Pos.succ Z.div Z.modulo Z.div_eucl Z.pos_div_eucl
         Z.leb Z.ltb Z.compare Pos.compare Pos.compare_cont Z.mul Pos.mul
         Z.sub Z.opp Z.pos_sub Z.succ_double Z.pred_double Z.double
         Pos.pred_double fst snd Z.of_N];
    Z.div_mod_to_equations; lia.
Qed.




End Calendar.

(* ================================================================== *)
(** * The calendar rules of timeSlots.js *)

Section CalendarRules.

Lemma getDay_cases (date : Date) :
  getDay date = 0 \/ getDay date = 1 \/ getDay date = 2 \/ getDay date = 3
  \/ getDay date = 4 \/ getDay date = 5 \/ getDay date = 6.
Proof. pose proof (getDay_bounds date). lia. Qed.

Lemma weekend_test (date : Date) :
  String.eqb (dayName (getDay date)) "SUNDAY"
  || String.eqb (dayName (getDay date)) "SATURDAY" = isWeekend date.
Proof.
  unfold isWeekend.
  destruct (getDay_cases date) as [H|[H|[H|[H|[H|[H|H]]]]]];
    rewrite H; reflexivity.
Qed.

Lemma indexOf_dayName (date : Date) :
  indexOf DAY_NAMES (dayName (getDay date)) = getDay date.
Proof.
  destruct (getDay_cases date) as [H|[H|[H|[H|[H|[H|H]]]]]];
    rewrite H; reflexivity.
Qed.

Lemma key_eqb_same_year (y m' d' m d : Z) :
  key_eqb (y, m', d') (y, m, d) = (m =? m') && (d =? d').
Proof.
  unfold key_eqb. rewrite Z.eqb_refl, (Z.eqb_sym m' m), (Z.eqb_sym d' d).
  reflexivity.
Qed.

Lemma format_components (date : Date) :
  format date = (getFullYear date, monthOf date, dayOfMonth date).
Proof.
  unfold getFullYear, monthOf, dayOfMonth, format.
  destruct (civil_from_days date) as [[y m] d]. reflexivity.
Qed.

(** The date of the computed holiday is the fourth Thursday of November,
    and no other date of its year is. *)
Lemma thanksgiving_test (date : Date) :
  twoDigitYear (getFullYear date) = false ->
  key_eqb (format (getThanksgivingDate (getFullYear date))) (format date)
  = isFourthThursdayOfNovember date.
Proof.
  intros Hy.
  rewrite format_thanksgiving. unfold newDate.
  rewrite (fullYear_id _ Hy). clear Hy.
  unfold isFourthThursdayOfNovember.
  pose proof (format_components date) as F.
  set (y := getFullYear date) in *. set (m := monthOf date) in *.
  set (d := dayOfMonth date) in *.
  rewrite F, key_eqb_same_year.
  destruct (m =? 11) eqn:Em; [|reflexivity].
  apply Z.eqb_eq in Em. rewrite Em in F.
  apply date_of_format in F.
  assert (Hd : date = make y 10 1 + (d - 1)).
  { rewrite make_civil by lia. rewrite F. apply days_from_civil_day. }
  set (s := make y 10 1) in *. cbn [andb].
  assert (Hg : getDay date = (getDay s + (d - 1)) mod 7).
  { rewrite Hd. unfold getDay. Z.div_mod_to_equations. lia. }
  pose proof (getDay_bounds s) as Hs.
  destruct (d =? 22 + (4 - getDay s) mod 7) eqn:E1;
    destruct (getDay date =? 4) eqn:E2;
    destruct ((d - 1) / 7 =? 3) eqn:E3; try reflexivity; exfalso;
    rewrite ?Z.eqb_eq, ?Z.eqb_neq in *; clear Hd F;
    revert Hg E1 E2 E3; Z.div_mod_to_equations; lia.
Qed.

Lemma noSession_test (date : Date) :
  twoDigitYear (getFullYear date) = false ->
  existsb (fun noSessionDate => key_eqb (format noSessionDate) (format date))
          (noSessionDates (getSpecialDatesForYear (getFullYear date)))
  = isFullDayExclusion date.
Proof.
  intros Hy.
  cbn [getSpecialDatesForYear noSessionDates existsb].
  rewrite (thanksgiving_test _ Hy).
  unfold newDate. rewrite (fullYear_id _ Hy).
  rewrite !format_make
    by first [lia | split; [lia | apply Z.leb_le; reflexivity]].
  rewrite (format_components date), !key_eqb_same_year.
  unfold isFullDayExclusion, isFixedHoliday.
  cbn [Z.add Pos.add Pos.succ].
  destruct (monthOf date =? 1), (dayOfMonth date =? 1),
    (monthOf date =? 7), (dayOfMonth date =? 4),
    (monthOf date =? 12), (dayOfMonth date =? 25),
    (isFourthThursdayOfNovember date); reflexivity.
Qed.

Lemma restricted_test (date : Date) :
  twoDigitYear (getFullYear date) = false ->
  option_map afterTime
    (find (fun restricted =>
             key_eqb (format (r_date restricted)) (format date))
          (restrictedDates (getSpecialDatesForYear (getFullYear date))))
  = restrictionCutoff date.
Proof.
  intros Hy.
  cbn [getSpecialDatesForYear restrictedDates find r_date].
  unfold newDate. rewrite (fullYear_id _ Hy).
  rewrite !format_make
    by first [lia | split; [lia | apply Z.leb_le; reflexivity]].
  rewrite (format_components date), !key_eqb_same_year.
  unfold restrictionCutoff.
  cbn [Z.add Pos.add Pos.succ].
  destruct (monthOf date =? 4), (dayOfMonth date =? 17),
    (monthOf date =? 5), (dayOfMonth date =? 22),
    (monthOf date =? 6), (dayOfMonth date =? 19),
    (monthOf date =? 12), (dayOfMonth date =? 24),
    (dayOfMonth date =? 31); reflexivity.
Qed.

(** A key of another year is not the key of the date. *)
Lemma key_eqb_other_year (y' m' d' : Z) (date : Date) :
  y' <> getFullYear date -> key_eqb (y', m', d') (format date) = false.
Proof.
  intros H. rewrite (format_components date). unfold key_eqb.
  apply Z.eqb_neq in H. rewrite H. reflexivity.
Qed.

(** For a date of the years 0 to 99 the special dates are built in the
    years 1900 to 1999: none of them has the key of the date. *)
Lemma special_dates_two_digit (date : Date) :
  twoDigitYear (getFullYear date) = true ->
  existsb (fun noSessionDate => key_eqb (format noSessionDate) (format date))
          (noSessionDates (getSpecialDatesForYear (getFullYear date)))
  = false
  /\ find (fun restricted =>
             key_eqb (format (r_date restricted)) (format date))
          (restrictedDates (getSpecialDatesForYear (getFullYear date)))
     = None.
Proof.
  intros Hy.
  assert (Hne : fullYear (getFullYear date) <> getFullYear date).
  { destruct (fullYear_cases (getFullYear date)) as [[_ E]|[E _]];
      [lia|congruence]. }
  cbn [getSpecialDatesForYear noSessionDates restrictedDates existsb find
       r_date].
  rewrite format_thanksgiving. unfold newDate.
  rewrite !format_make
    by first [lia | split; [lia | apply Z.leb_le; reflexivity]].
  rewrite !key_eqb_other_year by exact Hne.
  split; reflexivity.
Qed.

(** [getAvailableTimeSlots] by the cases of the calendar rules.  The rules
    of the special dates do not reach the dates of the years 0 to 99. *)
Lemma getAvailableTimeSlots_spec (date : Date) :
  getAvailableTimeSlots date =
  if isWeekend date then []
  else if twoDigitYear (getFullYear date) then weekdayTemplate date
  else if isFullDayExclusion date then []
  else match restrictionCutoff date with
       | Some cutoff =>
           filter (fun slot => String.ltb (replace_colon (start slot))
                                          (replace_colon cutoff))
                  (weekdayTemplate date)
       | None => weekdayTemplate date
       end.
Proof.
  unfold getAvailableTimeSlots.
  rewrite weekend_test. destruct (isWeekend date); [reflexivity|].
  destruct (twoDigitYear (getFullYear date)) eqn:Hy.
  - destruct (special_dates_two_digit _ Hy) as [E1 E2].
    rewrite E1, E2. reflexivity.
  - rewrite (noSession_test _ Hy).
    destruct (isFullDayExclusion date); [reflexivity|].
    rewrite <- (restricted_test _ Hy).
    destruct (find _ _) as [r|]; reflexivity.
Qed.

Lemma weekdayTemplate_cases (date : Date) :
  In (weekdayTemplate date) ([] :: map snd WEEKLY_SCHEDULE).
Proof.
  unfold weekdayTemplate.
  destruct (getDay_cases date) as [H|[H|[H|[H|[H|[H|H]]]]]];
    rewrite H; cbn; tauto.
Qed.

Lemma NoDup_map_filter {X Y : Type} (keep : X -> bool) (image : X -> Y)
  (xs : list X) (H : NoDup (map image xs)) :
  NoDup (map image (filter keep xs)).
Proof.
  revert H. induction xs as [|x xs IH]; intros H; [constructor|].
  cbn in *. inversion H as [|? ? Hn Hl]; subst.
  destruct (keep x); [|auto]. cbn. constructor; [|auto].
  intros Hin. apply Hn. apply in_map_iff in Hin as (y & Hy & Hin).
  apply filter_In in Hin as [Hin _]. apply in_map_iff. eauto.
Qed.

Lemma distinct_strings_NoDup (l : list string) :
  distinct_strings l = true -> NoDup l.
Proof.
  induction l as [|x l IH]; intros H; [constructor|].
  cbn in H. apply andb_true_iff in H as [Hx Hl].
  constructor; [|auto].
  intros Hin. apply negb_true_iff in Hx.
  assert (existsb (String.eqb x) l = true); [|congruence].
  apply existsb_exists. exists x. split; [assumption|apply String.eqb_refl].
Qed.

Lemma templates_starts :
  Forall (fun tpl => Forall (fun s => In (start s) templateStarts) tpl)
         ([] :: map snd WEEKLY_SCHEDULE).
Proof.
  apply Forall_forall. intros tpl Ht. apply Forall_forall. intros s Hs.
  assert (H : existsb (String.eqb (start s)) templateStarts = true).
  { revert s Hs. apply forallb_forall. revert tpl Ht. apply forallb_forall.
    vm_compute. reflexivity. }
  apply existsb_exists in H as (x & Hx & E).
  apply String.eqb_eq in E. subst. assumption.
Qed.

Lemma templates_NoDup :
  Forall (fun tpl => NoDup (map start tpl)) ([] :: map snd WEEKLY_SCHEDULE).
Proof.
  apply Forall_forall. intros tpl Ht. apply distinct_strings_NoDup.
  revert tpl Ht. apply forallb_forall. vm_compute. reflexivity.
Qed.

Lemma templates_length :
  Forall (fun tpl : list TimeSlot => (List.length tpl <= 14)%nat)
         ([] :: map snd WEEKLY_SCHEDULE).
Proof.
  apply Forall_forall. intros tpl Ht. apply Nat.leb_le.
  revert tpl Ht. apply forallb_forall. vm_compute. reflexivity.
Qed.


Lemma slots_in_template (date : Date) (s : TimeSlot) :
  In s (getAvailableTimeSlots date) -> In s (weekdayTemplate date).
Proof.
  rewrite getAvailableTimeSlots_spec.
  destruct (isWeekend date); [contradiction|].
  destruct (twoDigitYear (getFullYear date)); [auto|].
  destruct (isFullDayExclusion date); [contradiction|].
  destruct (restrictionCutoff date); [|auto].
  intros H. apply filter_In in H. tauto.
Qed.

Lemma slots_starts_template (date : Date) (s : TimeSlot) :
  In s (getAvailableTimeSlots date) -> In (start s) templateStarts.
Proof.
  intros H. apply slots_in_template in H.
  pose proof templates_starts as T. rewrite Forall_forall in T.
  specialize (T _ (weekdayTemplate_cases date)).
  rewrite Forall_forall in T. auto.
Qed.

Lemma slots_starts_NoDup (date : Date) :
  NoDup (map start (getAvailableTimeSlots date)).
Proof.
  pose proof templates_NoDup as T. rewrite Forall_forall in T.
  specialize (T _ (weekdayTemplate_cases date)).
  rewrite getAvailableTimeSlots_spec.
  destruct (isWeekend date); [constructor|].
  destruct (twoDigitYear (getFullYear date)); [assumption|].
  destruct (isFullDayExclusion date); [constructor|].
  destruct (restrictionCutoff date); [|assumption].
  apply NoDup_map_filter. assumption.
Qed.

Lemma slots_length (date : Date) :
  (List.length (getAvailableTimeSlots date) <= 14)%nat.
Proof.
  pose proof templates_length as T. rewrite Forall_forall in T.
  specialize (T _ (weekdayTemplate_cases date)). cbv beta in T.
  rewrite getAvailableTimeSlots_spec.
  destruct (isWeekend date); [cbn; lia|].
  destruct (twoDigitYear (getFullYear date)); [assumption|].
  destruct (isFullDayExclusion date); [cbn; lia|].
  destruct (restrictionCutoff date); [|assumption].
  etransitivity; [apply filter_length_le|assumption].
Qed.








End CalendarRules.

(* ================================================================== *)
(** * Arrays and the grid *)

Section Arrays.

Context {A : Type}.

Lemma findIndex_Some (p : A -> bool) (l : list A) (i : nat) :
  findIndex p l = Some i ->
  exists x, nth_error l i = Some x /\ p x = true
            /\ forall j y, (j < i)%nat -> nth_error l j = Some y -> p y = false.
Proof.
  revert i; induction l as [|a l IH]; intros i H; [discriminate|].
  cbn in H. destruct (p a) eqn:Ea.
  - injection H as <-. exists a. repeat split; auto. intros j y Hj. lia.
  - destruct (findIndex p l) as [k|] eqn:Ek; [|discriminate].
    injection H as <-. destruct (IH k eq_refl) as (x & Hx & Hp & Hlt).
    exists x. repeat split; auto.
    intros [|j] y Hj Hy; cbn in Hy.
    + injection Hy as <-. assumption.
    + apply (Hlt j); [lia|assumption].
Qed.

Lemma findIndex_None (p : A -> bool) (l : list A) :
  findIndex p l = None -> forall x, In x l -> p x = false.
Proof.
  induction l as [|a l IH]; intros H x Hx; [contradiction|].
  cbn in H. destruct (p a) eqn:Ea; [discriminate|].
  destruct (findIndex p l) eqn:Ek; [discriminate|].
  destruct Hx as [<-|Hx]; auto.
Qed.

Lemma findIndex_first (p : A -> bool) (l : list A) (i : nat) (x : A) :
  nth_error l i = Some x -> p x = true ->
  (forall j y, (j < i)%nat -> nth_error l j = Some y -> p y = false) ->
  findIndex p l = Some i.
Proof.
  revert i; induction l as [|a l IH]; intros i Hx Hp Hlt.
  - destruct i; discriminate.
  - destruct i as [|i]; cbn in Hx |- *.
    + injection Hx as ->. rewrite Hp. reflexivity.
    + rewrite (Hlt O a) by (try lia; reflexivity).
      rewrite (IH i); auto.
      intros j y Hj Hy. apply (Hlt (S j)); [lia|assumption].
Qed.

Lemma update_nth_length (i : nat) (f : A -> A) (l : list A) :
  List.length (update_nth i f l) = List.length l.
Proof.
  revert i; induction l as [|a l IH]; intros [|i]; cbn; auto.
Qed.

Lemma update_nth_map {B : Type} (g : A -> B) (i : nat) (f : A -> A)
  (l : list A) :
  (forall x, g (f x) = g x) -> map g (update_nth i f l) = map g l.
Proof.
  intros H. revert i; induction l as [|a l IH]; intros [|i]; cbn;
    rewrite ?H, ?IH; reflexivity.
Qed.

Lemma update_nth_same (i : nat) (f : A -> A) (l : list A) (x : A) :
  nth_error l i = Some x -> nth_error (update_nth i f l) i = Some (f x).
Proof.
  revert i; induction l as [|a l IH]; intros [|i] H; cbn in *;
    try discriminate.
  - injection H as ->. reflexivity.
  - auto.
Qed.

Lemma update_nth_other (i j : nat) (f : A -> A) (l : list A) :
  i <> j -> nth_error (update_nth i f l) j = nth_error l j.
Proof.
  revert i j; induction l as [|a l IH]; intros [|i] [|j] H; cbn; auto.
  - contradiction.
Qed.

Lemma update_nth_id (i : nat) (f : A -> A) (l : list A) (x : A) :
  nth_error l i = Some x -> f x = x -> update_nth i f l = l.
Proof.
  revert i; induction l as [|a l IH]; intros [|i] H E; cbn in *;
    try discriminate.
  - injection H as ->. rewrite E. reflexivity.
  - f_equal. auto.
Qed.

Lemma update_nth_twice (i : nat) (f g : A -> A) (l : list A) :
  update_nth i f (update_nth i g l) = update_nth i (fun x => f (g x)) l.
Proof.
  revert i; induction l as [|a l IH]; intros [|i]; cbn; auto.
  f_equal. auto.
Qed.

Lemma update_nth_In (i : nat) (f : A -> A) (l : list A) (y : A) :
  In y (update_nth i f l) ->
  In y l \/ exists x, nth_error l i = Some x /\ y = f x.
Proof.
  revert i; induction l as [|a l IH]; intros [|i] H; cbn in *; auto.
  - destruct H as [<-|H]; [right; eauto|auto].
  - destruct H as [<-|H]; [auto|].
    destruct (IH _ H) as [?|?]; auto.
Qed.

Lemma NoDup_map_nth_error {B : Type} (g : A -> B) (l : list A) (i j : nat)
  (x y : A) :
  NoDup (map g l) -> nth_error l i = Some x -> nth_error l j = Some y ->
  g x = g y -> i = j.
Proof.
  intros Hnd Hx Hy E.
  apply (proj1 (NoDup_nth_error (map g l)) Hnd).
  - rewrite length_map. apply nth_error_Some. congruence.
  - rewrite !nth_error_map, Hx, Hy. cbn. congruence.
Qed.

Lemma NoDup_map_injective {B : Type} (g : A -> B) (l : list A) :
  (forall a b, g a = g b -> a = b) -> NoDup l -> NoDup (map g l).
Proof.
  intros Hinj. induction 1 as [|x l Hx Hl IH]; cbn; constructor; [|assumption].
  intros Hin. apply in_map_iff in Hin as (y & E & Hy).
  apply Hinj in E. subst y. contradiction.
Qed.

Lemma map_injective_eq {B : Type} (g : A -> B) (l l' : list A) :
  (forall a b, g a = g b -> a = b) -> map g l = map g l' -> l = l'.
Proof.
  intros Hinj. revert l'; induction l as [|a l IH]; intros [|b l'] E;
    try discriminate; [reflexivity|].
  cbn [map] in E. injection E as E1 E2. f_equal; auto.
Qed.

End Arrays.

Section GridOps.

Lemma rollbackSessions_fold (xs : list ScheduledSession)
  (grid : AvailabilityGrid) :
  rollbackSessions xs grid
  = fold_left (fun g x => release_at g (date x) (startTime x)) xs grid.
Proof. reflexivity. Qed.

Lemma grid_get_In (grid : AvailabilityGrid) (key : DateKey) (dd : DayData) :
  grid_get grid key = Some dd -> In (key, dd) grid.
Proof.
  induction grid as [|[k v] grid IH]; intros H; [discriminate|].
  cbn in H. destruct (key_eqb k key) eqn:E.
  - apply key_eqb_eq in E. injection H as ->. left. congruence.
  - right. auto.
Qed.

Lemma grid_get_NoDup (grid : AvailabilityGrid) (key : DateKey) (dd : DayData) :
  NoDup (map fst grid) -> In (key, dd) grid -> grid_get grid key = Some dd.
Proof.
  induction grid as [|[k v] grid IH]; intros Hnd Hin; [contradiction|].
  cbn in *. inversion Hnd as [|? ? Hk Hnd']; subst.
  destruct Hin as [E|Hin].
  - injection E as -> ->. rewrite key_eqb_refl. reflexivity.
  - destruct (key_eqb k key) eqn:E; [|auto].
    apply key_eqb_eq in E. subst k. exfalso. apply Hk.
    apply in_map_iff. exists (key, dd). auto.
Qed.

Lemma grid_get_None (grid : AvailabilityGrid) (key : DateKey) :
  ~ In key (map fst grid) -> grid_get grid key = None.
Proof.
  induction grid as [|[k v] grid IH]; intros H; [reflexivity|].
  cbn in *. destruct (key_eqb k key) eqn:E.
  - apply key_eqb_eq in E. tauto.
  - tauto.
Qed.

Lemma grid_update_keys (grid : AvailabilityGrid) (key : DateKey) (i : nat)
  (f : GridSlot -> GridSlot) :
  map fst (grid_update_slot grid key i f) = map fst grid.
Proof.
  unfold grid_update_slot. rewrite map_map. apply map_ext.
  intros [k dd]. destruct (key_eqb k key); reflexivity.
Qed.

Lemma grid_get_update_same (grid : AvailabilityGrid) (key : DateKey) (i : nat)
  (f : GridSlot -> GridSlot) :
  grid_get (grid_update_slot grid key i f) key
  = option_map (fun dd => mkDayData (day_date dd) (update_nth i f (slots dd)))
               (grid_get grid key).
Proof.
  induction grid as [|[k dd] grid IH]; [reflexivity|].
  cbn. destruct (key_eqb k key) eqn:E; cbn; rewrite E; auto.
Qed.

Lemma grid_get_update_other (grid : AvailabilityGrid) (key key' : DateKey)
  (i : nat) (f : GridSlot -> GridSlot) :
  key' <> key ->
  grid_get (grid_update_slot grid key i f) key' = grid_get grid key'.
Proof.
  intros Hne. induction grid as [|[k dd] grid IH]; [reflexivity|].
  cbn. destruct (key_eqb k key) eqn:E; cbn.
  - apply key_eqb_eq in E. subst k.
    replace (key_eqb key key') with false
      by (symmetry; apply key_eqb_neq; congruence).
    exact IH.
  - destruct (key_eqb k key'); [reflexivity|exact IH].
Qed.

Lemma grid_update_commute (grid : AvailabilityGrid) (k1 k2 : DateKey)
  (i1 i2 : nat) (f1 f2 : GridSlot -> GridSlot) :
  k1 <> k2 ->
  grid_update_slot (grid_update_slot grid k1 i1 f1) k2 i2 f2
  = grid_update_slot (grid_update_slot grid k2 i2 f2) k1 i1 f1.
Proof.
  intros Hne. unfold grid_update_slot. rewrite !map_map. apply map_ext.
  intros [k dd].
  destruct (key_eqb k k1) eqn:E1, (key_eqb k k2) eqn:E2; rewrite ?E1, ?E2;
    try reflexivity.
  apply key_eqb_eq in E1, E2. congruence.
Qed.

Lemma grid_update_twice (grid : AvailabilityGrid) (key : DateKey) (i : nat)
  (f g : GridSlot -> GridSlot) :
  grid_update_slot (grid_update_slot grid key i g) key i f
  = grid_update_slot grid key i (fun s => f (g s)).
Proof.
  unfold grid_update_slot. rewrite map_map. apply map_ext.
  intros [k dd]. destruct (key_eqb k key) eqn:E; rewrite ?E; [|reflexivity].
  cbn. rewrite update_nth_twice. reflexivity.
Qed.

Lemma grid_update_id (grid : AvailabilityGrid) (key : DateKey) (i : nat)
  (f : GridSlot -> GridSlot) (dd : DayData) :
  NoDup (map fst grid) -> grid_get grid key = Some dd ->
  update_nth i f (slots dd) = slots dd ->
  grid_update_slot grid key i f = grid.
Proof.
  intros Hnd Hget Hid. unfold grid_update_slot.
  rewrite <- (map_id grid) at 2. apply map_ext_in.
  intros [k dd'] Hin. destruct (key_eqb k key) eqn:E; [|reflexivity].
  apply key_eqb_eq in E. subst k.
  rewrite (grid_get_NoDup _ _ _ Hnd Hin) in Hget. injection Hget as ->.
  rewrite Hid. destruct dd; reflexivity.
Qed.

Lemma grid_update_In (grid : AvailabilityGrid) (key : DateKey) (i : nat)
  (f : GridSlot -> GridSlot) (k : DateKey) (dd : DayData) :
  In (k, dd) (grid_update_slot grid key i f) ->
  In (k, dd) grid
  \/ exists dd0, In (k, dd0) grid /\ k = key
                 /\ dd = mkDayData (day_date dd0) (update_nth i f (slots dd0)).
Proof.
  unfold grid_update_slot. intros H. apply in_map_iff in H as ([k0 dd0] & E & Hin).
  destruct (key_eqb k0 key) eqn:Ek.
  - apply key_eqb_eq in Ek. injection E as <- <-. right. exists dd0. auto.
  - injection E as <- <-. auto.
Qed.

(** ** Booking and release *)

Lemma release_occupy (o : Occupant) (s : GridSlot) :
  available s = true -> session s = None -> release (occupy o s) = s.
Proof. destruct s; cbn; intros -> ->; reflexivity. Qed.

(** Setting free the slot that was just booked gives the grid back. *)
Lemma release_booking (grid : AvailabilityGrid) (d : Date) (st : string)
  (dd : DayData) (i : nat) (o : Occupant) :
  grid_wf grid ->
  grid_get grid (format d) = Some dd ->
  findIndex (fun s => String.eqb (slotTime s) st && available s) (slots dd)
  = Some i ->
  release_at (grid_update_slot grid (format d) i (occupy o)) d st = grid.
Proof.
  intros [Hnd Hwf] Hget Hfind.
  destruct (Hwf _ _ (grid_get_In _ _ _ Hget)) as [Hstarts Hfree].
  apply findIndex_Some in Hfind as (s & Hs & Hp & _).
  apply andb_true_iff in Hp as [Hst Hav]. apply String.eqb_eq in Hst.
  unfold release_at. rewrite grid_get_update_same, Hget. cbn [option_map slots].
  assert (Hi : findIndex (fun s0 => String.eqb (start (slot s0)) st)
                         (update_nth i (occupy o) (slots dd)) = Some i).
  { apply (findIndex_first _ _ _ (occupy o s)).
    - apply update_nth_same; assumption.
    - cbn. apply String.eqb_eq. exact Hst.
    - intros j y Hj Hy. rewrite update_nth_other in Hy by lia.
      apply String.eqb_neq. intros E.
      assert (j = i); [|lia].
      apply (NoDup_map_nth_error slotTime (slots dd) j i y s); auto.
      unfold slotTime in *. congruence. }
  rewrite Hi, grid_update_twice.
  apply (grid_update_id _ _ _ _ dd); auto.
  apply (update_nth_id _ _ _ s); auto.
  apply release_occupy; auto.
  apply Hfree; auto. eapply nth_error_In; eassumption.
Qed.

Lemma release_at_update_other (grid : AvailabilityGrid) (key : DateKey)
  (i : nat) (f : GridSlot -> GridSlot) (d : Date) (st : string) :
  format d <> key ->
  release_at (grid_update_slot grid key i f) d st
  = grid_update_slot (release_at grid d st) key i f.
Proof.
  intros Hne. unfold release_at.
  rewrite grid_get_update_other by assumption.
  destruct (grid_get grid (format d)) as [dd|]; [|reflexivity].
  destruct (findIndex _ _) as [j|]; [|reflexivity].
  apply grid_update_commute. congruence.
Qed.

Lemma rollback_update_other (xs : list ScheduledSession)
  (grid : AvailabilityGrid) (key : DateKey) (i : nat)
  (f : GridSlot -> GridSlot) :
  (forall y, In y xs -> format (date y) <> key) ->
  rollbackSessions xs (grid_update_slot grid key i f)
  = grid_update_slot (rollbackSessions xs grid) key i f.
Proof.
  rewrite !rollbackSessions_fold.
  revert grid; induction xs as [|x xs IH]; intros grid H; [reflexivity|].
  cbn [fold_left]. rewrite release_at_update_other by (apply H; left; auto).
  apply IH. intros y Hy. apply H. right. assumption.
Qed.

Lemma booked_get_other (g0 g : AvailabilityGrid) (xs : list ScheduledSession)
  (key : DateKey) :
  booked g0 xs g -> (forall y, In y xs -> format (date y) <> key) ->
  grid_get g key = grid_get g0 key.
Proof.
  induction 1 as [|xs g x dd i o Hb IH Hget Hfind Hfresh]; intros H;
    [reflexivity|].
  rewrite grid_get_update_other.
  - apply IH. intros y Hy. apply H. apply in_or_app. auto.
  - intros E. apply (H x); [apply in_or_app; right; left; reflexivity|auto].
Qed.

(** The rollback of an attempt gives back the grid the attempt began with. *)
Lemma rollback_booked (g0 g : AvailabilityGrid) (xs : list ScheduledSession) :
  grid_wf g0 -> booked g0 xs g -> rollbackSessions xs g = g0.
Proof.
  intros Hwf. induction 1 as [|xs g x dd i o Hb IH Hget Hfind Hfresh];
    [reflexivity|].
  assert (Hkeys : forall y, In y xs -> format (date y) <> format (date x)).
  { intros y Hy E. apply (Hfresh y Hy). apply format_inj. exact E. }
  rewrite rollbackSessions_fold, fold_left_app, <- rollbackSessions_fold.
  cbn [fold_left].
  rewrite rollback_update_other by assumption.
  rewrite IH.
  rewrite (booked_get_other _ _ _ _ Hb Hkeys) in Hget.
  apply (release_booking g0 (date x) (startTime x) dd i o); assumption.
Qed.

End GridOps.

Section Booking.

Lemma grid_update_absent (grid : AvailabilityGrid) (key : DateKey) (i : nat)
  (f : GridSlot -> GridSlot) :
  ~ In key (map fst grid) -> grid_update_slot grid key i f = grid.
Proof.
  intros H. unfold grid_update_slot. rewrite <- (map_id grid) at 2.
  apply map_ext_in. intros [k dd] Hin.
  destruct (key_eqb k key) eqn:E; [|reflexivity].
  apply key_eqb_eq in E. subst k. exfalso. apply H.
  apply in_map_iff. exists (key, dd). auto.
Qed.

Lemma update_occupy_wf (grid : AvailabilityGrid) (key : DateKey) (i : nat)
  (o : Occupant) :
  grid_wf grid -> grid_wf (grid_update_slot grid key i (occupy o)).
Proof.
  intros [Hnd Hwf]. split; [rewrite grid_update_keys; assumption|].
  intros k dd Hin. apply grid_update_In in Hin as [Hin|(dd0 & Hin & _ & ->)];
    [eauto|].
  destruct (Hwf _ _ Hin) as [Hs Hf]. split; cbn [slots].
  - rewrite update_nth_map by reflexivity. assumption.
  - intros s Hs' Hav. apply update_nth_In in Hs' as [Hs'|(x & _ & ->)];
      [auto|discriminate].
Qed.

Lemma update_occupy_seeded (quarterDates : list Date) (grid : AvailabilityGrid)
  (key : DateKey) (i : nat) (o : Occupant) :
  grid_seeded quarterDates grid ->
  grid_seeded quarterDates (grid_update_slot grid key i (occupy o)).
Proof.
  intros [Hk Hs]. split; [rewrite grid_update_keys; assumption|].
  intros k dd Hin. apply grid_update_In in Hin as [Hin|(dd0 & Hin & _ & ->)];
    [eauto|].
  destruct (Hs _ _ Hin) as (H1 & H2 & H3). cbn [day_date slots].
  repeat split; auto.
  - rewrite update_nth_map by reflexivity. assumption.
  - intros s Hs' Hav. apply update_nth_In in Hs' as [Hs'|(x & _ & ->)];
      [auto|discriminate].
Qed.

Lemma booked_wf (g0 g : AvailabilityGrid) (xs : list ScheduledSession) :
  grid_wf g0 -> booked g0 xs g -> grid_wf g.
Proof.
  intros H. induction 1; [assumption|]. apply update_occupy_wf. assumption.
Qed.

Lemma booked_seeded (quarterDates : list Date) (g0 g : AvailabilityGrid)
  (xs : list ScheduledSession) :
  grid_seeded quarterDates g0 -> booked g0 xs g -> grid_seeded quarterDates g.
Proof.
  intros H. induction 1; [assumption|]. apply update_occupy_seeded. assumption.
Qed.

Lemma occupied_update_nth (dt : Date) (l : list GridSlot) (i : nat)
  (s : GridSlot) (o : Occupant) :
  nth_error l i = Some s -> available s = true ->
  Permutation
    (map (fun s => (dt, slotTime s))
         (filter (fun s => negb (available s)) (update_nth i (occupy o) l)))
    ((dt, slotTime s)
     :: map (fun s => (dt, slotTime s))
            (filter (fun s => negb (available s)) l)).
Proof.
  revert i; induction l as [|a l IH]; intros [|i] Hs Hav; cbn in Hs;
    try discriminate.
  - injection Hs as ->. cbn. rewrite Hav. cbn. reflexivity.
  - cbn [update_nth filter]. destruct (negb (available a)); cbn [map].
    + rewrite (IH i Hs Hav). apply perm_swap.
    + apply IH; assumption.
Qed.

Lemma occupied_update (grid : AvailabilityGrid) (key : DateKey) (i : nat)
  (o : Occupant) (dd : DayData) (s : GridSlot) :
  NoDup (map fst grid) -> grid_get grid key = Some dd ->
  nth_error (slots dd) i = Some s -> available s = true ->
  Permutation (occupiedPairs (grid_update_slot grid key i (occupy o)))
              ((day_date dd, slotTime s) :: occupiedPairs grid).
Proof.
  intros Hnd Hget Hs Hav.
  induction grid as [|[k v] grid IH]; [discriminate|].
  cbn in Hget. inversion Hnd as [|? ? Hk Hnd']; subst.
  change (grid_update_slot ((k, v) :: grid) key i (occupy o))
    with ((if key_eqb k key
           then (k, mkDayData (day_date v) (update_nth i (occupy o) (slots v)))
           else (k, v)) :: grid_update_slot grid key i (occupy o)).
  destruct (key_eqb k key) eqn:E.
  - apply key_eqb_eq in E. subst k. injection Hget as ->.
    rewrite grid_update_absent by assumption.
    unfold occupiedPairs. cbn [flat_map snd day_date slots].
    rewrite (occupied_update_nth _ _ _ _ _ Hs Hav). reflexivity.
  - unfold occupiedPairs in *. cbn [flat_map].
    rewrite (IH Hnd' Hget). apply Permutation_sym, Permutation_middle.
Qed.

Lemma seeded_get_date (quarterDates : list Date) (grid : AvailabilityGrid)
  (d : Date) (dd : DayData) :
  grid_seeded quarterDates grid -> grid_get grid (format d) = Some dd ->
  day_date dd = d.
Proof.
  intros [_ Hs] Hget. apply grid_get_In in Hget.
  destruct (Hs _ _ Hget) as (Hk & _). apply format_inj. congruence.
Qed.

Lemma seeded_wf (quarterDates : list Date) (grid : AvailabilityGrid) :
  NoDup quarterDates -> grid_seeded quarterDates grid -> grid_wf grid.
Proof.
  intros Hnd [Hk Hs]. split.
  - rewrite Hk. apply NoDup_map_injective; [|assumption].
    intros a b. apply format_inj.
  - intros k dd Hin. destruct (Hs _ _ Hin) as (_ & Hslots & Hfree).
    split; [|assumption].
    unfold slotTime. rewrite <- (map_map slot start), Hslots.
    apply slots_starts_NoDup.
Qed.

(** The sessions of an attempt are the slots it added to the occupied ones. *)
Lemma booked_occupied (quarterDates : list Date) (g0 g : AvailabilityGrid)
  (xs : list ScheduledSession) :
  NoDup quarterDates -> grid_seeded quarterDates g0 -> booked g0 xs g ->
  Permutation (occupiedPairs g) (occupiedPairs g0 ++ map sessionPair xs).
Proof.
  intros Hnd Hseed. induction 1 as [|xs g x dd i o Hb IH Hget Hfind Hfresh].
  - rewrite app_nil_r. reflexivity.
  - pose proof (booked_seeded _ _ _ _ Hseed Hb) as Hseed'.
    pose proof (seeded_wf _ _ Hnd Hseed') as [Hkeys _].
    apply findIndex_Some in Hfind as (s & Hs & Hp & _).
    apply andb_true_iff in Hp as [Hst Hav]. apply String.eqb_eq in Hst.
    rewrite (occupied_update _ _ _ _ _ _ Hkeys Hget Hs Hav).
    rewrite (seeded_get_date _ _ _ _ Hseed' Hget), Hst, IH.
    rewrite map_app, app_assoc. cbn [map]. apply Permutation_cons_append.
Qed.

End Booking.

(* ================================================================== *)
(** * One attempt: scheduleCourseSessions *)

Section Attempt.

Lemma findNextAvailableDate_Some (fromDate : Date) (dow : string)
  (quarterDates : list Date) (d : Date) :
  findNextAvailableDate fromDate dow quarterDates = Some d ->
  In d quarterDates /\ fromDate <= d /\ getDay d = indexOf DAY_NAMES dow.
Proof.
  unfold findNextAvailableDate. intros H. apply find_some in H as [Hin Hp].
  apply andb_true_iff in Hp as [H1 H2].
  apply Z.leb_le in H1. apply Z.eqb_eq in H2. auto.
Qed.

Lemma sessions_on_length (c : Course) (st en : string) (num : Z)
  (ds : list Date) :
  List.length (sessions_on c st en num ds) = List.length ds.
Proof.
  revert num; induction ds as [|d ds IH]; intros num; cbn; auto.
Qed.

Lemma sessions_on_app (c : Course) (st en : string) (num : Z)
  (ds1 ds2 : list Date) :
  sessions_on c st en num (ds1 ++ ds2)
  = sessions_on c st en num ds1
    ++ sessions_on c st en (num + Z.of_nat (List.length ds1)) ds2.
Proof.
  revert num; induction ds1 as [|d ds1 IH]; intros num.
  - cbn. rewrite Z.add_0_r. reflexivity.
  - cbn [sessions_on app List.length]. rewrite IH. do 3 f_equal. lia.
Qed.

(** The booking loop either books every remaining session, or gives the
    grid back as the attempt found it and returns no session. *)
Lemma bookSessions_spec (c : Course) (sl : SuitableSlot)
  (quarterDates : list Date) (g0 : AvailabilityGrid) (remaining : nat) :
  grid_wf g0 ->
  forall (num : Z) (cur : Date) (g : AvailabilityGrid)
         (acc : list ScheduledSession) (g' : AvailabilityGrid)
         (out : list ScheduledSession),
    booked g0 acc g ->
    (forall y, In y acc -> date y < cur) ->
    bookSessions c sl quarterDates remaining num cur g acc = (g', out) ->
    (out = [] /\ g' = g0)
    \/ exists ds,
         date_chain quarterDates (dayOfWeek sl) cur ds
         /\ List.length ds = remaining
         /\ out = acc ++ sessions_on c (slotStart sl) (slotEnd sl) num ds
         /\ booked g0 out g'.
Proof.
  intros Hwf. induction remaining as [|n IH];
    intros num cur g acc g' out Hb Hlt Hrun.
  - cbn in Hrun. injection Hrun as <- <-. right. exists [].
    cbn. rewrite app_nil_r. repeat split; auto. constructor.
  - cbn [bookSessions] in Hrun.
    pose proof (rollback_booked _ _ _ Hwf Hb) as Hroll.
    destruct (findNextAvailableDate cur (dayOfWeek sl) quarterDates)
      as [d|] eqn:Hnext;
      [|injection Hrun as <- <-; left; auto].
    destruct (grid_get g (format d)) as [dd|] eqn:Hget;
      [|injection Hrun as <- <-; left; auto].
    destruct (findIndex _ (slots dd)) as [i|] eqn:Hfind;
      [|injection Hrun as <- <-; left; auto].
    pose proof (findNextAvailableDate_Some _ _ _ _ Hnext) as (_ & Hle & _).
    set (x := mkSession d (title c) num (slotStart sl) (slotEnd sl) "" "") in *.
    assert (Hb' : booked g0 (acc ++ [x])
                    (grid_update_slot g (format (date x)) i
                       (occupy (mkOccupant (title c) num)))).
    { apply (booked_snoc g0 acc g x dd i); auto.
      intros y Hy E. specialize (Hlt y Hy). cbn in E. lia. }
    apply IH in Hrun; [|exact Hb'|].
    + destruct Hrun as [?|(ds & Hc & Hl & Ho & Hbo)]; [left; assumption|].
      right. exists (d :: ds). repeat split; auto.
      * econstructor; eassumption.
      * cbn. congruence.
      * rewrite Ho, <- app_assoc. reflexivity.
    + intros y Hy. apply in_app_or in Hy as [Hy|[<-|[]]].
      * specialize (Hlt y Hy). unfold addWeeks, addDays. lia.
      * cbn. unfold addWeeks, addDays. lia.
Qed.

Lemma findSuitableSlot_Some (d : Date) (c : Course) (grid : AvailabilityGrid)
  (history : list HistoryEntry) (fi : bool) (sl : SuitableSlot) :
  findSuitableSlot d c grid history fi = Some sl ->
  exists dd s,
    grid_get grid (format d) = Some dd /\ In s (slots dd)
    /\ slot_skipped (dayName (getDay d)) (last_entry history) fi s = false
    /\ sl = mkSuitableSlot (dayName (getDay d)) (start (slot s))
                           (end_ (slot s)).
Proof.
  unfold findSuitableSlot. intros H.
  destruct (grid_get grid (format d)) as [dd|]; [|discriminate].
  destruct (find _ (slots dd)) as [s|] eqn:Hfind; [|discriminate].
  apply find_some in Hfind as [Hin Hp]. apply negb_true_iff in Hp.
  injection H as <-. eauto 6.
Qed.

(** An attempt returns no session and leaves the grid as it was, or books
    one session on every date of the chain of weekly dates. *)
Lemma scheduleCourseSessions_spec (c : Course) (startDate : Date)
  (quarterDates : list Date) (grid : AvailabilityGrid)
  (courseHistory : CourseHistory) (fi : bool)
  (grid' : AvailabilityGrid) (out : list ScheduledSession) :
  grid_wf grid ->
  scheduleCourseSessions c startDate quarterDates grid courseHistory fi
  = (grid', out) ->
  (out = [] /\ grid' = grid)
  \/ exists sl ds,
       findSuitableSlot startDate c grid (history_get courseHistory (title c))
                        fi = Some sl
       /\ date_chain quarterDates (dayOfWeek sl) startDate ds
       /\ List.length ds = Z.to_nat (sessions c)
       /\ out = sessions_on c (slotStart sl) (slotEnd sl) 1 ds
       /\ booked grid out grid'.
Proof.
  intros Hwf. unfold scheduleCourseSessions.
  destruct (findSuitableSlot _ _ _ _ _) as [sl|] eqn:Hslot;
    [|intros H; injection H as <- <-; left; auto].
  intros Hrun.
  apply (bookSessions_spec c sl quarterDates grid _ Hwf) in Hrun;
    [|constructor|intros y []].
  destruct Hrun as [?|(ds & Hc & Hl & Ho & Hb)]; [left; assumption|].
  right. exists sl, ds. auto.
Qed.

(** The dates of a chain are dates of the quarter, on the target weekday,
    not before the start, and strictly increasing. *)
Lemma date_chain_facts (quarterDates : list Date) (dow : string) (cur : Date)
  (ds : list Date) :
  date_chain quarterDates dow cur ds ->
  Forall (fun d => In d quarterDates /\ cur <= d
                   /\ getDay d = indexOf DAY_NAMES dow) ds
  /\ NoDup ds.
Proof.
  induction 1 as [cur|cur d ds Hnext Hc [IH1 IH2]]; [split; constructor|].
  apply findNextAvailableDate_Some in Hnext as (Hin & Hle & Hday).
  unfold addWeeks, addDays in *.
  split.
  - constructor; [auto|].
    eapply Forall_impl; [|exact IH1]. cbn. intros a (? & ? & ?).
    repeat split; auto. lia.
  - constructor; [|assumption].
    intros Hd. rewrite Forall_forall in IH1.
    destruct (IH1 _ Hd) as (_ & ? & _). lia.
Qed.

Lemma date_chain_matching (quarterDates : list Date) (startDate : Date)
  (ds : list Date) :
  date_chain quarterDates (dayName (getDay startDate)) startDate ds ->
  (List.length ds <= List.length (matchingDates quarterDates startDate))%nat.
Proof.
  intros H. apply date_chain_facts in H as [Hf Hnd].
  apply NoDup_incl_length; [assumption|].
  intros d Hd. rewrite Forall_forall in Hf.
  destruct (Hf _ Hd) as (Hin & Hle & Hday).
  rewrite indexOf_dayName in Hday.
  apply filter_In. split; [assumption|].
  apply andb_true_iff. split; [apply Z.leb_le|apply Z.eqb_eq]; assumption.
Qed.

End Attempt.

(* ================================================================== *)
(** * The dates of a quarter *)

Section QuarterDates.

Lemma dates_loop_In (fuel : nat) (cur last x : Date) :
  In x (dates_loop fuel cur last)
  <-> cur <= x <= last /\ x < cur + Z.of_nat fuel.
Proof.
  revert cur; induction fuel as [|fuel IH]; intros cur; cbn [dates_loop].
  - cbn. lia.
  - destruct (cur <=? last) eqn:E.
    + apply Z.leb_le in E. cbn [In]. rewrite IH. lia.
    + apply Z.leb_gt in E. cbn. lia.
Qed.

Lemma find_dates_loop (p : Date -> bool) (fuel : nat) (cur last d : Date) :
  find p (dates_loop fuel cur last) = Some d ->
  forall x, cur <= x < d -> p x = false.
Proof.
  revert cur; induction fuel as [|fuel IH]; intros cur; cbn [dates_loop];
    [discriminate|].
  destruct (cur <=? last); [|discriminate].
  cbn [find]. destruct (p cur) eqn:E.
  - intros H x Hx. injection H as <-. lia.
  - intros H x Hx. destruct (Z.eq_dec x cur) as [->|Hne]; [assumption|].
    apply (IH _ H). lia.
Qed.

Lemma find_filter {A : Type} (p q : A -> bool) (l : list A) :
  find p (filter q l) = find (fun x => q x && p x) l.
Proof.
  induction l as [|a l IH]; [reflexivity|].
  cbn. destruct (q a); cbn; [destruct (p a)|]; auto.
Qed.

Lemma NoDup_dates_loop (fuel : nat) (cur last : Date) :
  NoDup (dates_loop fuel cur last).
Proof.
  revert cur; induction fuel as [|fuel IH]; intros cur; cbn [dates_loop];
    [constructor|].
  destruct (cur <=? last); [|constructor].
  constructor; [|apply IH]. rewrite dates_loop_In. lia.
Qed.

Variables first last : Date.

Lemma weekdaysBetween_In (x : Date) :
  In x (weekdaysBetween first last)
  <-> first <= x <= last /\ 1 <= getDay x <= 5.
Proof.
  unfold weekdaysBetween. rewrite filter_In, dates_loop_In.
  rewrite andb_true_iff, !Z.leb_le. lia.
Qed.

Lemma weekdaysBetween_NoDup : NoDup (weekdaysBetween first last).
Proof. apply NoDup_filter, NoDup_dates_loop. Qed.

(** In a quarter the next date of a weekday is the date itself. *)
Lemma findNextAvailableDate_weekdays (startDate cur d : Date) :
  In startDate (weekdaysBetween first last) ->
  startDate <= cur -> getDay cur = getDay startDate ->
  findNextAvailableDate cur (dayName (getDay startDate))
                        (weekdaysBetween first last) = Some d ->
  d = cur.
Proof.
  intros Hstart Hle Hday Hnext.
  pose proof (findNextAvailableDate_Some _ _ _ _ Hnext) as (Hin & Hcur & Hd).
  apply weekdaysBetween_In in Hstart as [Hs1 Hs2].
  apply weekdaysBetween_In in Hin as [Hd1 Hd2].
  rewrite indexOf_dayName in Hd.
  unfold findNextAvailableDate, weekdaysBetween in Hnext.
  rewrite find_filter in Hnext.
  destruct (Z.eq_dec d cur) as [|Hne]; [assumption|exfalso].
  pose proof (find_dates_loop _ _ _ _ _ Hnext cur ltac:(lia)) as Hp.
  cbv beta in Hp. rewrite indexOf_dayName, Hday in Hp.
  rewrite Z.eqb_refl, Z.leb_refl in Hp.
  replace (1 <=? getDay startDate) with true in Hp
    by (symmetry; apply Z.leb_le; lia).
  replace (getDay startDate <=? 5) with true in Hp
    by (symmetry; apply Z.leb_le; lia).
  discriminate.
Qed.

(** The chain of an attempt that starts on a date of the quarter is the
    dates a week apart from it. *)
Lemma date_chain_weekly (startDate : Date) (ds : list Date) :
  In startDate (weekdaysBetween first last) ->
  forall cur,
    startDate <= cur -> getDay cur = getDay startDate ->
    date_chain (weekdaysBetween first last) (dayName (getDay startDate))
               cur ds ->
    ds = weekly cur (List.length ds).
Proof.
  intros Hstart cur Hle Hday Hc. revert Hle Hday.
  induction Hc as [cur|cur d ds Hnext Hc IH]; intros Hle Hday;
    [reflexivity|].
  pose proof (findNextAvailableDate_weekdays _ _ _ Hstart Hle Hday Hnext)
    as ->.
  cbn [List.length weekly]. f_equal.
  unfold addWeeks, addDays in IH. replace (cur + 1 * 7) with (cur + 7) in IH
    by ring.
  apply IH; [lia|]. rewrite <- Hday.
  replace (cur + 7) with (cur + 7 * 1) by ring. apply getDay_shift.
Qed.

End QuarterDates.

(* ================================================================== *)
(** * The course history *)

Section History.

Lemma history_get_set_same (h : CourseHistory) (t : string)
  (v : list HistoryEntry) :
  history_get (history_set h t v) t = v.
Proof.
  induction h as [|[k w] h IH]; cbn.
  - rewrite String.eqb_refl. reflexivity.
  - destruct (String.eqb k t) eqn:E; cbn; rewrite E; auto.
Qed.

Lemma history_get_set_other (h : CourseHistory) (t t' : string)
  (v : list HistoryEntry) :
  t' <> t -> history_get (history_set h t v) t' = history_get h t'.
Proof.
  intros Hne. induction h as [|[k w] h IH]; cbn.
  - replace (String.eqb t t') with false
      by (symmetry; apply String.eqb_neq; congruence).
    reflexivity.
  - destruct (String.eqb k t) eqn:E; cbn.
    + apply String.eqb_eq in E. subst k.
      replace (String.eqb t t') with false
        by (symmetry; apply String.eqb_neq; congruence).
      reflexivity.
    + destruct (String.eqb k t'); auto.
Qed.

Lemma last_entry_app {A : Type} (l : list A) (x : A) :
  last_entry (l ++ [x]) = Some x.
Proof.
  induction l as [|a l IH]; [reflexivity|].
  cbn [app last_entry]. destruct (l ++ [x]) eqn:E.
  - destruct l; discriminate.
  - exact IH.
Qed.

Lemma last_entry_None {A : Type} (l : list A) :
  last_entry l = None -> l = [].
Proof.
  induction l as [|a l IH]; [reflexivity|].
  cbn. destruct l; [discriminate|]. intros H. specialize (IH H). discriminate.
Qed.

Lemma last_entry_Some {A : Type} (l : list A) (x : A) :
  last_entry l = Some x -> exists l', l = l' ++ [x].
Proof.
  induction l as [|a l IH]; [discriminate|].
  cbn. destruct l as [|b l].
  - intros H. injection H as ->. exists []. reflexivity.
  - intros H. destruct (IH H) as (l' & E). exists (a :: l'). rewrite E.
    reflexivity.
Qed.

Lemma separated_snoc (l : list HistoryEntry) (a e : HistoryEntry) :
  separated (l ++ [a]) = true -> separationOk a e = true ->
  separated ((l ++ [a]) ++ [e]) = true.
Proof.
  induction l as [|b l IH]; intros H1 H2.
  - cbn. rewrite H2. reflexivity.
  - cbn [app] in *. destruct (l ++ [a]) as [|b' l'] eqn:E.
    + destruct l; discriminate.
    + cbn [app separated] in *. apply andb_true_iff in H1 as [Hb Hr].
      rewrite Hb. cbn. apply IH; assumption.
Qed.

Lemma minutesOf_template (st : string) :
  In st templateStarts -> exists m, minutesOf st = Some m.
Proof.
  intros H.
  assert (E : match minutesOf st with Some _ => true | None => false end = true).
  { revert st H. apply forallb_forall. vm_compute. reflexivity. }
  destruct (minutesOf st) as [m|]; [eauto|discriminate].
Qed.

Lemma getTimeDifferenceInHours_sym (a b : string) :
  getTimeDifferenceInHours a b = getTimeDifferenceInHours b a.
Proof.
  unfold getTimeDifferenceInHours.
  destruct (minutesOf a) as [x|], (minutesOf b) as [y|]; try reflexivity.
  replace (Z.abs (y - x)) with (Z.abs (x - y)); [reflexivity|].
  rewrite <- Z.abs_opp. f_equal. ring.
Qed.

(** Two starts inside the special window are less than three hours apart. *)
Lemma special_window_close (a b : string) :
  In a templateStarts -> In b templateStarts ->
  inSpecialHours a = true -> inSpecialHours b = true ->
  match getTimeDifferenceInHours a b with
  | Some timeDiff => Qltb timeDiff 3
  | None => false
  end = true.
Proof.
  intros Ha Hb Va Vb.
  assert (E : forallb (fun a => forallb (fun b =>
                negb (inSpecialHours a && inSpecialHours b)
                || match getTimeDifferenceInHours a b with
                   | Some timeDiff => Qltb timeDiff 3
                   | None => false
                   end) templateStarts) templateStarts = true)
    by (vm_compute; reflexivity).
  rewrite forallb_forall in E. specialize (E a Ha).
  rewrite forallb_forall in E. specialize (E b Hb).
  rewrite Va, Vb in E. exact E.
Qed.

Lemma valid_special_hours (dow st : string) :
  isValidForFinancialIntelligence dow st = true -> inSpecialHours st = true.
Proof.
  unfold isValidForFinancialIntelligence, inSpecialHours.
  destruct (_ && _); [discriminate|auto].
Qed.

End History.

(* ================================================================== *)
(** * The invariant of a run *)

Section Invariant.

Variables first last : Date.
Variable courses : list Course.

Let quarterDates : list Date := weekdaysBetween first last.

Lemma sessions_on_starts (c : Course) (st en : string) (num : Z)
  (ds : list Date) (t : string) :
  1 < num -> filter (isInstanceStart t) (sessions_on c st en num ds) = [].
Proof.
  revert num; induction ds as [|d ds IH]; intros num H; [reflexivity|].
  cbn [sessions_on filter]. unfold isInstanceStart at 1. cbn.
  replace (num =? 1) with false by (symmetry; apply Z.eqb_neq; lia).
  rewrite andb_false_r. apply IH. lia.
Qed.

Lemma instance_starts (c : Course) (st en : string) (d : Date)
  (ds : list Date) (t : string) :
  filter (isInstanceStart t) (sessions_on c st en 1 (d :: ds))
  = if String.eqb (title c) t
    then [mkSession d (title c) 1 st en "" ""] else [].
Proof.
  cbn [sessions_on filter]. rewrite sessions_on_starts by lia.
  unfold isInstanceStart. cbn. rewrite andb_true_r. reflexivity.
Qed.

(** A slot that the search accepts, seen from the grid of the quarter. *)
Lemma accepted_slot (grid : AvailabilityGrid) (c : Course) (d : Date)
  (history : list HistoryEntry) (fi : bool) (sl : SuitableSlot) :
  grid_seeded quarterDates grid ->
  findSuitableSlot d c grid history fi = Some sl ->
  exists s : GridSlot,
    sl = mkSuitableSlot (dayName (getDay d)) (start (slot s)) (end_ (slot s))
    /\ In (slot s) (getAvailableTimeSlots d)
    /\ slot_skipped (dayName (getDay d)) (last_entry history) fi s = false.
Proof.
  intros Hseed H.
  apply findSuitableSlot_Some in H as (dd & s & Hget & Hin & Hskip & ->).
  exists s. repeat split; auto.
  rewrite <- (seeded_get_date _ _ _ _ Hseed Hget).
  destruct Hseed as [_ Hs]. destruct (Hs _ _ (grid_get_In _ _ _ Hget))
    as (_ & <- & _).
  apply in_map. assumption.
Qed.

(** What the search has checked of a slot it does not skip. *)
Lemma slot_kept (dow : string) (lastInstance : option HistoryEntry) (fi : bool)
  (s : GridSlot) :
  slot_skipped dow lastInstance fi s = false ->
  available s = true
  /\ (fi = true -> isValidForFinancialIntelligence dow (start (slot s)) = true)
  /\ forall e, lastInstance = Some e ->
       (fi = false -> String.eqb dow (h_dayOfWeek e) = false)
       /\ match getTimeDifferenceInHours (start (slot s)) (h_startTime e) with
          | Some timeDiff => Qltb timeDiff 3
          | None => false
          end = false.
Proof.
  unfold slot_skipped. destruct (available s); [|discriminate].
  cbn [negb]. intros H. split; [reflexivity|].
  destruct fi; cbn [andb negb] in H.
  - destruct (isValidForFinancialIntelligence dow (start (slot s)));
      [|discriminate].
    cbn [negb] in H. split; [reflexivity|].
    intros e ->. split; [discriminate|exact H].
  - split; [discriminate|].
    intros e ->. destruct (String.eqb dow (h_dayOfWeek e));
      [discriminate|]. split; [reflexivity|exact H].
Qed.

Lemma weekly_length (d : Date) (n : nat) : List.length (weekly d n) = n.
Proof. revert d; induction n; intros d; cbn; auto. Qed.

Lemma booked_nil_inv (g0 g : AvailabilityGrid) : booked g0 [] g -> g = g0.
Proof.
  intros H. inversion H as [|xs g1 x dd i o Hb Hget Hfind Hfresh E]; auto.
  destruct xs; discriminate.
Qed.

Lemma timeslot_eta (t : TimeSlot) : mkTimeSlot (start t) (end_ t) = t.
Proof. destruct t; reflexivity. Qed.

(** A successful attempt keeps the invariant, with the start of the new
    instance at the end of the history of its course. *)
Lemma attempt_inv (c : Course) (startDate : Date)
  (grid g1 : AvailabilityGrid) (history : CourseHistory)
  (scheduled S : list ScheduledSession) :
  In c courses -> In startDate quarterDates ->
  engine_inv courses quarterDates grid history S ->
  scheduleCourseSessions c startDate quarterDates grid history
                         (isSpecial (title c)) = (g1, scheduled) ->
  (scheduled = [] /\ g1 = grid)
  \/ exists x rest,
       scheduled = x :: rest
       /\ engine_inv courses quarterDates g1
            (history_set history (title c)
               (history_get history (title c)
                ++ [mkHistoryEntry startDate (dayName (getDay startDate))
                                   (startTime x)]))
            (S ++ scheduled).
Proof.
  intros Hc Hd Hinv Hscs.
  pose proof (inv_seeded _ _ _ _ _ Hinv) as Hseed.
  pose proof (seeded_wf _ _ (weekdaysBetween_NoDup first last) Hseed) as Hwf.
  apply scheduleCourseSessions_spec in Hscs; [|exact Hwf].
  destruct Hscs as [?|(sl & ds & Hslot & Hchain & Hlen & Hout & Hbooked)];
    [left; assumption|].
  destruct (accepted_slot _ _ _ _ _ _ Hseed Hslot) as (s & -> & Hin & Hskip).
  cbn [dayOfWeek slotStart slotEnd] in *.
  pose proof (date_chain_weekly first last startDate ds Hd startDate
                ltac:(lia) eq_refl Hchain) as Hds.
  destruct ds as [|d1 ds'].
  { left. subst scheduled. split; [reflexivity|].
    apply booked_nil_inv. assumption. }
  right. cbn [List.length weekly] in Hds. injection Hds as -> Hds'.
  apply slot_kept in Hskip as (Hav & Hvalid & Hlast).
  set (st := start (slot s)) in *. set (en := end_ (slot s)) in *.
  exists (mkSession startDate (title c) 1 st en "" ""),
         (sessions_on c st en (1 + 1) ds').
  split; [exact Hout|]. cbn [startTime].
  assert (Hst : In st templateStarts)
    by (apply (slots_starts_template startDate (slot s)); assumption).
  set (e := mkHistoryEntry startDate (dayName (getDay startDate)) st).
  set (old := history_get history (title c)) in *.
  constructor.
  - (* the grid *)
    eapply booked_seeded; eassumption.
  - (* occupied slots *)
    rewrite (booked_occupied _ _ _ _ (weekdaysBetween_NoDup first last)
               Hseed Hbooked).
    rewrite map_app. apply Permutation_app_tail.
    apply (inv_occupied _ _ _ _ _ Hinv).
  - (* the history follows the sessions *)
    intros t. rewrite filter_app, map_app, Hout, instance_starts.
    destruct (String.eqb (title c) t) eqn:Et.
    + apply String.eqb_eq in Et. subst t.
      rewrite history_get_set_same. unfold old.
      rewrite (inv_history _ _ _ _ _ Hinv). reflexivity.
    + apply String.eqb_neq in Et.
      rewrite history_get_set_other by congruence.
      rewrite app_nil_r. apply (inv_history _ _ _ _ _ Hinv).
  - (* separation *)
    intros t Ht. destruct (String.eqb (title c) t) eqn:Et.
    + apply String.eqb_eq in Et. subst t.
      rewrite history_get_set_same.
      pose proof (inv_separated _ _ _ _ _ Hinv _ Ht) as Hsep.
      fold old in Hsep.
      destruct (last_entry old) as [a|] eqn:El.
      * destruct (last_entry_Some _ _ El) as (l' & E). rewrite E in *.
        apply separated_snoc; [assumption|].
        destruct (Hlast a eq_refl) as [Hday Hdiff].
        specialize (Hday Ht).
        unfold separationOk. cbn [h_dayOfWeek h_startTime e].
        rewrite String.eqb_sym, Hday. cbn [negb andb].
        unfold threeHoursApart. rewrite getTimeDifferenceInHours_sym.
        assert (Ha : In (h_startTime a) templateStarts).
        { apply (inv_times _ _ _ _ _ Hinv (title c)). fold old.
          rewrite E. apply in_or_app. right. left. reflexivity. }
        destruct (minutesOf_template _ Hst) as (m1 & Hm1).
        destruct (minutesOf_template _ Ha) as (m2 & Hm2).
        unfold getTimeDifferenceInHours in *. rewrite Hm1, Hm2 in *.
        unfold Qltb in Hdiff. apply negb_false_iff in Hdiff. exact Hdiff.
      * apply last_entry_None in El. rewrite El. reflexivity.
    + apply String.eqb_neq in Et.
      rewrite history_get_set_other by congruence.
      apply (inv_separated _ _ _ _ _ Hinv _ Ht).
  - (* a special course has one instance at most *)
    intros t Ht. destruct (String.eqb (title c) t) eqn:Et.
    + apply String.eqb_eq in Et. subst t.
      rewrite history_get_set_same.
      destruct (inv_special _ _ _ _ _ Hinv _ Ht) as [Hone Hall].
      fold old in Hone, Hall.
      specialize (Hvalid Ht).
      destruct old as [|a old'] eqn:Eold.
      * cbn. split; [lia|]. constructor; [exact Hvalid|constructor].
      * exfalso. destruct old' as [|b old'']; [|cbn in Hone; lia].
        destruct (Hlast a eq_refl) as [_ Hdiff].
        inversion Hall as [|? ? Ha _]; subst.
        assert (Hat : In (h_startTime a) templateStarts).
        { apply (inv_times _ _ _ _ _ Hinv (title c)). fold old.
          rewrite Eold. left. reflexivity. }
        rewrite (special_window_close st (h_startTime a)) in Hdiff;
          [discriminate|assumption|assumption| |].
        -- eapply valid_special_hours. exact Hvalid.
        -- eapply valid_special_hours. exact Ha.
    + apply String.eqb_neq in Et.
      rewrite history_get_set_other by congruence.
      apply (inv_special _ _ _ _ _ Hinv _ Ht).
  - (* the start times of the history *)
    intros t e0. destruct (String.eqb (title c) t) eqn:Et.
    + apply String.eqb_eq in Et. subst t.
      rewrite history_get_set_same. intros H.
      apply in_app_or in H as [H|[<-|[]]]; [|exact Hst].
      apply (inv_times _ _ _ _ _ Hinv (title c)). exact H.
    + apply String.eqb_neq in Et.
      rewrite history_get_set_other by congruence.
      apply (inv_times _ _ _ _ _ Hinv).
  - (* the sessions are whole instances *)
    destruct (inv_instances _ _ _ _ _ Hinv) as (insts & E & Hall).
    exists (insts ++ [scheduled]). split.
    + rewrite concat_app, E. cbn. rewrite app_nil_r. reflexivity.
    + apply Forall_app. split; [assumption|]. constructor; [|constructor].
      exists c, startDate, st, en. repeat split; auto.
      * cbn [List.length] in Hlen. lia.
      * rewrite Hout. unfold instance_of. rewrite <- Hlen.
        cbn [List.length weekly]. rewrite <- Hds'. reflexivity.
      * unfold st, en. rewrite timeslot_eta. exact Hin.
Qed.

(** One attempt keeps the invariant, whatever it books. *)
Lemma tryStartDate_inv (c : Course) (startDate : Date)
  (grid grid' : AvailabilityGrid) (history history' : CourseHistory)
  (local local' : list ScheduledSession) :
  In c courses -> In startDate quarterDates ->
  tryStartDate c quarterDates (isSpecial (title c)) (grid, history, local)
               startDate = (grid', history', local') ->
  exists added,
    local' = local ++ added
    /\ forall S, engine_inv courses quarterDates grid history S ->
                 engine_inv courses quarterDates grid' history' (S ++ added).
Proof.
  intros Hc Hd Hrun. unfold tryStartDate in Hrun.
  destruct (scheduleCourseSessions c startDate quarterDates grid history
              (isSpecial (title c))) as [g1 scheduled] eqn:Hscs.
  exists scheduled. split.
  - destruct scheduled; injection Hrun as <- <- <-;
      rewrite ?app_nil_r; reflexivity.
  - intros S Hinv.
    destruct (attempt_inv _ _ _ _ _ _ _ Hc Hd Hinv Hscs)
      as [[-> ->]|(x & rest & -> & Hinv')].
    + injection Hrun as <- <- <-. rewrite app_nil_r. exact Hinv.
    + injection Hrun as <- <- <-. exact Hinv'.
Qed.

End Invariant.

(* ================================================================== *)
(** * A whole run *)

Section Run.

Lemma grid_set_fresh (grid : AvailabilityGrid) (key : DateKey) (v : DayData) :
  ~ In key (map fst grid) -> grid_set grid key v = grid ++ [(key, v)].
Proof.
  induction grid as [|[k w] grid IH]; intros H; [reflexivity|].
  cbn in *. destruct (key_eqb k key) eqn:E.
  - apply key_eqb_eq in E. tauto.
  - rewrite IH by tauto. reflexivity.
Qed.

Lemma initialize_fold (ds : list Date) (acc : AvailabilityGrid) :
  NoDup (map fst acc ++ map format ds) ->
  fold_left (fun grid date =>
               grid_set grid (format date)
                 (mkDayData date
                    (map (fun slot => mkGridSlot slot true None)
                         (getAvailableTimeSlots date))))
            ds acc
  = acc ++ map (fun d => (format d, freshDay d)) ds.
Proof.
  revert acc; induction ds as [|d ds IH]; intros acc H.
  - cbn. rewrite app_nil_r. reflexivity.
  - cbn [fold_left map]. rewrite grid_set_fresh.
    + rewrite IH.
      * rewrite <- app_assoc. reflexivity.
      * rewrite map_app. cbn [map fst]. rewrite <- app_assoc. exact H.
    + cbn [map] in H. apply NoDup_remove_2 in H.
      intros Hin. apply H. apply in_or_app. auto.
Qed.

Lemma initialize_spec (ds : list Date) :
  NoDup ds ->
  initializeAvailabilityGrid ds = map (fun d => (format d, freshDay d)) ds.
Proof.
  intros H. unfold initializeAvailabilityGrid.
  rewrite initialize_fold; [reflexivity|].
  cbn. apply NoDup_map_injective; [|assumption].
  intros a b. apply format_inj.
Qed.

Lemma initialize_seeded (ds : list Date) :
  NoDup ds -> grid_seeded ds (initializeAvailabilityGrid ds).
Proof.
  intros H. rewrite initialize_spec by assumption. split.
  - rewrite map_map. reflexivity.
  - intros k dd Hin. apply in_map_iff in Hin as (d & E & _).
    injection E as <- <-. cbn. repeat split.
    + rewrite map_map. cbn. apply map_id.
    + intros s Hs _. apply in_map_iff in Hs as (t & <- & _). reflexivity.
Qed.

Lemma initialize_occupied (ds : list Date) :
  NoDup ds -> occupiedPairs (initializeAvailabilityGrid ds) = [].
Proof.
  intros H. rewrite initialize_spec by assumption. clear H.
  unfold occupiedPairs. induction ds as [|d ds IH]; [reflexivity|].
  cbn [map flat_map]. rewrite IH, app_nil_r. cbn [snd freshDay slots].
  induction (getAvailableTimeSlots d) as [|t l IHl]; [reflexivity|].
  cbn. exact IHl.
Qed.

Lemma getWeekdaysInQuarter_weekdays (cfg : YearStart) (quarter : string)
  (year : Z) (quarterDates : list Date) :
  getWeekdaysInQuarter cfg quarter year = Returned quarterDates ->
  exists startDate endDate,
    getQuarterDateRange cfg quarter year = Returned (startDate, endDate)
    /\ quarterDates = weekdaysBetween startDate endDate.
Proof.
  unfold getWeekdaysInQuarter, getAllDatesInQuarter.
  destruct (getQuarterDateRange cfg quarter year) as [[s e]| |];
    cbn; try discriminate.
  intros H. injection H as <-. exists s, e. split; reflexivity.
Qed.

(** The range of each quarter, by its first month index; the year is the
    one the constructor takes for the year of the quarter. *)
Lemma getQuarterDateRange_months (cfg : YearStart) (quarter : string)
  (year : Z) (startDate endDate : Date) :
  getQuarterDateRange cfg quarter year = Returned (startDate, endDate) ->
  exists y mi,
    (mi = 0 \/ mi = 3 \/ mi = 6 \/ mi = 9)
    /\ startDate = make y mi 1 /\ endDate = make y (mi + 2 + 1) 0
    /\ y = fullYear match cfg with
                     | January => year
                     | April =>
                         if String.eqb quarter "Q4" then year + 1 else year
                     end.
Proof.
  unfold getQuarterDateRange.
  destruct (quarter_lookup (QUARTERS cfg) quarter) as [months|] eqn:E;
    [|destruct (existsb _ _); discriminate].
  intros H. injection H as <- <-.
  assert (Hm : exists mi, (mi = 0 \/ mi = 3 \/ mi = 6 \/ mi = 9)
                          /\ nth 0 months 0 - 1 = mi
                          /\ nth 2 months 0 - 1 = mi + 2
                          /\ match cfg with
                             | January => True
                             | April => (mi = 0 /\ quarter = "Q4")
                                        \/ (mi <> 0 /\ String.eqb quarter "Q4" = false)
                             end).
  { destruct cfg; cbn [QUARTERS quarter_lookup] in E.
    - repeat match type of E with
             | (if ?b then _ else _) = _ => destruct b
             end; try discriminate; injection E as <-; cbn [nth];
        [exists 0|exists 3|exists 6|exists 9]; repeat split; auto.
    - destruct (String.eqb "Q1" quarter) eqn:E1;
        [|destruct (String.eqb "Q2" quarter) eqn:E2;
          [|destruct (String.eqb "Q3" quarter) eqn:E3;
            [|destruct (String.eqb "Q4" quarter) eqn:E4; [|discriminate]]]];
        injection E as <-; cbn [nth];
        [apply String.eqb_eq in E1|apply String.eqb_eq in E2
         |apply String.eqb_eq in E3|apply String.eqb_eq in E4];
        subst quarter;
        [exists 3|exists 6|exists 9|exists 0];
        repeat split; auto;
        try (right; split; [lia|reflexivity]);
        try (left; split; reflexivity). }
  destruct Hm as (mi & Hmi & E0 & E2 & Hq).
  unfold newDate. rewrite E0, E2.
  rewrite startOfMonth_make, endOfMonth_make by lia.
  destruct cfg.
  - exists (fullYear year), mi. repeat split; auto.
  - destruct Hq as [[-> ->]|[Hne Hq]].
    + exists (fullYear (year + 1)), 0.
      cbn [String.eqb Ascii.eqb Bool.eqb andb].
      repeat split; auto.
    + rewrite Hq. exists (fullYear year), mi. repeat split; auto.
Qed.


Section Fixed.

Variables first last : Date.
Variable courses : list Course.

Let quarterDates : list Date := weekdaysBetween first last.

Lemma initial_inv :
  engine_inv courses quarterDates (initializeAvailabilityGrid quarterDates)
             [] [].
Proof.
  pose proof (weekdaysBetween_NoDup first last) as Hnd.
  constructor.
  - apply initialize_seeded. assumption.
  - rewrite initialize_occupied by assumption. constructor.
  - reflexivity.
  - reflexivity.
  - intros t _. cbn. split; [lia|constructor].
  - intros t e [].
  - exists []. split; [reflexivity|constructor].
Qed.

Lemma startDates_inv (c : Course) (ds : list Date) :
  In c courses -> incl ds quarterDates ->
  forall grid history local grid' history' local',
    fold_left (tryStartDate c quarterDates (isSpecial (title c))) ds
              (grid, history, local) = (grid', history', local') ->
    exists added,
      local' = local ++ added
      /\ forall S, engine_inv courses quarterDates grid history S ->
                   engine_inv courses quarterDates grid' history'
                              (S ++ added).
Proof.
  intros Hc. induction ds as [|d ds IH];
    intros Hincl grid history local grid' history' local' Hrun.
  - cbn in Hrun. injection Hrun as <- <- <-. exists [].
    rewrite app_nil_r. split; [reflexivity|].
    intros S H. rewrite app_nil_r. exact H.
  - cbn [fold_left] in Hrun.
    destruct (tryStartDate c quarterDates (isSpecial (title c))
                (grid, history, local) d) as [[g1 h1] l1] eqn:Hstep.
    apply (tryStartDate_inv first last courses) in Hstep;
      [|assumption|apply Hincl; left; reflexivity].
    destruct Hstep as (a1 & -> & H1).
    apply IH in Hrun; [|intros x Hx; apply Hincl; right; assumption].
    destruct Hrun as (a2 & -> & H2).
    exists (a1 ++ a2). split; [rewrite app_assoc; reflexivity|].
    intros S H. rewrite app_assoc. apply H2, H1, H.
Qed.

Lemma cadenceDates_inv (c : Course) (cds : list Date) :
  In c courses ->
  forall grid history local grid' history' local',
    fold_left
      (fun st cadenceDate =>
         let availableDates :=
           filter (fun date => cadenceDate <=? date) quarterDates in
         fold_left (tryStartDate c quarterDates (isSpecial (title c)))
                   availableDates st)
      cds (grid, history, local) = (grid', history', local') ->
    exists added,
      local' = local ++ added
      /\ forall S, engine_inv courses quarterDates grid history S ->
                   engine_inv courses quarterDates grid' history'
                              (S ++ added).
Proof.
  intros Hc. induction cds as [|cd cds IH];
    intros grid history local grid' history' local' Hrun.
  - cbn in Hrun. injection Hrun as <- <- <-. exists [].
    rewrite app_nil_r. split; [reflexivity|].
    intros S H. rewrite app_nil_r. exact H.
  - cbn [fold_left] in Hrun.
    destruct (fold_left (tryStartDate c quarterDates (isSpecial (title c)))
                (filter (fun date => cd <=? date) quarterDates)
                (grid, history, local)) as [[g1 h1] l1] eqn:Hstep.
    apply startDates_inv in Hstep;
      [|assumption|intros x Hx; apply filter_In in Hx; tauto].
    destruct Hstep as (a1 & -> & H1).
    apply IH in Hrun. destruct Hrun as (a2 & -> & H2).
    exists (a1 ++ a2). split; [rewrite app_assoc; reflexivity|].
    intros S H. rewrite app_assoc. apply H2, H1, H.
Qed.

Lemma scheduleCourse_inv (c : Course) (fyStart : Date)
  (grid grid' : AvailabilityGrid) (history history' : CourseHistory)
  (out S : list ScheduledSession) :
  In c courses ->
  scheduleCourse c fyStart quarterDates grid history
  = Returned (grid', history', out) ->
  engine_inv courses quarterDates grid history S ->
  engine_inv courses quarterDates grid' history' (S ++ out).
Proof.
  intros Hc Hrun Hinv. unfold scheduleCourse in Hrun.
  destruct (calculateCadenceStartDates c fyStart quarterDates) as [cds| |];
    cbn [bind] in Hrun; try discriminate.
  injection Hrun as Hrun.
  apply cadenceDates_inv in Hrun; [|assumption].
  destruct Hrun as (added & E & H). cbn in E. subst out. apply H, Hinv.
Qed.

Lemma scheduleCourses_inv (cs : list Course) (fyStart : Date) :
  incl cs courses ->
  forall grid history S grid' history' S',
    scheduleCourses cs fyStart quarterDates (grid, history, S)
    = Returned (grid', history', S') ->
    engine_inv courses quarterDates grid history S ->
    engine_inv courses quarterDates grid' history' S'.
Proof.
  induction cs as [|c cs IH]; intros Hincl grid history S grid' history' S'
    Hrun Hinv.
  - cbn in Hrun. injection Hrun as <- <- <-. exact Hinv.
  - cbn [scheduleCourses] in Hrun.
    destruct (scheduleCourse c fyStart quarterDates grid history)
      as [[[g1 h1] out]| |] eqn:Hc; cbn [bind] in Hrun; try discriminate.
    apply IH in Hrun; [assumption|intros x Hx; apply Hincl; right; assumption|].
    eapply scheduleCourse_inv; [apply Hincl; left; reflexivity|eassumption|].
    exact Hinv.
Qed.

End Fixed.

(** The invariant holds at the end of every run. *)
Lemma runEngine_inv (cfg : YearStart) (courses : list Course)
  (quarter : string) (year : Z) (quarterDates : list Date)
  (grid : AvailabilityGrid) (history : CourseHistory)
  (S : list ScheduledSession) :
  runEngine cfg courses quarter year
  = Returned (quarterDates, (grid, history, S)) ->
  engine_inv courses quarterDates grid history S
  /\ exists startDate endDate,
       getQuarterDateRange cfg quarter year = Returned (startDate, endDate)
       /\ quarterDates = weekdaysBetween startDate endDate.
Proof.
  unfold runEngine. intros Hrun.
  destruct (getWeekdaysInQuarter cfg quarter year) as [qd| |] eqn:Hq;
    cbn [bind] in Hrun; try discriminate.
  destruct (scheduleCourses courses (getFinancialYearStart cfg year) qd
              (initializeAvailabilityGrid qd, [], []))
    as [[[g h] S0]| |] eqn:Hs; cbn [bind] in Hrun; try discriminate.
  injection Hrun as <- <- <- <-.
  destruct (getWeekdaysInQuarter_weekdays _ _ _ _ Hq) as (s & e & Hr & ->).
  split; [|eauto].
  eapply scheduleCourses_inv; [apply incl_refl|exact Hs|apply initial_inv].
Qed.

End Run.

(* ================================================================== *)
(** * The result of generateSchedule *)

Section Result.

Lemma insertSession_perm (x : ScheduledSession) (l : list ScheduledSession) :
  Permutation (insertSession x l) (x :: l).
Proof.
  induction l as [|y l IH]; [reflexivity|].
  cbn. destruct (compareSessions x y); try reflexivity.
  rewrite IH. apply perm_swap.
Qed.

Lemma sortSessions_perm (l : list ScheduledSession) :
  Permutation (sortSessions l) l.
Proof.
  induction l as [|x l IH]; [reflexivity|].
  cbn. rewrite insertSession_perm. constructor. exact IH.
Qed.

Lemma compareSessions_dates (x y : ScheduledSession) :
  (compareSessions x y = Gt -> date y <= date x)
  /\ (compareSessions x y <> Gt -> date x <= date y).
Proof.
  unfold compareSessions. destruct (date x =? date y) eqn:E; cbn [negb].
  - apply Z.eqb_eq in E. lia.
  - destruct (Z.compare_spec (date x) (date y)); split; intros; try lia;
      congruence.
Qed.

Lemma sortedByDate_cons (x : ScheduledSession) (l : list ScheduledSession) :
  sortedByDate (x :: l) = true
  <-> (forall y, hd_error l = Some y -> date x <= date y)
      /\ sortedByDate l = true.
Proof.
  destruct l as [|y l]; cbn [sortedByDate hd_error].
  - split; [intros _; split; [discriminate|reflexivity]|reflexivity].
  - rewrite andb_true_iff, Z.leb_le. split.
    + intros [H1 H2]. split; [intros z Hz; injection Hz as <-; exact H1|exact H2].
    + intros [H1 H2]. split; [apply H1; reflexivity|exact H2].
Qed.

Lemma insertSession_sorted (x : ScheduledSession) (l : list ScheduledSession) :
  sortedByDate l = true -> sortedByDate (insertSession x l) = true.
Proof.
  induction l as [|y l IH]; intros H; [reflexivity|].
  cbn [insertSession].
  destruct (compareSessions_dates x y) as [Hgt Hle].
  destruct (compareSessions x y) eqn:E.
  - apply sortedByDate_cons. split; [|exact H].
    intros z Hz. injection Hz as <-. apply Hle. discriminate.
  - apply sortedByDate_cons. split; [|exact H].
    intros z Hz. injection Hz as <-. apply Hle. discriminate.
  - apply sortedByDate_cons in H as [H1 H2].
    apply sortedByDate_cons. split; [|apply IH; exact H2].
    intros z Hz. destruct l as [|y' l]; cbn [insertSession] in Hz.
    + injection Hz as <-. apply Hgt. reflexivity.
    + destruct (compareSessions x y'); cbn in Hz; injection Hz as <-;
        try (apply Hgt; reflexivity); apply H1; reflexivity.
Qed.

Lemma sortSessions_sorted (l : list ScheduledSession) :
  sortedByDate (sortSessions l) = true.
Proof.
  induction l as [|x l IH]; [reflexivity|].
  cbn. apply insertSession_sorted. exact IH.
Qed.

Lemma Permutation_filter_length {A : Type} (p : A -> bool) (l l' : list A) :
  Permutation l l' ->
  List.length (filter p l) = List.length (filter p l').
Proof.
  induction 1 as [|x l l' _ IH|x y l|l l' l'' _ IH1 _ IH2]; cbn.
  - reflexivity.
  - destruct (p x); cbn; congruence.
  - destruct (p x), (p y); reflexivity.
  - congruence.
Qed.

(** What [generateSchedule] returns, in terms of the run of the engine. *)
Lemma generateSchedule_run (cfg : YearStart) (courses : list Course)
  (quarter : string) (year : Z) (r : Schedule) :
  generateSchedule cfg courses quarter year = Returned r ->
  exists quarterDates grid history S,
    runEngine cfg courses quarter year
    = Returned (quarterDates, (grid, history, S))
    /\ scheduledSessions r = sortSessions S
    /\ statistics r = calculateStatistics grid (sortSessions S).
Proof.
  unfold generateSchedule.
  destruct (runEngine cfg courses quarter year) as [[qd [[g h] S]]| |];
    cbn [bind]; try discriminate.
  intros H. injection H as <-. exists qd, g, h, S. auto.
Qed.

Lemma run_generateSchedule (cfg : YearStart) (courses : list Course)
  (quarter : string) (year : Z) (quarterDates : list Date)
  (grid : AvailabilityGrid) (history : CourseHistory)
  (S : list ScheduledSession) :
  runEngine cfg courses quarter year
  = Returned (quarterDates, (grid, history, S)) ->
  exists r, generateSchedule cfg courses quarter year = Returned r
            /\ scheduledSessions r = sortSessions S
            /\ statistics r = calculateStatistics grid (sortSessions S).
Proof.
  intros H. unfold generateSchedule. rewrite H. cbn [bind].
  eexists. split; [reflexivity|]. split; reflexivity.
Qed.

(** ** Sessions and the slots of the grid *)

Lemma occupiedPairs_In (grid : AvailabilityGrid) (d : Date) (st : string) :
  In (d, st) (occupiedPairs grid)
  <-> exists key dd s, In (key, dd) grid /\ In s (slots dd)
                       /\ available s = false
                       /\ day_date dd = d /\ slotTime s = st.
Proof.
  unfold occupiedPairs. rewrite in_flat_map. split.
  - intros ([k dd] & Hin & H). cbn [snd] in H.
    apply in_map_iff in H as (s & E & Hs). apply filter_In in Hs as [Hs Hav].
    injection E as <- <-. apply negb_true_iff in Hav. eauto 10.
  - intros (k & dd & s & Hin & Hs & Hav & <- & <-).
    exists (k, dd). split; [assumption|]. cbn [snd].
    apply in_map_iff. exists s. split; [reflexivity|].
    apply filter_In. split; [assumption|]. rewrite Hav. reflexivity.
Qed.

Lemma seeded_dates (quarterDates : list Date) (grid : AvailabilityGrid) :
  grid_seeded quarterDates grid ->
  map (fun e : DateKey * DayData => day_date (snd e)) grid = quarterDates.
Proof.
  intros [Hk Hs].
  assert (E : map format (map (fun e : DateKey * DayData => day_date (snd e))
                              grid) = map format quarterDates).
  { rewrite <- Hk, map_map. apply map_ext_in. intros [k dd] Hin.
    destruct (Hs _ _ Hin) as (-> & _). reflexivity. }
  apply (map_injective_eq format); [apply format_inj|exact E].
Qed.

Lemma occupiedPairs_NoDup_aux (grid : AvailabilityGrid) :
  NoDup (map (fun e : DateKey * DayData => day_date (snd e)) grid) ->
  (forall key dd, In (key, dd) grid -> NoDup (map slotTime (slots dd))) ->
  NoDup (occupiedPairs grid).
Proof.
  induction grid as [|[k dd] grid IH]; intros Hd Hs; [constructor|].
  cbn in Hd. inversion Hd as [|? ? Hk Hd']; subst.
  unfold occupiedPairs in *. cbn [flat_map snd].
  assert (H1 : NoDup (map (fun s => (day_date dd, slotTime s))
                          (filter (fun s => negb (available s)) (slots dd)))).
  { rewrite <- (map_map slotTime (fun t => (day_date dd, t))).
    apply NoDup_map_injective; [intros a b E; congruence|].
    apply NoDup_map_filter, (Hs k dd). left. reflexivity. }
  assert (H2 : NoDup (flat_map
            (fun entry : DateKey * DayData =>
               map (fun s => (day_date (snd entry), slotTime s))
                   (filter (fun s => negb (available s)) (slots (snd entry))))
            grid)).
  { apply IH; [assumption|]. intros k' dd' Hin. apply (Hs k' dd').
    right. assumption. }
  apply NoDup_app; [exact H1|exact H2|].
  intros p Hp Hin.
  apply in_map_iff in Hp as (s & <- & _).
  apply in_flat_map in Hin as ([k' dd'] & Hin' & Hp').
  cbn [snd] in Hp'. apply in_map_iff in Hp' as (s' & E & _).
  apply Hk. apply in_map_iff. exists (k', dd'). split; [|assumption].
  cbn [snd]. congruence.
Qed.

Lemma occupiedPairs_NoDup (quarterDates : list Date) (grid : AvailabilityGrid) :
  NoDup quarterDates -> grid_seeded quarterDates grid ->
  NoDup (occupiedPairs grid).
Proof.
  intros Hnd Hseed. apply occupiedPairs_NoDup_aux.
  - rewrite (seeded_dates _ _ Hseed). assumption.
  - intros k dd Hin. apply (seeded_wf _ _ Hnd Hseed) in Hin. apply Hin.
Qed.

End Result.

(* ================================================================== *)
(** * The properties of the specification *)

Section Properties.

Lemma sessionsAt_count (l : list ScheduledSession) (d : Date) (st : string) :
  List.length (sessionsAt l d st)
  = count_occ pair_dec (map sessionPair l) (d, st).
Proof.
  unfold sessionsAt. induction l as [|x l IH]; [reflexivity|].
  cbn [filter map count_occ].
  destruct (pair_dec (sessionPair x) (d, st)) as [E|E].
  - unfold sessionPair in E. injection E as -> ->.
    rewrite Z.eqb_refl, String.eqb_refl. cbn. congruence.
  - destruct ((date x =? d) && String.eqb (startTime x) st) eqn:Eb;
      [|exact IH].
    apply andb_true_iff in Eb as [E1 E2].
    apply Z.eqb_eq in E1. apply String.eqb_eq in E2.
    exfalso. apply E. unfold sessionPair. congruence.
Qed.

Lemma NoDup_map_In_eq {A B : Type} (f : A -> B) (l : list A) (a b : A) :
  NoDup (map f l) -> In a l -> In b l -> f a = f b -> a = b.
Proof.
  intros Hnd Ha Hb E.
  apply In_nth_error in Ha as (i & Hi). apply In_nth_error in Hb as (j & Hj).
  assert (i = j) by (eapply NoDup_map_nth_error; eassumption).
  subst j. congruence.
Qed.

(** C1. At the end of a run a slot of the availability grid is occupied if
    and only if exactly one session of the returned list has the date and
    the start time of the slot, and no two sessions of the list share their
    date and start time; the run may have rolled back any number of
    attempts. *)
Theorem grid_consistency (cfg : YearStart) (courses : list Course)
  (quarter : string) (year : Z) (quarterDates : list Date)
  (grid : AvailabilityGrid) (history : CourseHistory)
  (S : list ScheduledSession) :
  runEngine cfg courses quarter year
  = Returned (quarterDates, (grid, history, S)) ->
  exists r,
    generateSchedule cfg courses quarter year = Returned r
    /\ (forall key dayData s,
          In (key, dayData) grid -> In s (slots dayData) ->
          (available s = false
           <-> List.length (sessionsAt (scheduledSessions r)
                                       (day_date dayData) (slotTime s))
               = 1%nat))
    /\ NoDup (map sessionPair (scheduledSessions r)).
Proof.
  intros Hrun.
  destruct (runEngine_inv _ _ _ _ _ _ _ _ Hrun)
    as (Hinv & first & last & _ & ->).
  destruct (run_generateSchedule _ _ _ _ _ _ _ _ Hrun) as (r & Hr & Hs & _).
  exists r. split; [exact Hr|]. rewrite Hs.
  pose proof (weekdaysBetween_NoDup first last) as Hnd.
  pose proof (inv_seeded _ _ _ _ _ Hinv) as Hseed.
  pose proof (occupiedPairs_NoDup _ _ Hnd Hseed) as Hocc.
  assert (Hperm : Permutation (occupiedPairs grid)
                              (map sessionPair (sortSessions S))).
  { rewrite (inv_occupied _ _ _ _ _ Hinv).
    apply Permutation_map, Permutation_sym, sortSessions_perm. }
  split; [|eapply Permutation_NoDup; eassumption].
  intros key dd s Hin Hs'.
  rewrite sessionsAt_count.
  rewrite <- (proj1 (Permutation_count_occ pair_dec _ _) Hperm).
  split.
  - intros Hav. apply (proj1 (NoDup_count_occ' pair_dec _) Hocc).
    apply occupiedPairs_In. exists key, dd, s. auto.
  - intros Hcount.
    assert (Hp : In (day_date dd, slotTime s) (occupiedPairs grid))
      by (apply (count_occ_In pair_dec); lia).
    apply occupiedPairs_In in Hp
      as (key' & dd' & s' & Hin' & Hs'' & Hav & Ed & Et).
    destruct (seeded_wf _ _ Hnd Hseed) as [Hkeys Hdays].
    destruct Hseed as [_ Hseed].
    destruct (Hseed _ _ Hin) as (Hk & _).
    destruct (Hseed _ _ Hin') as (Hk' & _).
    assert (key' = key) by congruence. subst key'.
    pose proof (grid_get_NoDup _ _ _ Hkeys Hin) as G1.
    pose proof (grid_get_NoDup _ _ _ Hkeys Hin') as G2.
    assert (dd' = dd) by congruence. subst dd'.
    destruct (Hdays _ _ Hin) as [Hst _].
    rewrite <- (NoDup_map_In_eq slotTime _ _ _ Hst Hs'' Hs' Et).
    exact Hav.
Qed.

(** A run to apply the theorem to: the grid of the sample run holds a
    booked slot, which one session of the sample schedule occupies. *)
Lemma grid_consistency_witness :
  exists r,
    generateSchedule April sampleCourses "Q1" 2025 = Returned r
    /\ (forall key dayData s,
          In (key, dayData) (fst (fst (snd sampleRun))) ->
          In s (slots dayData) ->
          (available s = false
           <-> List.length (sessionsAt (scheduledSessions r)
                                       (day_date dayData) (slotTime s))
               = 1%nat))
    /\ NoDup (map sessionPair (scheduledSessions r)).
Proof.
  apply (grid_consistency April sampleCourses "Q1" 2025 (fst sampleRun)
           (fst (fst (snd sampleRun))) (snd (fst (snd sampleRun)))
           (snd (snd sampleRun))).
  vm_compute. reflexivity.
Defined.

End Properties.

Section Instances.

Lemma sessions_on_nth (c : Course) (st en : string) (n : nat) :
  forall (num : Z) (d0 : Date) (k : nat),
    (k < n)%nat ->
    nth_error (sessions_on c st en num (weekly d0 n)) k
    = Some (mkSession (d0 + 7 * Z.of_nat k) (title c) (num + Z.of_nat k)
                      st en "" "").
Proof.
  induction n as [|n IH]; intros num d0 k Hk; [lia|].
  cbn [weekly sessions_on]. destruct k as [|k].
  - cbn. rewrite Z.add_0_r. do 3 f_equal. ring.
  - cbn [nth_error]. rewrite IH by lia. do 2 f_equal; lia.
Qed.

Lemma instance_of_length (c : Course) (d0 : Date) (st en : string) :
  List.length (instance_of c d0 st en) = Z.to_nat (sessions c).
Proof.
  unfold instance_of. rewrite sessions_on_length. apply weekly_length.
Qed.

Lemma instance_of_In (c : Course) (d0 : Date) (st en : string)
  (x : ScheduledSession) :
  In x (instance_of c d0 st en) ->
  exists k : nat,
    (k < Z.to_nat (sessions c))%nat
    /\ x = mkSession (d0 + 7 * Z.of_nat k) (title c) (1 + Z.of_nat k)
                     st en "" "".
Proof.
  intros H. apply In_nth_error in H as (k & Hk).
  assert (Hlt : (k < Z.to_nat (sessions c))%nat).
  { rewrite <- (instance_of_length c d0 st en). apply nth_error_Some.
    congruence. }
  exists k. split; [assumption|].
  unfold instance_of in Hk. rewrite sessions_on_nth in Hk by assumption.
  congruence.
Qed.

(** ** The attempts of a run *)

(** An attempt on a date of the quarter books nothing, or the whole
    instance that starts on that date at the slot chosen there. *)
Lemma attempt_whole_instance (first last : Date) (courses : list Course)
  (c : Course) (startDate : Date) (grid g1 : AvailabilityGrid)
  (history : CourseHistory) (scheduled : list ScheduledSession) :
  In c courses -> In startDate (weekdaysBetween first last) ->
  grid_seeded (weekdaysBetween first last) grid ->
  scheduleCourseSessions c startDate (weekdaysBetween first last) grid history
                         (isSpecial (title c)) = (g1, scheduled) ->
  scheduled = []
  \/ attempt_instance courses (weekdaysBetween first last) scheduled.
Proof.
  intros Hc Hd Hseed Hscs.
  pose proof (seeded_wf _ _ (weekdaysBetween_NoDup first last) Hseed) as Hwf.
  pose proof Hscs as Hspec.
  apply scheduleCourseSessions_spec in Hspec; [|exact Hwf].
  destruct Hspec as [[? _]|(sl & ds & Hslot & Hchain & Hlen & Hout & _)];
    [left; assumption|].
  destruct (accepted_slot first last _ _ _ _ _ _ Hseed Hslot)
    as (s & E & Hin & _).
  rewrite E in Hchain. cbn [dayOfWeek] in Hchain.
  pose proof (date_chain_weekly first last startDate ds Hd startDate
                ltac:(lia) eq_refl Hchain) as Hds.
  destruct ds as [|d1 ds'].
  { left. exact Hout. }
  right. exists c, startDate, sl.
  split; [exact Hc|]. split; [exact Hd|]. split; [|split; [|split]].
  - exists grid, history. split; [exact Hseed|]. split; [exact Hslot|].
    rewrite Hscs. reflexivity.
  - rewrite E. cbn [slotStart slotEnd]. rewrite timeslot_eta. exact Hin.
  - cbn [List.length] in Hlen. lia.
  - rewrite Hout. unfold instance_of. rewrite <- Hlen, <- Hds. reflexivity.
Qed.

Section Trace.

Variables first last : Date.
Variable courses : list Course.

Let quarterDates : list Date := weekdaysBetween first last.

Lemma tryStartDate_trace (c : Course) (startDate : Date)
  (grid grid' : AvailabilityGrid) (history history' : CourseHistory)
  (local local' S : list ScheduledSession) :
  In c courses -> In startDate quarterDates ->
  engine_inv courses quarterDates grid history S ->
  tryStartDate c quarterDates (isSpecial (title c)) (grid, history, local)
               startDate = (grid', history', local') ->
  exists insts,
    local' = local ++ List.concat insts
    /\ Forall (attempt_instance courses quarterDates) insts
    /\ engine_inv courses quarterDates grid' history'
                  (S ++ List.concat insts).
Proof.
  intros Hc Hd Hinv Hrun.
  destruct (tryStartDate_inv first last courses _ _ _ _ _ _ _ _ Hc Hd Hrun)
    as (added & Eadded & Hnext).
  unfold tryStartDate in Hrun.
  destruct (scheduleCourseSessions c startDate quarterDates grid history
              (isSpecial (title c))) as [g1 scheduled] eqn:Hscs.
  assert (Es : local' = local ++ scheduled).
  { destruct scheduled; injection Hrun as <- <- <-;
      rewrite ?app_nil_r; reflexivity. }
  assert (added = scheduled) as ->.
  { rewrite Es in Eadded. apply app_inv_head in Eadded. congruence. }
  destruct (attempt_whole_instance first last courses _ _ _ _ _ _ Hc Hd
              (inv_seeded _ _ _ _ _ Hinv) Hscs) as [->|Hinst].
  - exists []. cbn [List.concat]. split; [exact Es|].
    split; [constructor|]. apply Hnext. exact Hinv.
  - exists [scheduled]. cbn [List.concat]. rewrite app_nil_r.
    split; [exact Es|]. split; [constructor; [exact Hinst|constructor]|].
    apply Hnext. exact Hinv.
Qed.

Lemma startDates_trace (c : Course) (ds : list Date) :
  In c courses -> incl ds quarterDates ->
  forall grid history local grid' history' local' S,
    engine_inv courses quarterDates grid history S ->
    fold_left (tryStartDate c quarterDates (isSpecial (title c))) ds
              (grid, history, local) = (grid', history', local') ->
    exists insts,
      local' = local ++ List.concat insts
      /\ Forall (attempt_instance courses quarterDates) insts
      /\ engine_inv courses quarterDates grid' history'
                    (S ++ List.concat insts).
Proof.
  intros Hc. induction ds as [|d ds IH];
    intros Hincl grid history local grid' history' local' S Hinv Hrun.
  - cbn in Hrun. injection Hrun as <- <- <-. exists []. cbn [List.concat].
    rewrite !app_nil_r. split; [reflexivity|]. split; [constructor|exact Hinv].
  - cbn [fold_left] in Hrun.
    destruct (tryStartDate c quarterDates (isSpecial (title c))
                (grid, history, local) d) as [[g1 h1] l1] eqn:Hstep.
    apply (tryStartDate_trace _ _ _ _ _ _ _ _ S) in Hstep;
      [|assumption|apply Hincl; left; reflexivity|assumption].
    destruct Hstep as (i1 & -> & F1 & H1).
    assert (Hincl' : incl ds quarterDates)
      by (intros x Hx; apply Hincl; right; assumption).
    apply (IH Hincl' _ _ _ _ _ _ _ H1) in Hrun.
    destruct Hrun as (i2 & -> & F2 & H2).
    exists (i1 ++ i2). rewrite concat_app, !app_assoc.
    split; [reflexivity|]. split; [apply Forall_app; auto|exact H2].
Qed.

Lemma cadenceDates_trace (c : Course) (cds : list Date) :
  In c courses ->
  forall grid history local grid' history' local' S,
    engine_inv courses quarterDates grid history S ->
    fold_left
      (fun st cadenceDate =>
         let availableDates :=
           filter (fun date => cadenceDate <=? date) quarterDates in
         fold_left (tryStartDate c quarterDates (isSpecial (title c)))
                   availableDates st)
      cds (grid, history, local) = (grid', history', local') ->
    exists insts,
      local' = local ++ List.concat insts
      /\ Forall (attempt_instance courses quarterDates) insts
      /\ engine_inv courses quarterDates grid' history'
                    (S ++ List.concat insts).
Proof.
  intros Hc. induction cds as [|cd cds IH];
    intros grid history local grid' history' local' S Hinv Hrun.
  - cbn in Hrun. injection Hrun as <- <- <-. exists []. cbn [List.concat].
    rewrite !app_nil_r. split; [reflexivity|]. split; [constructor|exact Hinv].
  - cbn [fold_left] in Hrun.
    destruct (fold_left (tryStartDate c quarterDates (isSpecial (title c)))
                (filter (fun date => cd <=? date) quarterDates)
                (grid, history, local)) as [[g1 h1] l1] eqn:Hstep.
    assert (Hincl : incl (filter (fun date => cd <=? date) quarterDates)
                         quarterDates)
      by (intros x Hx; apply filter_In in Hx; tauto).
    apply (startDates_trace c _ Hc Hincl _ _ _ _ _ _ S Hinv) in Hstep.
    destruct Hstep as (i1 & -> & F1 & H1).
    apply (IH _ _ _ _ _ _ _ H1) in Hrun.
    destruct Hrun as (i2 & -> & F2 & H2).
    exists (i1 ++ i2). rewrite concat_app, !app_assoc.
    split; [reflexivity|]. split; [apply Forall_app; auto|exact H2].
Qed.

Lemma scheduleCourses_trace (cs : list Course) (fyStart : Date) :
  incl cs courses ->
  forall grid history S grid' history' S',
    engine_inv courses quarterDates grid history S ->
    scheduleCourses cs fyStart quarterDates (grid, history, S)
    = Returned (grid', history', S') ->
    exists insts,
      S' = S ++ List.concat insts
      /\ Forall (attempt_instance courses quarterDates) insts.
Proof.
  induction cs as [|c cs IH]; intros Hincl grid history S grid' history' S'
    Hinv Hrun.
  - cbn in Hrun. injection Hrun as <- <- <-. exists []. cbn [List.concat].
    rewrite app_nil_r. split; [reflexivity|constructor].
  - cbn [scheduleCourses] in Hrun.
    destruct (scheduleCourse c fyStart quarterDates grid history)
      as [[[g1 h1] out]| |] eqn:Hcourse; cbn [bind] in Hrun;
      try discriminate.
    unfold scheduleCourse in Hcourse.
    destruct (calculateCadenceStartDates c fyStart quarterDates)
      as [cds| |]; cbn [bind] in Hcourse; try discriminate.
    injection Hcourse as Hcourse.
    assert (Hc : In c courses) by (apply Hincl; left; reflexivity).
    assert (Hincl' : incl cs courses)
      by (intros x Hx; apply Hincl; right; assumption).
    apply (cadenceDates_trace c cds Hc _ _ _ _ _ _ S Hinv) in Hcourse.
    destruct Hcourse as (i1 & E1 & F1 & H1). cbn [app] in E1. subst out.
    apply (IH Hincl' _ _ _ _ _ _ H1) in Hrun.
    destruct Hrun as (i2 & -> & F2).
    exists (i1 ++ i2). rewrite concat_app, app_assoc.
    split; [reflexivity|apply Forall_app; auto].
Qed.

End Trace.

(** The sessions of a run are the instances its attempts booked. *)
Lemma runEngine_trace (cfg : YearStart) (courses : list Course)
  (quarter : string) (year : Z) (quarterDates : list Date)
  (grid : AvailabilityGrid) (history : CourseHistory)
  (S : list ScheduledSession) :
  runEngine cfg courses quarter year
  = Returned (quarterDates, (grid, history, S)) ->
  getWeekdaysInQuarter cfg quarter year = Returned quarterDates
  /\ exists insts,
       S = List.concat insts
       /\ Forall (attempt_instance courses quarterDates) insts.
Proof.
  unfold runEngine. intros Hrun.
  destruct (getWeekdaysInQuarter cfg quarter year) as [qd| |] eqn:Hq;
    cbn [bind] in Hrun; try discriminate.
  destruct (scheduleCourses courses (getFinancialYearStart cfg year) qd
              (initializeAvailabilityGrid qd, [], []))
    as [[[g h] S0]| |] eqn:Hs; cbn [bind] in Hrun; try discriminate.
  injection Hrun as <- <- <- <-.
  split; [reflexivity|].
  destruct (getWeekdaysInQuarter_weekdays _ _ _ _ Hq) as (s & e & _ & ->).
  apply (scheduleCourses_trace s e courses courses _ (incl_refl _)
           _ _ _ _ _ _ (initial_inv s e courses)) in Hs.
  destruct Hs as (insts & -> & F). exists insts. split; [reflexivity|exact F].
Qed.

(** C5. The sessions of a result are whole instances, each booked by one
    attempt of the engine on a candidate start date of the quarter: the
    instance is what [scheduleCourseSessions] returned for that date, it has
    the sessions 1 to [sessions c] of its course [c], in this order, all at
    the start and end time of the slot that [findSuitableSlot] chose on the
    candidate date, on dates a week apart that begin with the candidate
    date itself, hence all on its weekday; and the result lists the
    sessions by date. *)
Theorem weekly_instance_shape (cfg : YearStart) (courses : list Course)
  (quarter : string) (year : Z) (r : Schedule) :
  generateSchedule cfg courses quarter year = Returned r ->
  sortedByDate (scheduledSessions r) = true
  /\ exists quarterDates insts,
       getWeekdaysInQuarter cfg quarter year = Returned quarterDates
       /\ Permutation (List.concat insts) (scheduledSessions r)
       /\ forall inst, In inst insts ->
            exists c startDate sl,
              In c courses /\ In startDate quarterDates
              /\ attempt_booked quarterDates c startDate sl inst
              /\ In (mkTimeSlot (slotStart sl) (slotEnd sl))
                    (getAvailableTimeSlots startDate)
              /\ 1 <= sessions c
              /\ List.length inst = Z.to_nat (sessions c)
              /\ forall k : nat,
                   (k < Z.to_nat (sessions c))%nat ->
                   nth_error inst k
                   = Some (mkSession (startDate + 7 * Z.of_nat k) (title c)
                                     (Z.of_nat k + 1) (slotStart sl)
                                     (slotEnd sl) "" "")
                   /\ getDay (startDate + 7 * Z.of_nat k) = getDay startDate.
Proof.
  intros Hgen.
  destruct (generateSchedule_run _ _ _ _ _ Hgen)
    as (qd & grid & history & S & Hrun & Hs & _).
  destruct (runEngine_trace _ _ _ _ _ _ _ _ Hrun) as (Hq & insts & E & Hall).
  rewrite Hs. split; [apply sortSessions_sorted|].
  exists qd, insts. split; [exact Hq|]. split.
  - rewrite <- E. apply Permutation_sym, sortSessions_perm.
  - intros inst Hin. rewrite Forall_forall in Hall.
    destruct (Hall _ Hin) as (c & d0 & sl & Hc & Hd & Hb & Hslot & Hn & E').
    exists c, d0, sl.
    split; [exact Hc|]. split; [exact Hd|]. split; [exact Hb|].
    split; [exact Hslot|]. split; [exact Hn|]. rewrite E'. split.
    + apply instance_of_length.
    + intros k Hk. split; [|apply getDay_shift].
      unfold instance_of. rewrite sessions_on_nth by assumption.
      do 2 f_equal. ring.
Qed.

Lemma weekly_instance_shape_witness :
  sortedByDate (scheduledSessions sampleSchedule) = true
  /\ exists quarterDates insts,
       getWeekdaysInQuarter April "Q1" 2025 = Returned quarterDates
       /\ Permutation (List.concat insts) (scheduledSessions sampleSchedule)
       /\ forall inst, In inst insts ->
            exists c startDate sl,
              In c sampleCourses /\ In startDate quarterDates
              /\ attempt_booked quarterDates c startDate sl inst
              /\ In (mkTimeSlot (slotStart sl) (slotEnd sl))
                    (getAvailableTimeSlots startDate)
              /\ 1 <= sessions c
              /\ List.length inst = Z.to_nat (sessions c)
              /\ forall k : nat,
                   (k < Z.to_nat (sessions c))%nat ->
                   nth_error inst k
                   = Some (mkSession (startDate + 7 * Z.of_nat k) (title c)
                                     (Z.of_nat k + 1) (slotStart sl)
                                     (slotEnd sl) "" "")
                   /\ getDay (startDate + 7 * Z.of_nat k) = getDay startDate.
Proof.
  apply (weekly_instance_shape April sampleCourses "Q1" 2025 sampleSchedule).
  vm_compute. reflexivity.
Defined.

Lemma valid_special_day (d : Date) (st : string) :
  isValidForFinancialIntelligence (dayName (getDay d)) st = true ->
  getDay d = 2 \/ getDay d = 3.
Proof.
  destruct (getDay_cases d) as [H|[H|[H|[H|[H|[H|H]]]]]]; rewrite H;
    cbn; try discriminate; auto.
Qed.

Lemma inSpecialHours_hour (st : string) :
  inSpecialHours st = true ->
  exists hour, number_part 0 st = Some hour /\ 10 <= hour < 13.
Proof.
  unfold inSpecialHours. destruct (number_part 0 st) as [h|]; [|discriminate].
  intros H. apply andb_true_iff in H as [H1 H2].
  apply Z.leb_le in H1. apply Z.ltb_lt in H2. eauto.
Qed.

(** C4. Every session of a result whose course is special falls on a
    Tuesday or a Wednesday and starts at an hour from 10 up to, and not
    including, 13.  The search does not compare the weekday of a slot with
    the weekday of the last instance of a special course: whatever that
    weekday is, the slot is skipped or kept alike, where the same slot is
    skipped for any other course whose last instance began on its
    weekday. *)
Theorem special_course_window (cfg : YearStart) (courses : list Course)
  (quarter : string) (year : Z) (r : Schedule) :
  generateSchedule cfg courses quarter year = Returned r ->
  (forall x, In x (scheduledSessions r) ->
             isSpecial (courseName x) = true ->
             (getDay (date x) = 2 \/ getDay (date x) = 3)
             /\ exists hour, number_part 0 (startTime x) = Some hour
                             /\ 10 <= hour < 13)
  /\ (forall (dow weekday : string) (lastInstance : HistoryEntry)
             (s : GridSlot),
        slot_skipped dow (Some lastInstance) true s
        = slot_skipped dow
            (Some (mkHistoryEntry (h_startDate lastInstance) weekday
                                  (h_startTime lastInstance)))
            true s)
  /\ (forall (dow : string) (lastInstance : HistoryEntry) (s : GridSlot),
        h_dayOfWeek lastInstance = dow ->
        slot_skipped dow (Some lastInstance) false s = true).
Proof.
  intros Hgen. split; [|split].
  - destruct (generateSchedule_run _ _ _ _ _ Hgen)
      as (qd & grid & history & S & Hrun & Hs & _).
    destruct (runEngine_inv _ _ _ _ _ _ _ _ Hrun) as (Hinv & _).
    intros x Hx Hsp. rewrite Hs in Hx.
    apply (Permutation_in _ (sortSessions_perm S)) in Hx.
    destruct (inv_instances _ _ _ _ _ Hinv) as (insts & E & Hall).
    rewrite E in Hx. apply in_concat in Hx as (inst & Hinst & Hx).
    rewrite Forall_forall in Hall.
    destruct (Hall _ Hinst) as (c & d0 & st & en & _ & _ & _ & -> & _ & Hv).
    apply instance_of_In in Hx as (k & _ & ->).
    cbn [courseName date startTime] in *. specialize (Hv Hsp).
    rewrite getDay_shift. split.
    + eapply valid_special_day. exact Hv.
    + apply inSpecialHours_hour. eapply valid_special_hours. exact Hv.
  - intros dow weekday lastInstance s. reflexivity.
  - intros dow lastInstance s <-. unfold slot_skipped.
    destruct (available s); [|reflexivity]. cbn.
    rewrite String.eqb_refl. reflexivity.
Qed.

Lemma special_course_window_witness :
  (forall x, In x (scheduledSessions sampleSchedule) ->
             isSpecial (courseName x) = true ->
             (getDay (date x) = 2 \/ getDay (date x) = 3)
             /\ exists hour, number_part 0 (startTime x) = Some hour
                             /\ 10 <= hour < 13)
  /\ (forall (dow weekday : string) (lastInstance : HistoryEntry)
             (s : GridSlot),
        slot_skipped dow (Some lastInstance) true s
        = slot_skipped dow
            (Some (mkHistoryEntry (h_startDate lastInstance) weekday
                                  (h_startTime lastInstance)))
            true s)
  /\ (forall (dow : string) (lastInstance : HistoryEntry) (s : GridSlot),
        h_dayOfWeek lastInstance = dow ->
        slot_skipped dow (Some lastInstance) false s = true).
Proof.
  apply (special_course_window April sampleCourses "Q1" 2025 sampleSchedule).
  vm_compute. reflexivity.
Defined.

(** C10. A run books one instance at most of a special course: the result
    holds at most one first session under a special title.  The three-hour
    check applies to the special course too, and two start times of the
    schedule inside its window are never three hours apart. *)
Theorem special_course_once (cfg : YearStart) (courses : list Course)
  (quarter : string) (year : Z) (r : Schedule) (t : string) :
  generateSchedule cfg courses quarter year = Returned r ->
  isSpecial t = true ->
  (List.length (filter (isInstanceStart t) (scheduledSessions r)) <= 1)%nat
  /\ (forall a b, In a templateStarts -> In b templateStarts ->
                  inSpecialHours a = true -> inSpecialHours b = true ->
                  threeHoursApart a b = false)
  /\ (forall (dow : string) (lastInstance : HistoryEntry) (s : GridSlot),
        threeHoursApart (start (slot s)) (h_startTime lastInstance) = false ->
        In (start (slot s)) templateStarts ->
        In (h_startTime lastInstance) templateStarts ->
        slot_skipped dow (Some lastInstance) true s = true).
Proof.
  intros Hgen Ht. split; [|split].
  - destruct (generateSchedule_run _ _ _ _ _ Hgen)
      as (qd & grid & history & S & Hrun & Hs & _).
    destruct (runEngine_inv _ _ _ _ _ _ _ _ Hrun) as (Hinv & _).
    rewrite Hs.
    rewrite (Permutation_filter_length _ _ _ (sortSessions_perm S)).
    destruct (inv_special _ _ _ _ _ Hinv _ Ht) as [Hone _].
    rewrite (inv_history _ _ _ _ _ Hinv), length_map in Hone. exact Hone.
  - intros a b Ha Hb Va Vb.
    pose proof (special_window_close a b Ha Hb Va Vb) as H.
    unfold threeHoursApart.
    destruct (getTimeDifferenceInHours a b) as [q|]; [|reflexivity].
    unfold Qltb in H. apply negb_true_iff in H. exact H.
  - intros dow lastInstance s Hclose Hs Hl. unfold slot_skipped.
    destruct (available s); [|reflexivity]. cbn [negb andb].
    destruct (isValidForFinancialIntelligence dow (start (slot s)));
      [|reflexivity].
    cbn [negb].
    destruct (minutesOf_template _ Hs) as (m1 & Hm1).
    destruct (minutesOf_template _ Hl) as (m2 & Hm2).
    unfold threeHoursApart, getTimeDifferenceInHours in *.
    rewrite Hm1, Hm2 in *. unfold Qltb. rewrite Hclose. reflexivity.
Qed.

Lemma special_course_once_witness :
  (List.length (filter (isInstanceStart "Financial Intelligence")
                       (scheduledSessions sampleSchedule)) <= 1)%nat
  /\ (forall a b, In a templateStarts -> In b templateStarts ->
                  inSpecialHours a = true -> inSpecialHours b = true ->
                  threeHoursApart a b = false)
  /\ (forall (dow : string) (lastInstance : HistoryEntry) (s : GridSlot),
        threeHoursApart (start (slot s)) (h_startTime lastInstance) = false ->
        In (start (slot s)) templateStarts ->
        In (h_startTime lastInstance) templateStarts ->
        slot_skipped dow (Some lastInstance) true s = true).
Proof.
  apply (special_course_once April sampleCourses "Q1" 2025 sampleSchedule
           "Financial Intelligence").
  - vm_compute. reflexivity.
  - vm_compute. reflexivity.
Defined.

End Instances.

Section Separation.

(** C3, as stated, fails.  The engine sweeps the dates of the quarter once
    for every cadence date, so a later sweep books instances on dates an
    earlier sweep has passed: in the first quarter of 2025 a course of one
    session every twelve weeks gets two instances on June 24, both on a
    Tuesday. *)
Lemma separation_by_start_date_fails :
  ~ separation_by_start_date April singleSessionCourse "Q1" 2025.
Proof.
  intros H.
  pose (r := returned (generateSchedule April singleSessionCourse "Q1" 2025)).
  specialize (H r "Leading Teams"
                (filter (isInstanceStart "Leading Teams") (scheduledSessions r))).
  assert (E : generateSchedule April singleSessionCourse "Q1" 2025
              = Returned r) by (vm_compute; reflexivity).
  specialize (H E eq_refl (Permutation_refl _)).
  assert (Hs : sortedByDate
                 (filter (isInstanceStart "Leading Teams")
                         (scheduledSessions r)) = true)
    by (vm_compute; reflexivity).
  specialize (H Hs). clear E Hs. vm_compute in H.
  exact (Bool.diff_false_true H).
Qed.

(** C3, amended.  The separation holds in the order of booking: in the
    sessions of a run as the engine booked them, the first sessions of a
    course that is not special follow each other on different weekdays and
    at start times three hours apart or more.  These first sessions are the
    history of the course, and the result is the same sessions sorted. *)
Theorem separation_in_booking_order (cfg : YearStart) (courses : list Course)
  (quarter : string) (year : Z) (quarterDates : list Date)
  (grid : AvailabilityGrid) (history : CourseHistory)
  (S : list ScheduledSession) (t : string) :
  runEngine cfg courses quarter year
  = Returned (quarterDates, (grid, history, S)) ->
  isSpecial t = false ->
  separated (map startEntry (filter (isInstanceStart t) S)) = true
  /\ history_get history t = map startEntry (filter (isInstanceStart t) S)
  /\ exists r, generateSchedule cfg courses quarter year = Returned r
               /\ scheduledSessions r = sortSessions S.
Proof.
  intros Hrun Ht.
  destruct (runEngine_inv _ _ _ _ _ _ _ _ Hrun) as (Hinv & _).
  destruct (run_generateSchedule _ _ _ _ _ _ _ _ Hrun) as (r & Hr & Hs & _).
  rewrite <- (inv_history _ _ _ _ _ Hinv). repeat split.
  - apply (inv_separated _ _ _ _ _ Hinv). exact Ht.
  - exists r. auto.
Qed.

Lemma separation_in_booking_order_witness :
  separated (map startEntry (filter (isInstanceStart "Leading Teams")
                                    (snd (snd sampleRun)))) = true
  /\ history_get (snd (fst (snd sampleRun))) "Leading Teams"
     = map startEntry (filter (isInstanceStart "Leading Teams")
                              (snd (snd sampleRun)))
  /\ exists r, generateSchedule April sampleCourses "Q1" 2025 = Returned r
               /\ scheduledSessions r = sortSessions (snd (snd sampleRun)).
Proof.
  apply (separation_in_booking_order April sampleCourses "Q1" 2025
           (fst sampleRun) (fst (fst (snd sampleRun)))
           (snd (fst (snd sampleRun))) (snd (snd sampleRun)) "Leading Teams").
  - vm_compute. reflexivity.
  - vm_compute. reflexivity.
Defined.

End Separation.

Section CalendarClaims.











End CalendarClaims.

Section Atomicity.

Lemma distinct_keys_NoDup (l : list DateKey) :
  distinct_keys l = true -> NoDup l.
Proof.
  induction l as [|x l IH]; intros H; [constructor|].
  cbn in H. apply andb_true_iff in H as [Hx Hl].
  constructor; [|auto].
  intros Hin. apply negb_true_iff in Hx.
  assert (existsb (key_eqb x) l = true); [|congruence].
  apply existsb_exists. exists x. split; [assumption|apply key_eqb_refl].
Qed.

Lemma grid_wfb_sound (grid : AvailabilityGrid) :
  grid_wfb grid = true -> grid_wf grid.
Proof.
  unfold grid_wfb. intros H. apply andb_true_iff in H as [Hk Hd].
  split; [apply distinct_keys_NoDup; assumption|].
  intros k dd Hin. rewrite forallb_forall in Hd.
  specialize (Hd _ Hin). cbn [snd] in Hd.
  apply andb_true_iff in Hd as [Hs Hf]. split.
  - apply distinct_strings_NoDup. assumption.
  - intros s Hs' Hav. rewrite forallb_forall in Hf. specialize (Hf _ Hs').
    rewrite Hav in Hf. cbn in Hf. destruct (session s); [discriminate|auto].
Qed.

(** Each way the booking loop can fail ends in the grid the attempt began
    with and in no session. *)
Lemma bookSessions_fails (c : Course) (sl : SuitableSlot)
  (quarterDates : list Date) (n : nat) (num : Z) (cur : Date)
  (g0 g : AvailabilityGrid) (acc : list ScheduledSession) :
  grid_wf g0 -> booked g0 acc g ->
  (findNextAvailableDate cur (dayOfWeek sl) quarterDates = None
   \/ exists d,
        findNextAvailableDate cur (dayOfWeek sl) quarterDates = Some d
        /\ (grid_get g (format d) = None
            \/ exists dd,
                 grid_get g (format d) = Some dd
                 /\ forall s, In s (slots dd) ->
                      start (slot s) = slotStart sl -> available s = false)) ->
  bookSessions c sl quarterDates (S n) num cur g acc = (g0, []).
Proof.
  intros Hwf Hb H. cbn [bookSessions].
  rewrite <- (rollback_booked _ _ _ Hwf Hb).
  destruct H as [->|(d & -> & [->|(dd & -> & Hfull)])]; try reflexivity.
  destruct (findIndex _ (slots dd)) as [i|] eqn:Hfind; [|reflexivity].
  exfalso. apply findIndex_Some in Hfind as (s & Hs & Hp & _).
  apply andb_true_iff in Hp as [Hst Hav]. apply String.eqb_eq in Hst.
  rewrite (Hfull s) in Hav; [discriminate| |assumption].
  eapply nth_error_In. eassumption.
Qed.

Lemma attempt_too_long (c : Course) (quarterDates : list Date) (fi : bool)
  (grid : AvailabilityGrid) (history : CourseHistory)
  (local : list ScheduledSession) (d : Date) :
  grid_wf grid ->
  Z.of_nat (List.length (matchingDates quarterDates d)) < sessions c ->
  tryStartDate c quarterDates fi (grid, history, local) d
  = (grid, history, local).
Proof.
  intros Hwf Hlong. unfold tryStartDate.
  destruct (scheduleCourseSessions c d quarterDates grid history fi)
    as [g1 out] eqn:Hscs.
  apply scheduleCourseSessions_spec in Hscs; [|assumption].
  destruct Hscs as [[-> ->]|(sl & ds & Hslot & Hchain & Hlen & _ & _)];
    [reflexivity|exfalso].
  apply findSuitableSlot_Some in Hslot as (dd & s & _ & _ & _ & ->).
  cbn [dayOfWeek] in Hchain.
  apply date_chain_matching in Hchain. lia.
Qed.

Lemma fold_unchanged {A B : Type} (f : A -> B -> A) (l : list B) (a : A) :
  (forall x, In x l -> f a x = a) -> fold_left f l a = a.
Proof.
  induction l as [|x l IH]; intros H; [reflexivity|].
  cbn. rewrite (H x) by (left; reflexivity).
  apply IH. intros y Hy. apply H. right. assumption.
Qed.

(** C2. An attempt is all or nothing: [scheduleCourseSessions] returns no
    session and the very grid it was given, every slot the attempt had
    booked free again and without occupant, or it returns all the
    [sessions c] sessions; each failure of the booking loop (no date of
    the weekday left in the quarter, the date not in the grid, the slot
    not free) ends in the rollback.  So a course with more sessions than
    any date of the quarter has matching weekdays left contributes no
    session, and the grid and its count of free slots stay as they were. *)
Theorem atomic_booking :
  (forall (c : Course) (startDate : Date) (quarterDates : list Date)
          (grid : AvailabilityGrid) (courseHistory : CourseHistory)
          (fi : bool) (grid' : AvailabilityGrid)
          (out : list ScheduledSession),
     grid_wf grid ->
     scheduleCourseSessions c startDate quarterDates grid courseHistory fi
     = (grid', out) ->
     (out = [] /\ grid' = grid)
     \/ (1 <= sessions c /\ List.length out = Z.to_nat (sessions c)))
  /\ (forall (c : Course) (sl : SuitableSlot) (quarterDates : list Date)
             (n : nat) (num : Z) (cur : Date) (g0 g : AvailabilityGrid)
             (acc : list ScheduledSession),
        grid_wf g0 -> booked g0 acc g ->
        (findNextAvailableDate cur (dayOfWeek sl) quarterDates = None
         \/ exists d,
              findNextAvailableDate cur (dayOfWeek sl) quarterDates = Some d
              /\ (grid_get g (format d) = None
                  \/ exists dd,
                       grid_get g (format d) = Some dd
                       /\ forall s, In s (slots dd) ->
                            start (slot s) = slotStart sl ->
                            available s = false)) ->
        bookSessions c sl quarterDates (S n) num cur g acc = (g0, []))
  /\ (forall (c : Course) (financialYearStart : Date)
             (quarterDates : list Date) (grid : AvailabilityGrid)
             (courseHistory : CourseHistory) (grid' : AvailabilityGrid)
             (history' : CourseHistory) (out : list ScheduledSession),
        grid_wf grid ->
        (forall d, In d quarterDates ->
           Z.of_nat (List.length (matchingDates quarterDates d)) < sessions c) ->
        scheduleCourse c financialYearStart quarterDates grid courseHistory
        = Returned (grid', history', out) ->
        out = [] /\ grid' = grid /\ history' = courseHistory
        /\ freeSlots grid' = freeSlots grid).
Proof.
  split; [|split].
  - intros c startDate quarterDates grid courseHistory fi grid' out Hwf Hscs.
    apply scheduleCourseSessions_spec in Hscs; [|assumption].
    destruct Hscs as [?|(sl & ds & _ & _ & Hlen & -> & Hb)];
      [left; assumption|].
    destruct ds as [|d ds].
    + left. split; [reflexivity|]. apply booked_nil_inv. exact Hb.
    + right. rewrite sessions_on_length. cbn [List.length] in *.
      split; [lia|assumption].
  - intros c sl quarterDates n num cur g0 g acc. apply bookSessions_fails.
  - intros c fyStart quarterDates grid courseHistory grid' history' out
      Hwf Hlong Hrun.
    unfold scheduleCourse in Hrun.
    destruct (calculateCadenceStartDates c fyStart quarterDates)
      as [cds| |]; cbn [bind] in Hrun; try discriminate.
    rewrite fold_unchanged in Hrun.
    + injection Hrun as <- <- <-. auto.
    + intros cd _. apply fold_unchanged. intros d Hd.
      apply attempt_too_long; [assumption|].
      apply Hlong. apply filter_In in Hd. tauto.
Qed.

(** An attempt of three weekly sessions from June 24, 2025: the quarter
    ends on June 30, so the second date is missing and the booking of the
    first is rolled back. *)
Lemma atomic_booking_witness :
  (snd (scheduleCourseSessions threeSessions (make 2025 5 24) sampleDates
          (initializeAvailabilityGrid sampleDates) [] false) = []
   /\ fst (scheduleCourseSessions threeSessions (make 2025 5 24) sampleDates
             (initializeAvailabilityGrid sampleDates) [] false)
      = initializeAvailabilityGrid sampleDates)
  \/ (1 <= sessions threeSessions
      /\ List.length
           (snd (scheduleCourseSessions threeSessions (make 2025 5 24)
                   sampleDates (initializeAvailabilityGrid sampleDates)
                   [] false))
         = Z.to_nat (sessions threeSessions)).
Proof.
  apply (proj1 atomic_booking threeSessions (make 2025 5 24) sampleDates
           (initializeAvailabilityGrid sampleDates) [] false).
  - apply grid_wfb_sound. vm_compute. reflexivity.
  - apply surjective_pairing.
Defined.

End Atomicity.

Section Outcomes.

Lemma quarter_lookup_Some (tbl : list (string * list Z)) (q : string)
  (v : list Z) :
  quarter_lookup tbl q = Some v -> In q (map fst tbl).
Proof.
  induction tbl as [|[k w] tbl IH]; [discriminate|].
  cbn. destruct (String.eqb k q) eqn:E.
  - apply String.eqb_eq in E. auto.
  - auto.
Qed.

Lemma quarter_lookup_In (tbl : list (string * list Z)) (q : string) :
  In q (map fst tbl) -> exists v, quarter_lookup tbl q = Some v.
Proof.
  induction tbl as [|[k w] tbl IH]; [contradiction|].
  cbn. destruct (String.eqb k q) eqn:E; [eauto|].
  apply String.eqb_neq in E. intros [H|H]; [contradiction|auto].
Qed.

Lemma QUARTERS_names (cfg : YearStart) : map fst (QUARTERS cfg) = quarterNames.
Proof. destruct cfg; reflexivity. Qed.

Lemma getQuarterDateRange_known (cfg : YearStart) (quarter : string) (year : Z) :
  In quarter quarterNames ->
  exists startDate endDate,
    getQuarterDateRange cfg quarter year = Returned (startDate, endDate).
Proof.
  intros H. rewrite <- (QUARTERS_names cfg) in H.
  apply quarter_lookup_In in H as (v & Hv).
  unfold getQuarterDateRange. rewrite Hv. eauto.
Qed.

Lemma getQuarterDateRange_unknown (cfg : YearStart) (quarter : string)
  (year : Z) :
  ~ In quarter quarterNames ->
  exists e, getQuarterDateRange cfg quarter year = Thrown e.
Proof.
  intros H. unfold getQuarterDateRange.
  destruct (quarter_lookup (QUARTERS cfg) quarter) as [v|] eqn:E.
  - apply quarter_lookup_Some in E. rewrite QUARTERS_names in E.
    contradiction.
  - destruct (existsb _ _); eauto.
Qed.

(** With a positive cadence the loop over the cadence dates ends within
    the fuel. *)
Lemma cadence_loop_returns (c : Course) (quarterDates : list Date)
  (fyEnd : Date) (fuel : nat) :
  1 <= cadence c ->
  forall cur, Z.max 0 (fyEnd - cur + 1) < Z.of_nat fuel ->
    exists l, cadence_loop fuel c quarterDates fyEnd cur = Returned l.
Proof.
  intros Hc. induction fuel as [|fuel IH]; intros cur H.
  - change (Z.of_nat 0) with 0 in H. lia.
  - cbn [cadence_loop]. destruct (cur <=? fyEnd) eqn:E; [|eauto].
    apply Z.leb_le in E.
    destruct (IH (addWeeks cur (cadence c))) as (l & ->).
    + unfold addWeeks, addDays. lia.
    + cbn [bind]. eauto.
Qed.

(** More fuel does not change what the loop returns. *)
Lemma cadence_loop_fuel (c : Course) (quarterDates : list Date)
  (fyEnd : Date) (fuel : nat) :
  forall cur l,
    cadence_loop fuel c quarterDates fyEnd cur = Returned l ->
    forall fuel', (fuel <= fuel')%nat ->
      cadence_loop fuel' c quarterDates fyEnd cur = Returned l.
Proof.
  induction fuel as [|fuel IH]; intros cur l H fuel' Hle; [discriminate|].
  destruct fuel' as [|fuel']; [lia|].
  cbn [cadence_loop] in *. destruct (cur <=? fyEnd); [|exact H].
  destruct (cadence_loop fuel c quarterDates fyEnd (addWeeks cur (cadence c)))
    as [rest| |] eqn:E; cbn [bind] in H; try discriminate.
  rewrite (IH _ _ E fuel') by lia. exact H.
Qed.


Lemma cadence_loop_no_throw (c : Course) (quarterDates : list Date)
  (fyEnd : Date) (fuel : nat) :
  forall cur e, cadence_loop fuel c quarterDates fyEnd cur <> Thrown e.
Proof.
  induction fuel as [|fuel IH]; intros cur e; [discriminate|].
  cbn [cadence_loop]. destruct (cur <=? fyEnd); [|discriminate].
  specialize (IH (addWeeks cur (cadence c)) e).
  destruct (cadence_loop fuel c quarterDates fyEnd (addWeeks cur (cadence c)));
    cbn [bind]; congruence.
Qed.

Lemma scheduleCourse_returns (c : Course) (fyStart : Date)
  (quarterDates : list Date) (grid : AvailabilityGrid)
  (history : CourseHistory) :
  1 <= cadence c ->
  exists st, scheduleCourse c fyStart quarterDates grid history = Returned st.
Proof.
  intros Hc. unfold scheduleCourse, calculateCadenceStartDates.
  match goal with
  | |- context [cadence_loop ?f c quarterDates ?e ?cur] =>
      destruct (cadence_loop_returns c quarterDates e f Hc cur) as (l & ->)
  end.
  - rewrite !Nat2Z.inj_succ. lia.
  - cbn [bind]. eauto.
Qed.

Lemma scheduleCourse_no_throw (c : Course) (fyStart : Date)
  (quarterDates : list Date) (grid : AvailabilityGrid)
  (history : CourseHistory) (e : JsError) :
  scheduleCourse c fyStart quarterDates grid history <> Thrown e.
Proof.
  unfold scheduleCourse, calculateCadenceStartDates.
  match goal with
  | |- context [cadence_loop ?f c quarterDates ?fe ?cur] =>
      pose proof (cadence_loop_no_throw c quarterDates fe f cur e) as H;
      destruct (cadence_loop f c quarterDates fe cur)
  end; cbn [bind]; congruence.
Qed.

Lemma scheduleCourses_returns (courses : list Course) (fyStart : Date)
  (quarterDates : list Date) :
  (forall c, In c courses -> 1 <= cadence c) ->
  forall st, exists st',
    scheduleCourses courses fyStart quarterDates st = Returned st'.
Proof.
  induction courses as [|c cs IH]; intros H [[g h] S]; cbn [scheduleCourses];
    [eauto|].
  destruct (scheduleCourse_returns c fyStart quarterDates g h) as ([[g1 h1] out] & ->);
    [apply H; left; reflexivity|].
  cbn [bind]. apply IH. intros c' Hc'. apply H. right. assumption.
Qed.

Lemma scheduleCourses_no_throw (courses : list Course) (fyStart : Date)
  (quarterDates : list Date) (e : JsError) :
  forall st, scheduleCourses courses fyStart quarterDates st <> Thrown e.
Proof.
  induction courses as [|c cs IH]; intros [[g h] S]; cbn [scheduleCourses];
    [discriminate|].
  pose proof (scheduleCourse_no_throw c fyStart quarterDates g h e) as H.
  destruct (scheduleCourse c fyStart quarterDates g h) as [[[g1 h1] out]| |];
    cbn [bind]; [apply IH|congruence|congruence].
Qed.

(** What [generateSchedule] does, by what [getQuarterDateRange] does. *)
Lemma generateSchedule_outcome (cfg : YearStart) (courses : list Course)
  (quarter : string) (year : Z) :
  match getQuarterDateRange cfg quarter year with
  | Returned (startDate, endDate) =>
      (forall e, generateSchedule cfg courses quarter year <> Thrown e)
      /\ ((forall c, In c courses -> 1 <= cadence c) ->
          exists r, generateSchedule cfg courses quarter year = Returned r)
  | Thrown e => generateSchedule cfg courses quarter year = Thrown e
  | OutOfFuel => False
  end.
Proof.
  unfold generateSchedule, runEngine, getWeekdaysInQuarter,
    getAllDatesInQuarter.
  destruct (getQuarterDateRange cfg quarter year) as [[s e]|err|] eqn:E;
    cbn [bind].
  - match goal with
    | |- context [scheduleCourses courses ?f ?qd ?st] =>
        pose proof (scheduleCourses_no_throw courses f qd) as Hn;
        pose proof (scheduleCourses_returns courses f qd) as Hr;
        specialize (fun e => Hn e st); specialize (fun H => Hr H st);
        destruct (scheduleCourses courses f qd st) as [[[g h] S]|e0|]
    end; cbn [bind].
    + split; [discriminate|]. intros _. eauto.
    + exfalso. apply (Hn e0). reflexivity.
    + split; [discriminate|].
      intros H. destruct (Hr H) as (st' & Hst). discriminate.
  - reflexivity.
  - unfold getQuarterDateRange in E.
    destruct (quarter_lookup _ _); [discriminate|].
    destruct (existsb _ _); discriminate.
Qed.




End Outcomes.

(* ================================================================== *)
(** * The statistics *)

Section Statistics.

Lemma all_from_spec (fuel : nat) (i : Z) (p : Z -> bool) :
  all_from fuel i p = true ->
  forall j, i <= j < i + Z.of_nat fuel -> p j = true.
Proof.
  revert i; induction fuel as [|fuel IH]; intros i H j Hj.
  - change (Z.of_nat 0) with 0 in Hj. lia.
  - cbn [all_from] in H. apply andb_true_iff in H as [Hi Hrest].
    destruct (Z.eq_dec j i) as [->|Hne]; [assumption|].
    apply (IH (i + 1)); [assumption|lia].
Qed.

(** The utilization of every grid a quarter can have, run through the
    binary64 division, the multiplication and [toFixed]. *)
Lemma utilization_checked_quarter :
  all_from (Z.to_nat maxQuarterSlots) 1
           (fun total =>
              all_from (Z.to_nat (total + 1)) 0 (utilization_ok total))
  = true.
Proof. vm_cast_no_check (eq_refl true). Qed.

Lemma utilization_quarter (total free : Z) :
  1 <= total <= maxQuarterSlots -> 0 <= free <= total ->
  exists n, utilization total free = Fixed2 n
            /\ 0 <= n <= 10000 /\ roundedPercentage total free n.
Proof.
  intros Ht Hf.
  pose proof (all_from_spec _ _ _ utilization_checked_quarter total) as H.
  rewrite Z2Nat.id in H by (vm_compute; discriminate).
  specialize (H ltac:(lia)).
  pose proof (all_from_spec _ _ _ H free) as H'.
  rewrite Z2Nat.id in H' by lia. specialize (H' ltac:(lia)).
  unfold utilization_ok in H'.
  destruct (utilization total free) as [|n]; [discriminate|].
  apply andb_true_iff in H' as [H1 H3]. apply andb_true_iff in H1 as [H1 H2].
  apply Z.leb_le in H1, H2, H3. exists n. unfold roundedPercentage. auto.
Qed.

Lemma statistics_loop_spec (grid : AvailabilityGrid) :
  statistics_loop grid
  = (totalSlots grid, freeSlots grid,
     map day_date (filter isFullyBooked (map snd grid))).
Proof.
  unfold statistics_loop.
  assert (H : forall (t a : Z) (l : list Date),
            fold_left
              (fun (acc : Z * Z * list Date) (entry : DateKey * DayData) =>
                 let '(totalSlots, availableSlots, fullyBookedDates) := acc in
                 let dayData := snd entry in
                 let dayTotalSlots := Z.of_nat (List.length (slots dayData)) in
                 let dayAvailableSlots :=
                   Z.of_nat (List.length (filter available (slots dayData))) in
                 (totalSlots + dayTotalSlots,
                  availableSlots + dayAvailableSlots,
                  if (0 <? dayTotalSlots) && (dayAvailableSlots =? 0)
                  then fullyBookedDates ++ [day_date dayData]
                  else fullyBookedDates))
              grid (t, a, l)
            = (t + totalSlots grid, a + freeSlots grid,
               l ++ map day_date (filter isFullyBooked (map snd grid)))).
  { induction grid as [|[k dd] grid IH]; intros t a l.
    - cbn. rewrite !Z.add_0_r, app_nil_r. reflexivity.
    - cbn [fold_left]. cbv zeta. cbn [snd]. rewrite IH.
      cbn [totalSlots freeSlots fold_right map filter snd].
      fold (totalSlots grid). fold (freeSlots grid).
      unfold isFullyBooked at 2.
      destruct ((0 <? Z.of_nat (List.length (slots dd)))
                && (Z.of_nat (List.length (filter available (slots dd))) =? 0));
        cbn [map]; rewrite !Z.add_assoc, <- ?app_assoc; reflexivity. }
  rewrite H. reflexivity.
Qed.

Lemma occupiedPairs_length (grid : AvailabilityGrid) :
  totalSlots grid
  = freeSlots grid + Z.of_nat (List.length (occupiedPairs grid)).
Proof.
  unfold occupiedPairs.
  induction grid as [|[k dd] grid IH]; [reflexivity|].
  cbn [totalSlots freeSlots fold_right flat_map snd].
  fold (totalSlots grid). fold (freeSlots grid).
  rewrite length_app, length_map, IH.
  pose proof (filter_length available (slots dd)) as H. lia.
Qed.

Lemma freeSlots_bounds (grid : AvailabilityGrid) :
  0 <= freeSlots grid <= totalSlots grid.
Proof.
  induction grid as [|[k dd] grid IH]; [cbn; lia|].
  cbn [totalSlots freeSlots fold_right snd].
  fold (totalSlots grid). fold (freeSlots grid).
  pose proof (filter_length_le available (slots dd)). lia.
Qed.

Lemma seeded_totalSlots (quarterDates : list Date) (grid : AvailabilityGrid) :
  grid_seeded quarterDates grid ->
  totalSlots grid <= 14 * Z.of_nat (List.length quarterDates).
Proof.
  intros [Hk Hs].
  rewrite <- (length_map format), <- Hk, length_map. clear Hk.
  induction grid as [|[k dd] grid IH]; [cbn; lia|].
  cbn [totalSlots fold_right snd List.length]. fold (totalSlots grid).
  destruct (Hs k dd (or_introl eq_refl)) as (_ & Hslots & _).
  pose proof (slots_length (day_date dd)) as Hl.
  rewrite <- Hslots, length_map in Hl.
  assert (totalSlots grid <= 14 * Z.of_nat (List.length grid)).
  { apply IH. intros k' dd' Hin. apply Hs. right. assumption. }
  lia.
Qed.

Lemma dates_loop_length (fuel : nat) (cur last : Date) :
  (List.length (dates_loop fuel cur last) <= fuel)%nat.
Proof.
  revert cur; induction fuel as [|fuel IH]; intros cur; cbn [dates_loop];
    [cbn; lia|].
  destruct (cur <=? last); cbn [List.length]; [|lia].
  specialize (IH (cur + 1)). lia.
Qed.

Lemma getQuarterDateRange_span (cfg : YearStart) (quarter : string) (year : Z)
  (startDate endDate : Date) :
  getQuarterDateRange cfg quarter year = Returned (startDate, endDate) ->
  90 <= endDate - startDate + 1 <= 92.
Proof.
  intros H.
  apply getQuarterDateRange_months in H as (y & mi & Hmi & -> & -> & _).
  apply quarter_span. assumption.
Qed.

Lemma weekdaysBetween_length (first last : Date) :
  last - first + 1 <= 92 ->
  Z.of_nat (List.length (weekdaysBetween first last)) <= 92.
Proof.
  intros H.
  assert (H1 : (List.length (weekdaysBetween first last)
                <= Z.to_nat (last - first + 1))%nat).
  { unfold weekdaysBetween.
    etransitivity; [apply filter_length_le|apply dates_loop_length]. }
  lia.
Qed.

(** C9. In the statistics of a run, [totalAvailableSlots] is the sum of the
    lengths of the slot lists of the grid and [slotsAfterScheduling] the
    number of free slots; [totalAvailableSlots] is [slotsAfterScheduling]
    plus [totalScheduledSessions], in every run, since no slot holds two
    sessions; [fullyBookedDates] are the dates with a slot and no free
    slot, in the order of the grid; [utilizationPercentage] is zero when
    there is no slot, and else the text of [n] hundredths with
    [0 <= n <= 10000] (0 to 100 percent) and [n / 100] a nearest value of
    two decimal places to (total - free) / total * 100. *)
Theorem statistics_postconditions (cfg : YearStart) (courses : list Course)
  (quarter : string) (year : Z) (quarterDates : list Date)
  (grid : AvailabilityGrid) (history : CourseHistory)
  (S : list ScheduledSession) :
  runEngine cfg courses quarter year
  = Returned (quarterDates, (grid, history, S)) ->
  exists r,
    generateSchedule cfg courses quarter year = Returned r
    /\ totalAvailableSlots (statistics r) = totalSlots grid
    /\ slotsAfterScheduling (statistics r) = freeSlots grid
    /\ totalScheduledSessions (statistics r)
       = Z.of_nat (List.length (scheduledSessions r))
    /\ totalAvailableSlots (statistics r)
       = slotsAfterScheduling (statistics r)
         + totalScheduledSessions (statistics r)
    /\ fullyBookedDates (statistics r)
       = map day_date (filter isFullyBooked (map snd grid))
    /\ (totalSlots grid = 0 -> utilizationPercentage (statistics r) = Zero)
    /\ (0 < totalSlots grid ->
        exists n,
          utilizationPercentage (statistics r) = Fixed2 n
          /\ 0 <= n <= 10000
          /\ roundedPercentage (totalSlots grid) (freeSlots grid) n).
Proof.
  intros Hrun.
  destruct (runEngine_inv _ _ _ _ _ _ _ _ Hrun)
    as (Hinv & first & last & Hrange & ->).
  destruct (run_generateSchedule _ _ _ _ _ _ _ _ Hrun) as (r & Hr & Hs & Hst).
  exists r. split; [exact Hr|]. rewrite Hst, Hs.
  unfold calculateStatistics. rewrite statistics_loop_spec.
  cbn [totalAvailableSlots slotsAfterScheduling totalScheduledSessions
       fullyBookedDates utilizationPercentage].
  pose proof (inv_seeded _ _ _ _ _ Hinv) as Hseed.
  pose proof (freeSlots_bounds grid) as Hfree.
  repeat split; auto.
  - rewrite (occupiedPairs_length grid).
    rewrite (Permutation_length (inv_occupied _ _ _ _ _ Hinv)), length_map.
    rewrite (Permutation_length (sortSessions_perm S)). reflexivity.
  - intros H0. unfold utilization. rewrite H0. reflexivity.
  - intros Hpos. apply utilization_quarter; [|assumption].
    split; [lia|].
    pose proof (seeded_totalSlots _ _ Hseed) as Ht.
    pose proof (getQuarterDateRange_span _ _ _ _ _ Hrange) as Hspan.
    pose proof (weekdaysBetween_length first last ltac:(lia)) as Hl.
    unfold maxQuarterSlots. lia.
Qed.

Lemma statistics_postconditions_witness :
  exists r,
    generateSchedule April sampleCourses "Q1" 2025 = Returned r
    /\ totalAvailableSlots (statistics r)
       = totalSlots (fst (fst (snd sampleRun)))
    /\ slotsAfterScheduling (statistics r)
       = freeSlots (fst (fst (snd sampleRun)))
    /\ totalScheduledSessions (statistics r)
       = Z.of_nat (List.length (scheduledSessions r))
    /\ totalAvailableSlots (statistics r)
       = slotsAfterScheduling (statistics r)
         + totalScheduledSessions (statistics r)
    /\ fullyBookedDates (statistics r)
       = map day_date
             (filter isFullyBooked (map snd (fst (fst (snd sampleRun)))))
    /\ (totalSlots (fst (fst (snd sampleRun))) = 0 ->
        utilizationPercentage (statistics r) = Zero)
    /\ (0 < totalSlots (fst (fst (snd sampleRun))) ->
        exists n,
          utilizationPercentage (statistics r) = Fixed2 n
          /\ 0 <= n <= 10000
          /\ roundedPercentage (totalSlots (fst (fst (snd sampleRun))))
                               (freeSlots (fst (fst (snd sampleRun)))) n).
Proof.
  apply (statistics_postconditions April sampleCourses "Q1" 2025
           (fst sampleRun) (fst (fst (snd sampleRun)))
           (snd (fst (snd sampleRun))) (snd (snd sampleRun))).
  vm_compute. reflexivity.
Defined.

End Statistics.

(* ================================================================== *)
(** * timeSlots.js: the calendar rules as functions *)

(** X1.  For a year all of whose days are dates, [getThanksgivingDate]
    returns the one Thursday among November 22 to 28 of the year the
    constructor takes for its argument: 1900 + year for a year from 0 to 99,
    the year itself otherwise.  The loop returns from its body within 28
    rounds, so the [return] after the loop is never reached. *)
Theorem thanksgiving_fourth_thursday (year : Z) :
  representableYear year ->
  getDay (getThanksgivingDate year) = 4
  /\ (exists d, format (getThanksgivingDate year) = (fullYear year, 11, d)
                /\ 22 <= d <= 28)
  /\ (forall (x : Date) (d : Z),
        format x = (fullYear year, 11, d) -> 22 <= d <= 28 -> getDay x = 4 ->
        x = getThanksgivingDate year)
  /\ (forall fuel : nat,
        (28 <= fuel)%nat ->
        thanksgiving_loop fuel 0 (newDate year 10 1)
        = getThanksgivingDate year)
  /\ (twoDigitYear year = true -> fullYear year = 1900 + year)
  /\ (twoDigitYear year = false -> fullYear year = year).
Proof.
  intros _.
  pose proof (format_thanksgiving year) as Hf.
  pose proof (getDay_thanksgiving year) as Hd.
  assert (Hk : 0 <= (4 - getDay (newDate year 10 1)) mod 7 < 7)
    by (apply Z.mod_pos_bound; lia).
  split; [exact Hd|]. split; [|split; [|split; [|split]]].
  - eexists. split; [exact Hf|lia].
  - intros x d Hx Hr Hx4.
    apply date_of_format in Hx. apply date_of_format in Hf.
    rewrite (days_from_civil_day (fullYear year) 11 d) in Hx.
    rewrite (days_from_civil_day (fullYear year) 11) in Hf.
    generalize dependent (getThanksgivingDate year).
    generalize dependent ((4 - getDay (newDate year 10 1)) mod 7).
    revert Hx. generalize (days_from_civil (fullYear year) 11 1).
    intros b Hx k Hk T HT HdT. subst x T. unfold getDay in *.
    assert (E : (b + (d - 1) + 4 - (b + (22 + k - 1) + 4)) mod 7 = 0).
    { rewrite Zminus_mod, Hx4, HdT. reflexivity. }
    replace (b + (d - 1) + 4 - (b + (22 + k - 1) + 4)) with (d - 22 - k) in E
      by lia.
    apply Z.mod_divide in E; [|lia]. destruct E as [q E]. lia.
  - intros fuel H. apply thanksgiving_loop_fuel. exact H.
  - intros H. destruct (fullYear_cases year) as [[_ E]|[E _]];
      [exact E|congruence].
  - apply fullYear_id.
Qed.

(** November 27 of 2025; and for the year 50 the date is November 23 of
    1950. *)
Lemma thanksgiving_fourth_thursday_witness :
  make 2025 10 27 = getThanksgivingDate 2025
  /\ make 1950 10 23 = getThanksgivingDate 50.
Proof.
  split.
  - apply (proj1 (proj2 (proj2 (thanksgiving_fourth_thursday 2025
                                  ltac:(vm_compute; split; discriminate))))
             (make 2025 10 27) 27); [reflexivity|lia|reflexivity].
  - apply (proj1 (proj2 (proj2 (thanksgiving_fourth_thursday 50
                                  ltac:(vm_compute; split; discriminate))))
             (make 1950 10 23) 23); [reflexivity|lia|reflexivity].
Defined.






(** The texts "HH:MM" are read back as their minutes. *)
Lemma minutesOf_clockTime_checked :
  all_from 100 0
    (fun h => all_from 100 0
                (fun m => match minutesOf (clockTime h m) with
                          | Some x => x =? h * 60 + m
                          | None => false
                          end)) = true.
Proof. vm_compute. reflexivity. Qed.

Lemma minutesOf_clockTime (h m : Z) :
  0 <= h <= 99 -> 0 <= m <= 99 -> minutesOf (clockTime h m) = Some (h * 60 + m).
Proof.
  intros Hh Hm.
  pose proof (all_from_spec _ _ _ minutesOf_clockTime_checked h ltac:(lia)) as H.
  cbv beta in H.
  pose proof (all_from_spec _ _ _ H m ltac:(lia)) as H'.
  cbv beta in H'.
  destruct (minutesOf (clockTime h m)) as [x|]; [|discriminate].
  apply Z.eqb_eq in H'. congruence.
Qed.

(** X3.  For two times "HH:MM" [getTimeDifferenceInHours] is the distance of
    their minutes of the day, divided by 60; the three-hour rule of the
    engine holds between them when the minutes are 180 or more apart. *)
Theorem time_difference_hours (h1 m1 h2 m2 : Z) :
  0 <= h1 <= 99 -> 0 <= m1 <= 99 -> 0 <= h2 <= 99 -> 0 <= m2 <= 99 ->
  getTimeDifferenceInHours (clockTime h1 m1) (clockTime h2 m2)
  = Some (Z.abs ((h1 * 60 + m1) - (h2 * 60 + m2)) # 60)
  /\ getTimeDifferenceInHours (clockTime h2 m2) (clockTime h1 m1)
     = getTimeDifferenceInHours (clockTime h1 m1) (clockTime h2 m2)
  /\ (threeHoursApart (clockTime h1 m1) (clockTime h2 m2) = true
      <-> 180 <= Z.abs ((h1 * 60 + m1) - (h2 * 60 + m2))).
Proof.
  intros H1 H2 H3 H4.
  unfold threeHoursApart, getTimeDifferenceInHours.
  rewrite !minutesOf_clockTime by assumption.
  split; [reflexivity|]. split.
  - do 2 f_equal. lia.
  - unfold Qle_bool. cbn [Qnum Qden]. rewrite Z.leb_le. lia.
Qed.

Lemma time_difference_hours_witness :
  getTimeDifferenceInHours (clockTime 6 0) (clockTime 9 30) = Some (210 # 60).
Proof.
  apply (proj1 (time_difference_hours 6 0 9 30 ltac:(lia) ltac:(lia)
                  ltac:(lia) ltac:(lia))).
Defined.

(** The labels of the templates, and two dates that offer them all. *)
Lemma templates_labels :
  Forall (fun tpl =>
            forallb (fun s => existsb (String.eqb (slotLabel s)) getAllTimeSlots)
                    tpl = true)
         ([] :: map snd WEEKLY_SCHEDULE).
Proof. repeat (apply Forall_cons || apply Forall_nil); vm_compute; reflexivity. Qed.

Lemma labels_offered :
  forallb (fun l =>
             existsb (fun d =>
                        existsb (fun s => String.eqb (slotLabel s) l)
                                (getAvailableTimeSlots d))
                     [make 2025 3 7; make 2025 3 9])
          getAllTimeSlots = true.
Proof. vm_compute. reflexivity. Qed.

Lemma available_slot_label (d : Date) (s : TimeSlot) :
  In s (getAvailableTimeSlots d) -> In (slotLabel s) getAllTimeSlots.
Proof.
  intros Hs. apply slots_in_template in Hs.
  pose proof templates_labels as Ht. rewrite Forall_forall in Ht.
  specialize (Ht _ (weekdayTemplate_cases d)).
  rewrite forallb_forall in Ht. specialize (Ht s Hs).
  apply existsb_exists in Ht as [l [Hl E]].
  apply String.eqb_eq in E. rewrite E. exact Hl.
Qed.

(** X4.  [getAllTimeSlots] lists, in ascending order and without
    repetition, exactly the labels of the slots that
    [getAvailableTimeSlots] offers on some date. *)
Theorem all_time_slots_complete :
  ascending_strings getAllTimeSlots = true
  /\ (forall (d : Date) (s : TimeSlot),
        In s (getAvailableTimeSlots d) -> In (slotLabel s) getAllTimeSlots)
  /\ (forall l : string,
        In l getAllTimeSlots ->
        exists (d : Date) (s : TimeSlot),
          In s (getAvailableTimeSlots d) /\ slotLabel s = l).
Proof.
  split; [vm_compute; reflexivity|]. split.
  - apply available_slot_label.
  - intros l Hl. pose proof labels_offered as Ho.
    rewrite forallb_forall in Ho. specialize (Ho l Hl).
    apply existsb_exists in Ho as [d [_ Hd]].
    apply existsb_exists in Hd as [s [Hs E]].
    apply String.eqb_eq in E. exists d, s. split; assumption.
Qed.

Lemma all_time_slots_complete_witness :
  In (slotLabel (mkTimeSlot "06:00" "06:30")) getAllTimeSlots.
Proof.
  apply (proj1 (proj2 all_time_slots_complete) (make 2025 3 7)).
  vm_compute. left. reflexivity.
Defined.

(* ================================================================== *)
(** * quarterUtils.js: the quarters of a year *)

(** Month index 12 is January of the next year. *)
Lemma make_next_year (y d : Z) : make y 12 d = make (y + 1) 0 d.
Proof.
  unfold make. change (12 / 12) with 1. change (0 / 12) with 0.
  change (12 mod 12) with 0. change (0 mod 12) with 0.
  rewrite Z.add_0_r. reflexivity.
Qed.

Lemma make_day (y mi d : Z) : make y mi d = make y mi 1 + (d - 1).
Proof. unfold make. lia. Qed.

(** The day before the first of April, July, October and January is the
    last of March, June, September and December. *)
Lemma last_day_of_quarter (y mi : Z) :
  mi = 0 \/ mi = 3 \/ mi = 6 \/ mi = 9 ->
  format (make y (mi + 2 + 1) 0) = (y, mi + 3, daysInMonth y (mi + 3)).
Proof.
  intros H.
  assert (E : make y (mi + 2 + 1) 0
              = days_from_civil y (mi + 3) (daysInMonth y (mi + 3))).
  { unfold make, days_from_civil, daysInMonth.
    destruct H as [->|[->|[->| ->]]];
      cbn [Z.add Pos.add Pos.succ Z.div Z.modulo Z.div_eucl Z.pos_div_eucl
           Z.leb Z.ltb Z.eqb Pos.eqb Z.compare Pos.compare Pos.compare_cont
           Z.mul Pos.mul orb Pos.add_carry
           Z.sub Z.opp Z.pos_sub Z.succ_double Z.pred_double Z.double
           Pos.pred_double fst snd Z.of_N];
      Z.div_mod_to_equations; lia. }
  rewrite E. apply civil_of_days. unfold validCivil.
  split; [lia|]. split; [|lia].
  pose proof (daysInMonth_bounds y (mi + 3)). lia.
Qed.

(** X5.  For a year whose days, and those of the next year, are dates,
    the range of a quarter starts on the first day of January, April, July
    or October and ends on the last day of the third month from there, 90
    to 92 days in all.  Its year is the one the constructor takes for the
    year of the quarter, which is the given year, or the next calendar year
    for the fourth quarter of a financial year: a year from 0 to 99 there
    gives a quarter of 1900 to 1999. *)
Theorem quarter_range_months (cfg : YearStart) (quarter : string) (year : Z)
  (startDate endDate : Date) :
  representableYear year -> representableYear (year + 1) ->
  getQuarterDateRange cfg quarter year = Returned (startDate, endDate) ->
  exists y m,
    (m = 1 \/ m = 4 \/ m = 7 \/ m = 10)
    /\ format startDate = (y, m, 1)
    /\ format endDate = (y, m + 2, daysInMonth y (m + 2))
    /\ 90 <= endDate - startDate + 1 <= 92
    /\ y = fullYear match cfg with
                    | January => year
                    | April =>
                        if String.eqb quarter "Q4" then year + 1 else year
                    end
    /\ twoDigitYear y = false.
Proof.
  intros _ _ H.
  pose proof (getQuarterDateRange_span _ _ _ _ _ H) as Hs.
  apply getQuarterDateRange_months in H
    as (y & mi & Hmi & -> & -> & Hy).
  exists y, (mi + 1). split; [lia|]. split; [|split; [|split; [|split]]].
  - apply make_format. lia.
  - rewrite last_day_of_quarter by assumption.
    replace (mi + 1 + 2) with (mi + 3) by lia. reflexivity.
  - exact Hs.
  - exact Hy.
  - rewrite Hy. apply fullYear_not_twoDigit.
Qed.

(** The fourth quarter of the financial year 2025 is January to March of
    2026. *)
Lemma quarter_range_months_witness :
  exists y m,
    (m = 1 \/ m = 4 \/ m = 7 \/ m = 10)
    /\ format (make 2026 0 1) = (y, m, 1)
    /\ format (make 2026 2 31) = (y, m + 2, daysInMonth y (m + 2))
    /\ 90 <= make 2026 2 31 - make 2026 0 1 + 1 <= 92
    /\ y = fullYear (2025 + 1)
    /\ twoDigitYear y = false.
Proof.
  apply (quarter_range_months April "Q4" 2025).
  - vm_compute. split; discriminate.
  - vm_compute. split; discriminate.
  - reflexivity.
Defined.

(** The loop over the days of a range lists consecutive days. *)
Lemma dates_loop_days (n : nat) (cur last : Date) :
  Z.of_nat n <= last - cur + 1 -> dates_loop n cur last = days_from n cur.
Proof.
  revert cur; induction n as [|n IH]; intros cur H; [reflexivity|].
  cbn [dates_loop days_from].
  replace (cur <=? last) with true by (symmetry; apply Z.leb_le; lia).
  rewrite IH by lia. reflexivity.
Qed.

Lemma days_from_app (n m : nat) (d : Date) :
  days_from (n + m) d = days_from n d ++ days_from m (d + Z.of_nat n).
Proof.
  revert d; induction n as [|n IH]; intros d.
  - cbn [Nat.add days_from app]. rewrite Z.add_0_r. reflexivity.
  - cbn [Nat.add days_from app]. rewrite IH. do 3 f_equal. lia.
Qed.

Lemma days_from_In (n : nat) (d x : Date) :
  In x (days_from n d) <-> d <= x < d + Z.of_nat n.
Proof.
  revert d; induction n as [|n IH]; intros d.
  - cbn. lia.
  - cbn [days_from In]. rewrite IH. lia.
Qed.

Lemma days_from_length (n : nat) (d : Date) : List.length (days_from n d) = n.
Proof.
  revert d; induction n as [|n IH]; intros d; [reflexivity|].
  cbn [days_from List.length]. rewrite IH. reflexivity.
Qed.

Lemma days_from_split (a b c : Date) :
  a <= b <= c ->
  days_from (Z.to_nat (b - a)) a ++ days_from (Z.to_nat (c - b)) b
  = days_from (Z.to_nat (c - a)) a.
Proof.
  intros H. replace (Z.to_nat (c - a)) with (Z.to_nat (b - a) + Z.to_nat (c - b))%nat
    by lia.
  rewrite days_from_app. do 2 f_equal. lia.
Qed.

Lemma getAllDatesInQuarter_days (cfg : YearStart) (quarter : string) (year : Z)
  (startDate endDate : Date) :
  getQuarterDateRange cfg quarter year = Returned (startDate, endDate) ->
  getAllDatesInQuarter cfg quarter year
  = Returned (days_from (Z.to_nat (endDate - startDate + 1)) startDate).
Proof.
  intros H. unfold getAllDatesInQuarter. rewrite H. cbn [bind].
  rewrite dates_loop_days; [reflexivity|].
  apply getQuarterDateRange_span in H. lia.
Qed.

(** The ranges of the four quarters. *)
Lemma quarter_ranges (cfg : YearStart) (year : Z) :
  let y := fullYear year in
  let y4 := match cfg with
            | January => fullYear year
            | April => fullYear (year + 1)
            end in
  let mi := match cfg with January => 0 | April => 3 end in
  getQuarterDateRange cfg "Q1" year
  = Returned (make y mi 1, make y (mi + 3) 0)
  /\ getQuarterDateRange cfg "Q2" year
     = Returned (make y (mi + 3) 1, make y (mi + 6) 0)
  /\ getQuarterDateRange cfg "Q3" year
     = Returned (make y (mi + 6) 1, make y (mi + 9) 0)
  /\ getQuarterDateRange cfg "Q4" year
     = Returned (make y4 ((mi + 9) mod 12) 1, make y4 ((mi + 9) mod 12 + 3) 0).
Proof.
  destruct cfg; cbv zeta; unfold getQuarterDateRange, newDate;
    cbn [QUARTERS quarter_lookup String.eqb Ascii.eqb Bool.eqb andb nth];
    repeat split;
    match goal with
    | |- Returned (startOfMonth (make ?y ?a 1), endOfMonth (make ?y ?b 1)) = _ =>
        let a' := eval vm_compute in a in
        let b' := eval vm_compute in b in
        change a with a'; change b with b';
        rewrite (startOfMonth_make y a'), (endOfMonth_make y b') by lia
    end; reflexivity.
Qed.

(** The year after a year is the next year for the constructor too, but
    for the years -1 and 99. *)
Lemma fullYear_succ (year : Z) :
  year <> -1 -> year <> 99 -> fullYear (year + 1) = fullYear year + 1.
Proof.
  intros H1 H2. unfold fullYear.
  destruct ((0 <=? year + 1) && (year + 1 <=? 99)) eqn:E1;
    destruct ((0 <=? year) && (year <=? 99)) eqn:E2;
    rewrite ?andb_true_iff, ?andb_false_iff, ?Z.leb_le, ?Z.leb_gt in *; lia.
Qed.

(** A year has 365 or 366 days, from January and from April. *)
Lemma year_span (y mi : Z) :
  mi = 0 \/ mi = 3 ->
  365 <= make (y + 1) mi 1 - make y mi 1 <= 366.
Proof.
  intros H. unfold make, days_from_civil.
  destruct H as [->| ->];
    cbn [Z.add Pos.add Pos.succ Z.div Z.modulo Z.div_eucl Z.pos_div_eucl
         Z.leb Z.ltb Z.compare Pos.compare Pos.compare_cont Z.mul Pos.mul
         Z.sub Z.opp Z.pos_sub Z.succ_double Z.pred_double Z.double
         Pos.pred_double fst snd Z.of_N];
    Z.div_mod_to_equations; lia.
Qed.

(** X6.  For a year other than 99 whose days, and those of the next year,
    are dates, the four quarters follow one another without a gap and
    without a day in common: their dates, in the order Q1 to Q4, are the
    365 or 366 consecutive days from the start of the year of the engine
    to the day before the start of the next.  (After the year 99, which it
    reads as 1999, the constructor takes the year 100 as it is.) *)
Theorem quarters_tile_year (cfg : YearStart) (year : Z) :
  representableYear year -> representableYear (year + 1) ->
  year <> 99 ->
  exists l1 l2 l3 l4 : list Date,
    getAllDatesInQuarter cfg "Q1" year = Returned l1
    /\ getAllDatesInQuarter cfg "Q2" year = Returned l2
    /\ getAllDatesInQuarter cfg "Q3" year = Returned l3
    /\ getAllDatesInQuarter cfg "Q4" year = Returned l4
    /\ l1 ++ l2 ++ l3 ++ l4
       = days_from (Z.to_nat (getFinancialYearStart cfg (year + 1)
                              - getFinancialYearStart cfg year))
                   (getFinancialYearStart cfg year)
    /\ 365 <= getFinancialYearStart cfg (year + 1)
              - getFinancialYearStart cfg year <= 366.
Proof.
  intros [Hm _] _ Hn.
  pose proof (fullYear_succ year ltac:(lia) Hn) as Hfy. clear Hm.
  destruct (quarter_ranges cfg year) as (R1 & R2 & R3 & R4).
  cbv zeta in R1, R2, R3, R4.
  pose proof (getQuarterDateRange_span _ _ _ _ _ R1) as S1.
  pose proof (getQuarterDateRange_span _ _ _ _ _ R2) as S2.
  pose proof (getQuarterDateRange_span _ _ _ _ _ R3) as S3.
  pose proof (getQuarterDateRange_span _ _ _ _ _ R4) as S4.
  do 4 eexists.
  rewrite (getAllDatesInQuarter_days _ _ _ _ _ R1),
          (getAllDatesInQuarter_days _ _ _ _ _ R2),
          (getAllDatesInQuarter_days _ _ _ _ _ R3),
          (getAllDatesInQuarter_days _ _ _ _ _ R4).
  do 4 (split; [reflexivity|]).
  clear R1 R2 R3 R4.
  unfold getFinancialYearStart, newDate. rewrite Hfy in *. clear Hfy.
  generalize dependent (fullYear year). intros Y S1 S2 S3 S4.
  destruct cfg.
  - change ((0 + 9) mod 12) with 9 in *. change (0 + 3) with 3 in *.
    change (0 + 6) with 6 in *. change (0 + 9) with 9 in *.
    change (9 + 3) with 12 in *.
    pose proof (year_span Y 0 ltac:(auto)) as Hy.
    rewrite (make_day Y 3 0), (make_day Y 6 0), (make_day Y 9 0),
            (make_day Y 12 0) in *.
    rewrite (make_next_year Y 1) in *.
    split; [|exact Hy].
    replace (make Y 3 1 + (0 - 1) - make Y 0 1 + 1)
      with (make Y 3 1 - make Y 0 1) in * by lia.
    replace (make Y 6 1 + (0 - 1) - make Y 3 1 + 1)
      with (make Y 6 1 - make Y 3 1) in * by lia.
    replace (make Y 9 1 + (0 - 1) - make Y 6 1 + 1)
      with (make Y 9 1 - make Y 6 1) in * by lia.
    replace (make (Y + 1) 0 1 + (0 - 1) - make Y 9 1 + 1)
      with (make (Y + 1) 0 1 - make Y 9 1) in * by lia.
    rewrite (days_from_split (make Y 6 1)) by lia.
    rewrite (days_from_split (make Y 3 1)) by lia.
    rewrite (days_from_split (make Y 0 1)) by lia.
    reflexivity.
  - change ((3 + 9) mod 12) with 0 in *. change (3 + 3) with 6 in *.
    change (3 + 6) with 9 in *. change (3 + 9) with 12 in *.
    change (0 + 3) with 3 in *.
    pose proof (year_span Y 3 ltac:(auto)) as Hy.
    rewrite (make_day Y 6 0), (make_day Y 9 0), (make_day Y 12 0),
            (make_day (Y + 1) 3 0) in *.
    rewrite (make_next_year Y 1) in *.
    split; [|exact Hy].
    replace (make Y 6 1 + (0 - 1) - make Y 3 1 + 1)
      with (make Y 6 1 - make Y 3 1) in * by lia.
    replace (make Y 9 1 + (0 - 1) - make Y 6 1 + 1)
      with (make Y 9 1 - make Y 6 1) in * by lia.
    replace (make (Y + 1) 0 1 + (0 - 1) - make Y 9 1 + 1)
      with (make (Y + 1) 0 1 - make Y 9 1) in * by lia.
    replace (make (Y + 1) 3 1 + (0 - 1) - make (Y + 1) 0 1 + 1)
      with (make (Y + 1) 3 1 - make (Y + 1) 0 1) in * by lia.
    rewrite (days_from_split (make Y 9 1)) by lia.
    rewrite (days_from_split (make Y 6 1)) by lia.
    rewrite (days_from_split (make Y 3 1)) by lia.
    reflexivity.
Qed.


(** The financial year 2025, from April 1 of 2025 to March 31 of 2026. *)
Lemma quarters_tile_year_witness :
  exists l1 l2 l3 l4 : list Date,
    getAllDatesInQuarter April "Q1" 2025 = Returned l1
    /\ getAllDatesInQuarter April "Q2" 2025 = Returned l2
    /\ getAllDatesInQuarter April "Q3" 2025 = Returned l3
    /\ getAllDatesInQuarter April "Q4" 2025 = Returned l4
    /\ l1 ++ l2 ++ l3 ++ l4
       = days_from (Z.to_nat (getFinancialYearStart April (2025 + 1)
                              - getFinancialYearStart April 2025))
                   (getFinancialYearStart April 2025)
    /\ 365 <= getFinancialYearStart April (2025 + 1)
              - getFinancialYearStart April 2025 <= 366.
Proof.
  apply (quarters_tile_year April 2025).
  - vm_compute. split; discriminate.
  - vm_compute. split; discriminate.
  - discriminate.
Defined.

(** Seven days in a row hold five business days. *)
Lemma week_business_days (d : Date) :
  List.length (filter isBusinessDay (days_from 7 d)) = 5%nat.
Proof.
  cbn [days_from filter]. unfold isBusinessDay.
  rewrite !getDay_succ.
  destruct (getDay_cases d) as [H|[H|[H|[H|[H|[H|H]]]]]]; rewrite H;
    reflexivity.
Qed.

Lemma weeks_business_days (k : nat) (d : Date) :
  List.length (filter isBusinessDay (days_from (7 * k) d)) = (5 * k)%nat.
Proof.
  revert d; induction k as [|k IH]; intros d; [reflexivity|].
  replace (7 * S k)%nat with (7 + 7 * k)%nat by lia.
  rewrite days_from_app, filter_app, length_app, week_business_days, IH. lia.
Qed.

(** Six days in a row hold four business days or more. *)
Lemma six_business_days (d : Date) :
  (4 <= List.length (filter isBusinessDay (days_from 6 d)))%nat.
Proof.
  cbn [days_from filter]. unfold isBusinessDay.
  rewrite !getDay_succ.
  destruct (getDay_cases d) as [H|[H|[H|[H|[H|[H|H]]]]]]; rewrite H;
    vm_compute; lia.
Qed.

(** The business days among 90 to 92 days in a row. *)
Lemma quarter_business_days (n : nat) (d : Date) :
  (90 <= n <= 92)%nat ->
  (64 <= List.length (filter isBusinessDay (days_from n d)) <= 66)%nat.
Proof.
  intros H.
  assert (Hn : n = (7 * 12 + 6)%nat \/ n = (7 * 13 + 0)%nat
               \/ n = (7 * 13 + 1)%nat) by lia.
  destruct Hn as [->|[->| ->]];
    rewrite days_from_app, filter_app, length_app, weeks_business_days.
  - pose proof (six_business_days (d + Z.of_nat (7 * 12))) as H6.
    pose proof (filter_length_le isBusinessDay
                  (days_from 6 (d + Z.of_nat (7 * 12)))) as H6'.
    rewrite days_from_length in H6'. lia.
  - cbn [days_from filter List.length]. lia.
  - pose proof (filter_length_le isBusinessDay
                  (days_from 1 (d + Z.of_nat (7 * 13)))) as H1.
    rewrite days_from_length in H1. lia.
Qed.

Lemma ascending_cons (a : Date) (l : list Date) :
  ascending l = true -> (forall x, In x l -> a < x) -> ascending (a :: l) = true.
Proof.
  intros Hl Ha. destruct l as [|b rest]; [reflexivity|].
  change (ascending (a :: b :: rest)) with ((a <? b) && ascending (b :: rest)).
  rewrite Hl, andb_true_r. apply Z.ltb_lt.
  apply Ha. left. reflexivity.
Qed.

Lemma ascending_filter_days (p : Date -> bool) (n : nat) (d : Date) :
  ascending (filter p (days_from n d)) = true.
Proof.
  revert d; induction n as [|n IH]; intros d; [reflexivity|].
  cbn [days_from filter]. destruct (p d); [|apply IH].
  apply ascending_cons; [apply IH|].
  intros x Hx. apply filter_In in Hx as [Hx _].
  apply days_from_In in Hx. lia.
Qed.

(** X7.  For a year whose days, and those of the next year, are dates,
    [getWeekdaysInQuarter] returns exactly the days of the quarter's range
    that fall on Monday to Friday, each once and in ascending order; there
    are 64 to 66 of them. *)
Theorem weekdays_in_quarter (cfg : YearStart) (quarter : string) (year : Z)
  (quarterDates : list Date) :
  representableYear year -> representableYear (year + 1) ->
  getWeekdaysInQuarter cfg quarter year = Returned quarterDates ->
  exists startDate endDate,
    getQuarterDateRange cfg quarter year = Returned (startDate, endDate)
    /\ (forall x, In x quarterDates
                  <-> startDate <= x <= endDate /\ 1 <= getDay x <= 5)
    /\ ascending quarterDates = true
    /\ (64 <= List.length quarterDates <= 66)%nat.
Proof.
  intros _ _ H.
  destruct (getQuarterDateRange cfg quarter year) as [[s e]| |] eqn:R;
    unfold getWeekdaysInQuarter, getAllDatesInQuarter in H; rewrite R in H;
    cbn [bind] in H; try discriminate.
  injection H as <-.
  pose proof (getQuarterDateRange_span _ _ _ _ _ R) as Hs.
  exists s, e. split; [reflexivity|].
  rewrite dates_loop_days by lia.
  split; [|split].
  - intros x. rewrite filter_In, days_from_In.
    rewrite andb_true_iff, !Z.leb_le. lia.
  - apply ascending_filter_days.
  - apply (quarter_business_days (Z.to_nat (e - s + 1)) s). lia.
Qed.

Lemma weekdays_in_quarter_witness :
  exists startDate endDate,
    getQuarterDateRange April "Q1" 2025 = Returned (startDate, endDate)
    /\ (forall x, In x sampleDates
                  <-> startDate <= x <= endDate /\ 1 <= getDay x <= 5)
    /\ ascending sampleDates = true
    /\ (64 <= List.length sampleDates <= 66)%nat.
Proof.
  apply (weekdays_in_quarter April "Q1" 2025).
  - vm_compute. split; discriminate.
  - vm_compute. split; discriminate.
  - reflexivity.
Defined.

(** The table of the quarters holds the months the engine reads. *)
Lemma QUARTER_TABLE_months (cfg : YearStart) :
  map (fun entry : string * QuarterInfo => (fst entry, q_months (snd entry)))
      (QUARTER_TABLE cfg)
  = QUARTERS cfg.
Proof. destruct cfg; reflexivity. Qed.

(** X8.  The dropdown of [getQuarterOptions] offers the four quarters in
    their order, each under its own name, and a quarter is offered exactly
    when [getQuarterDateRange] returns a range for it. *)
Theorem quarter_options_valid (cfg : YearStart) :
  map opt_value (getQuarterOptions cfg) = ["Q1"; "Q2"; "Q3"; "Q4"]
  /\ map opt_value (getQuarterOptions cfg) = map fst (QUARTER_TABLE cfg)
  /\ (forall (quarter : string) (year : Z),
        In quarter (map opt_value (getQuarterOptions cfg))
        <-> exists range, getQuarterDateRange cfg quarter year = Returned range).
Proof.
  split; [destruct cfg; reflexivity|]. split; [destruct cfg; reflexivity|].
  intros quarter year.
  replace (map opt_value (getQuarterOptions cfg)) with quarterNames
    by (destruct cfg; reflexivity).
  split.
  - intros H. destruct (getQuarterDateRange_known cfg quarter year H)
      as (s & e & R). eauto.
  - intros [range R].
    destruct (in_dec string_dec quarter quarterNames) as [H|H]; [exact H|].
    destruct (getQuarterDateRange_unknown cfg quarter year H) as [err E].
    congruence.
Qed.

Lemma quarter_options_valid_witness :
  exists range, getQuarterDateRange April "Q3" 2025 = Returned range.
Proof.
  apply (proj1 (proj2 (proj2 (quarter_options_valid April)) "Q3" 2025)).
  vm_compute. auto.
Defined.

(* ================================================================== *)
(** * scheduleEngine.js: the helpers of the engine *)

(** ** The cadence dates *)

Lemma skip_weekend_cases (d : Date) :
  skip_weekend 2 d
  = if isWeekend d then (if isWeekend (d + 1) then d + 2 else d + 1) else d.
Proof.
  unfold isWeekend. cbn [skip_weekend]. unfold addDays.
  destruct ((getDay d =? 0) || (getDay d =? 6)); [|reflexivity].
  destruct ((getDay (d + 1) =? 0) || (getDay (d + 1) =? 6)); [lia|reflexivity].
Qed.

Lemma skip_weekend_spec (d : Date) :
  isWeekend (skip_weekend 2 d) = false
  /\ d <= skip_weekend 2 d <= d + 2
  /\ forall x, d <= x < skip_weekend 2 d -> isWeekend x = true.
Proof.
  rewrite skip_weekend_cases.
  assert (H1 : getDay (d + 1) = (getDay d + 1) mod 7) by apply getDay_succ.
  assert (H2 : getDay (d + 2) = (getDay d + 2) mod 7).
  { unfold getDay. replace (d + 2 + 4) with (d + 4 + 2) by lia.
    rewrite Zplus_mod_idemp_l. reflexivity. }
  unfold isWeekend.
  destruct (getDay_cases d) as [H|[H|[H|[H|[H|[H|H]]]]]];
    rewrite H in H1, H2; rewrite H;
    [ change ((0 + 1) mod 7) with 1 in H1; change ((0 + 2) mod 7) with 2 in H2
    | | | | |
    | change ((6 + 1) mod 7) with 0 in H1; change ((6 + 2) mod 7) with 1 in H2 ];
    cbn [Z.eqb Pos.eqb orb]; rewrite ?H1; cbn [Z.eqb Pos.eqb orb];
    rewrite ?H, ?H1, ?H2; cbn [Z.eqb Pos.eqb orb];
    (split; [reflexivity|split; [lia|intros x Hx]]);
    try lia.
  - replace x with d by lia. rewrite H. reflexivity.
  - assert (Hc : x = d \/ x = d + 1) by lia.
    destruct Hc as [-> | ->]; [rewrite H|rewrite H1]; reflexivity.
Qed.

Lemma before_last_mono (a b : Date) (quarterDates : list Date) :
  a <= b -> before_last b quarterDates = true ->
  before_last a quarterDates = true.
Proof.
  unfold before_last. destruct (last_entry quarterDates); [|discriminate].
  rewrite !Z.leb_le. lia.
Qed.

Lemma progression_In (d step : Z) (n : nat) (x : Date) :
  In x (progression d step n)
  <-> exists j : nat, (j < n)%nat /\ x = d + step * Z.of_nat j.
Proof.
  revert d; induction n as [|n IH]; intros d.
  - cbn. split; [contradiction|]. intros (j & Hj & _). lia.
  - cbn [progression In]. rewrite IH. split.
    + intros [H|(j & Hj & ->)].
      * exists O. split; [lia|]. subst. lia.
      * exists (S j). split; [lia|]. lia.
    + intros (j & Hj & ->). destruct j as [|j].
      * left. lia.
      * right. exists j. split; [lia|]. lia.
Qed.

(** What the loop over the cadence periods returns. *)
Lemma cadence_loop_progression (c : Course) (quarterDates : list Date)
  (fyEnd : Date) (fuel : nat) :
  1 <= cadence c ->
  forall cur l,
    cadence_loop fuel c quarterDates fyEnd cur = Returned l ->
    (exists n, l = progression cur (cadence c * 7) n)
    /\ (forall x, In x l -> x <= fyEnd /\ before_last x quarterDates = true)
    /\ (forall k : Z,
          0 <= k -> cur + cadence c * 7 * k <= fyEnd ->
          before_last (cur + cadence c * 7 * k) quarterDates = true ->
          In (cur + cadence c * 7 * k) l).
Proof.
  intros Hc. induction fuel as [|fuel IH]; intros cur l H; [discriminate|].
  cbn [cadence_loop] in H. destruct (cur <=? fyEnd) eqn:E.
  - apply Z.leb_le in E.
    destruct (cadence_loop fuel c quarterDates fyEnd (addWeeks cur (cadence c)))
      as [rest| |] eqn:R; cbn [bind] in H; try discriminate.
    injection H as <-.
    destruct (IH _ _ R) as ([n Hn] & HB & HC). unfold addWeeks, addDays in *.
    destruct (before_last cur quarterDates) eqn:Eb.
    + split; [exists (S n); cbn [progression]; rewrite Hn; reflexivity|].
      split.
      * intros x [<-|Hx]; [split; [lia|exact Eb]|apply HB; exact Hx].
      * intros k Hk Hle Hbl.
        destruct (Z.eq_dec k 0) as [->|Hne].
        -- left. lia.
        -- right.
           replace (cur + cadence c * 7 * k)
             with (cur + cadence c * 7 + cadence c * 7 * (k - 1)) in * by lia.
           apply HC; [lia|assumption|assumption].
    + assert (Hnil : rest = []).
      { destruct n as [|n]; [exact Hn|]. exfalso.
        assert (Hin : In (cur + cadence c * 7) rest)
          by (rewrite Hn; left; reflexivity).
        apply HB in Hin as [_ Hin].
        apply (before_last_mono cur) in Hin; [congruence|lia]. }
      rewrite Hnil. split; [exists O; reflexivity|].
      split; [intros x []|].
      intros k Hk Hle Hbl. exfalso.
      apply (before_last_mono cur) in Hbl; [congruence|nia].
  - injection H as <-. apply Z.leb_gt in E.
    split; [exists O; reflexivity|]. split; [intros x []|].
    intros k Hk Hle _. nia.
Qed.

(** The end of the financial year of the engine is March 31 of the
    calendar year after its start, with either start of the year. *)
Lemma financialYearEnd_value (cfg : YearStart) (year : Z) :
  financialYearEnd (getFinancialYearStart cfg year)
  = make (fullYear year + 1) 2 31.
Proof.
  unfold financialYearEnd, setDate, setMonth, setFullYear, getFullYear,
    getMonth, getDate.
  assert (F : forall y mi, 0 <= mi <= 11 ->
                civil_from_days (make y mi 1) = (y, mi + 1, 1))
    by (intros y mi Hmi; apply make_format; exact Hmi).
  destruct cfg; unfold getFinancialYearStart, newDate;
    generalize (fullYear year); intros Y.
  - rewrite (F Y 0) by lia. cbn [fst snd].
    change (0 + 1 - 1) with 0. rewrite (F (Y + 1) 0) by lia. cbn [fst snd].
    rewrite (F (Y + 1) 2) by lia. cbn [fst snd]. reflexivity.
  - rewrite (F Y 3) by lia. cbn [fst snd].
    change (3 + 1 - 1) with 3. rewrite (F (Y + 1) 3) by lia. cbn [fst snd].
    rewrite (F (Y + 1) 2) by lia. cbn [fst snd]. reflexivity.
Qed.

Lemma calculateCadenceStartDates_loop (c : Course) (financialYearStart : Date)
  (quarterDates : list Date) :
  calculateCadenceStartDates c financialYearStart quarterDates
  = cadence_loop
      (S (S (Z.to_nat (financialYearEnd financialYearStart
                       - skip_weekend 2 financialYearStart))))
      c quarterDates (financialYearEnd financialYearStart)
      (skip_weekend 2 financialYearStart).
Proof. unfold calculateCadenceStartDates, financialYearEnd. reflexivity. Qed.

(** X9.  With a cadence of one week or more [calculateCadenceStartDates]
    returns the dates [first], [first + 7 * cadence], ... that are neither
    after the end of the financial year nor after the last date of the
    quarter, where [first] is the first day from the start of the financial
    year on that is no Saturday or Sunday; none of them falls on a weekend,
    and there is none when the quarter has no date. *)
Theorem cadence_start_dates (c : Course) (financialYearStart : Date)
  (quarterDates : list Date) :
  1 <= cadence c ->
  let first := skip_weekend 2 financialYearStart in
  exists n : nat,
    calculateCadenceStartDates c financialYearStart quarterDates
    = Returned (progression first (cadence c * 7) n)
    /\ isWeekend first = false
    /\ financialYearStart <= first <= financialYearStart + 2
    /\ (forall x, financialYearStart <= x < first -> isWeekend x = true)
    /\ (forall k : Z,
          0 <= k ->
          (In (first + cadence c * 7 * k) (progression first (cadence c * 7) n)
           <-> first + cadence c * 7 * k <= financialYearEnd financialYearStart
               /\ before_last (first + cadence c * 7 * k) quarterDates = true))
    /\ (forall x, In x (progression first (cadence c * 7) n) ->
                  isWeekend x = false)
    /\ (quarterDates = [] -> n = O).
Proof.
  intros Hc. cbv zeta.
  destruct (skip_weekend_spec financialYearStart) as (Hw & Hr & Hb).
  assert (R : exists l, calculateCadenceStartDates c financialYearStart
                          quarterDates = Returned l).
  { rewrite calculateCadenceStartDates_loop.
    match goal with
    | |- context [cadence_loop ?f c quarterDates ?e ?cur] =>
        destruct (cadence_loop_returns c quarterDates e f Hc cur) as (l & ->)
    end; [rewrite !Nat2Z.inj_succ; lia|eauto]. }
  destruct R as [l R]. rewrite R.
  rewrite calculateCadenceStartDates_loop in R.
  apply (cadence_loop_progression c quarterDates _ _ Hc) in R
    as ([n ->] & HB & HC).
  remember (skip_weekend 2 financialYearStart) as first eqn:Ef.
  exists n. split; [reflexivity|]. split; [exact Hw|]. split; [exact Hr|].
  split; [exact Hb|]. split; [|split].
  - intros k Hk. split; [apply HB|intros [H1 H2]; apply HC; assumption].
  - intros x Hx. apply progression_In in Hx as (j & _ & ->).
    unfold isWeekend in *.
    replace (first + cadence c * 7 * Z.of_nat j)
      with (first + 7 * (cadence c * Z.of_nat j)) by lia.
    rewrite getDay_shift. exact Hw.
  - intros ->. destruct n as [|n]; [reflexivity|]. exfalso.
    destruct (HB first) as [_ Hf]; [left; reflexivity|]. discriminate.
Qed.

Lemma cadence_start_dates_witness :
  exists n : nat,
    calculateCadenceStartDates (mkCourse "Leading Teams" 12 2)
                               (make 2025 3 1) sampleDates
    = Returned (progression (skip_weekend 2 (make 2025 3 1)) (12 * 7) n)
    /\ isWeekend (skip_weekend 2 (make 2025 3 1)) = false
    /\ make 2025 3 1 <= skip_weekend 2 (make 2025 3 1) <= make 2025 3 1 + 2
    /\ (forall x, make 2025 3 1 <= x < skip_weekend 2 (make 2025 3 1) ->
                  isWeekend x = true)
    /\ (forall k : Z,
          0 <= k ->
          (In (skip_weekend 2 (make 2025 3 1) + 12 * 7 * k)
              (progression (skip_weekend 2 (make 2025 3 1)) (12 * 7) n)
           <-> skip_weekend 2 (make 2025 3 1) + 12 * 7 * k
               <= financialYearEnd (make 2025 3 1)
               /\ before_last (skip_weekend 2 (make 2025 3 1) + 12 * 7 * k)
                              sampleDates = true))
    /\ (forall x, In x (progression (skip_weekend 2 (make 2025 3 1)) (12 * 7) n) ->
                  isWeekend x = false)
    /\ (sampleDates = [] -> n = O).
Proof.
  apply (cadence_start_dates (mkCourse "Leading Teams" 12 2) (make 2025 3 1)
           sampleDates).
  cbn [cadence]. lia.
Defined.

(** ** The next date of a weekday *)

Lemma indexOf_absent (xs : list string) (x : string) :
  ~ In x xs -> indexOf xs x = -1.
Proof.
  induction xs as [|y xs IH]; intros H; [reflexivity|].
  cbn [indexOf]. destruct (String.eqb y x) eqn:E.
  - apply String.eqb_eq in E. exfalso. apply H. left. exact E.
  - rewrite IH; [reflexivity|]. intros Hx. apply H. right. exact Hx.
Qed.

Lemma find_split {A : Type} (p : A -> bool) (l : list A) (x : A) :
  find p l = Some x ->
  exists l1 l2, l = l1 ++ x :: l2 /\ p x = true
                /\ forall y, In y l1 -> p y = false.
Proof.
  induction l as [|a l IH]; [discriminate|].
  cbn [find]. destruct (p a) eqn:E.
  - intros H. injection H as <-. exists [], l. repeat split; auto.
    intros y [].
  - intros H. destruct (IH H) as (l1 & l2 & -> & Hx & Hl1).
    exists (a :: l1), l2. repeat split; auto.
    intros y [<-|Hy]; auto.
Qed.

Lemma ascending_tail (a : Date) (l : list Date) :
  ascending (a :: l) = true -> ascending l = true.
Proof.
  destruct l as [|b rest]; [reflexivity|].
  change (ascending (a :: b :: rest)) with ((a <? b) && ascending (b :: rest)).
  intros H. apply andb_true_iff in H. tauto.
Qed.

Lemma ascending_head (a : Date) (l : list Date) :
  ascending (a :: l) = true -> forall x, In x l -> a < x.
Proof.
  revert a; induction l as [|b rest IH]; intros a H x Hx; [contradiction|].
  change (ascending (a :: b :: rest)) with ((a <? b) && ascending (b :: rest))
    in H.
  apply andb_true_iff in H as [Hab H]. apply Z.ltb_lt in Hab.
  destruct Hx as [<-|Hx]; [exact Hab|].
  specialize (IH b H x Hx). lia.
Qed.

Lemma ascending_app (l1 l2 : list Date) :
  ascending (l1 ++ l2) = true -> ascending l2 = true.
Proof.
  induction l1 as [|a l1 IH]; [auto|].
  intros H. apply IH. apply (ascending_tail a). exact H.
Qed.

(** X10.  [findNextAvailableDate] returns the first date of the list that
    is not before [fromDate] and falls on the target weekday, the earliest
    such date when the list is in ascending order; it returns [null] when
    there is none, and always when the name is no entry of [DAY_NAMES]. *)
Theorem next_available_date (fromDate : Date) (quarterDates : list Date) :
  (forall name : string,
     ~ In name DAY_NAMES ->
     findNextAvailableDate fromDate name quarterDates = None)
  /\ (forall d : Date,
        findNextAvailableDate fromDate (dayName (getDay d)) quarterDates = None
        <-> forall x, In x quarterDates -> fromDate <= x ->
                      getDay x <> getDay d)
  /\ (forall d date : Date,
        findNextAvailableDate fromDate (dayName (getDay d)) quarterDates
        = Some date ->
        In date quarterDates /\ fromDate <= date /\ getDay date = getDay d
        /\ (ascending quarterDates = true ->
            forall x, In x quarterDates -> fromDate <= x ->
                      getDay x = getDay d -> date <= x)).
Proof.
  split; [|split].
  - intros name Hn. unfold findNextAvailableDate.
    rewrite (indexOf_absent _ _ Hn).
    induction quarterDates as [|x l IH]; [reflexivity|].
    cbn [find]. pose proof (getDay_bounds x) as Hb.
    replace (getDay x =? -1) with false by (symmetry; apply Z.eqb_neq; lia).
    rewrite andb_false_r. exact IH.
  - intros d. unfold findNextAvailableDate. rewrite indexOf_dayName.
    split.
    + intros H x Hx Hle Hd.
      apply (find_none _ _ H) in Hx.
      apply andb_false_iff in Hx as [Hx|Hx];
        [apply Z.leb_gt in Hx; lia|apply Z.eqb_neq in Hx; contradiction].
    + intros H.
      match goal with
      | |- find ?p quarterDates = None =>
          destruct (find p quarterDates) as [date|] eqn:E; [|reflexivity]
      end.
      apply find_some in E as [Hin Hp].
      apply andb_true_iff in Hp as [H1 H2].
      apply Z.leb_le in H1. apply Z.eqb_eq in H2.
      exfalso. exact (H date Hin H1 H2).
  - intros d date H. unfold findNextAvailableDate in H.
    rewrite indexOf_dayName in H.
    pose proof (find_some _ _ H) as [Hin Hp].
    apply andb_true_iff in Hp as [H1 H2].
    apply Z.leb_le in H1. apply Z.eqb_eq in H2.
    repeat split; auto.
    intros Hasc x Hx Hle Hd.
    apply find_split in H as (l1 & l2 & El & _ & Hl1).
    rewrite El in Hx, Hasc. apply in_app_or in Hx as [Hx|[<-|Hx]].
    + specialize (Hl1 x Hx). apply andb_false_iff in Hl1 as [Hl1|Hl1];
        [apply Z.leb_gt in Hl1; lia|apply Z.eqb_neq in Hl1; contradiction].
    + lia.
    + apply ascending_app in Hasc.
      pose proof (ascending_head _ _ Hasc x Hx). lia.
Qed.

Lemma next_available_date_witness :
  findNextAvailableDate (make 2025 3 1) "FUNDAY" sampleDates = None.
Proof.
  apply (proj1 (next_available_date (make 2025 3 1) sampleDates) "FUNDAY").
  cbn [DAY_NAMES In]. intros H.
  repeat (destruct H as [H|H]; [discriminate H|]). exact H.
Defined.

(** ** The rollback *)

Lemma update_release_structure (i : nat) (l : list GridSlot) :
  map slot (update_nth i (fun s => mkGridSlot (slot s) true None) l)
  = map slot l.
Proof. apply update_nth_map. reflexivity. Qed.

Lemma update_release_free (i : nat) (l : list GridSlot) :
  (List.length (filter available l)
   <= List.length (filter available
                     (update_nth i (fun s => mkGridSlot (slot s) true None) l)))%nat.
Proof.
  revert i; induction l as [|s l IH]; intros i; [destruct i; cbn; lia|].
  destruct i as [|i]; cbn [update_nth filter available].
  - destruct (available s); cbn [List.length]; lia.
  - specialize (IH i). destruct (available s); cbn [List.length]; lia.
Qed.

(** The shape of a grid: its keys, dates and time slots. *)
Lemma release_at_structure (grid : AvailabilityGrid) (d : Date) (st : string) :
  map (fun e : DateKey * DayData =>
         (fst e, day_date (snd e), map slot (slots (snd e))))
      (release_at grid d st)
  = map (fun e : DateKey * DayData =>
           (fst e, day_date (snd e), map slot (slots (snd e))))
        grid
  /\ freeSlots grid <= freeSlots (release_at grid d st).
Proof.
  unfold release_at.
  destruct (grid_get grid (format d)) as [dd|]; [|split; [reflexivity|lia]].
  destruct (findIndex _ (slots dd)) as [i|]; [|split; [reflexivity|lia]].
  unfold grid_update_slot. generalize (format d) as key. intros key.
  induction grid as [|[k v] grid [IH1 IH2]]; [split; [reflexivity|cbn; lia]|].
  cbn [map]. destruct (key_eqb k key).
  - cbn [fst snd day_date slots]. rewrite update_release_structure, IH1.
    split; [reflexivity|].
    cbn [freeSlots fold_right snd slots] in *.
    pose proof (update_release_free i (slots v)). unfold freeSlots in IH2. lia.
  - rewrite IH1. split; [reflexivity|].
    cbn [freeSlots fold_right snd slots] in *. unfold freeSlots in IH2. lia.
Qed.

(** X11.  [rollbackSessions] only sets slots free: the keys, the dates and
    the time slots of the grid stay as they are and the number of free
    slots does not go down; sessions whose dates the grid does not hold
    change nothing. *)
Theorem rollback_only_releases (sessions : list ScheduledSession)
  (grid : AvailabilityGrid) :
  map (fun e : DateKey * DayData =>
         (fst e, day_date (snd e), map slot (slots (snd e))))
      (rollbackSessions sessions grid)
  = map (fun e : DateKey * DayData =>
           (fst e, day_date (snd e), map slot (slots (snd e))))
        grid
  /\ freeSlots grid <= freeSlots (rollbackSessions sessions grid)
  /\ ((forall x, In x sessions -> grid_get grid (format (date x)) = None) ->
      rollbackSessions sessions grid = grid).
Proof.
  rewrite rollbackSessions_fold.
  revert grid; induction sessions as [|x xs IH]; intros grid.
  - split; [reflexivity|split; [cbn [fold_left]; lia|reflexivity]].
  - cbn [fold_left].
    destruct (IH (release_at grid (date x) (startTime x))) as (I1 & I2 & I3).
    destruct (release_at_structure grid (date x) (startTime x)) as [R1 R2].
    split; [rewrite I1; exact R1|]. split; [lia|].
    intros H.
    assert (E : release_at grid (date x) (startTime x) = grid).
    { unfold release_at. rewrite (H x); [reflexivity|left; reflexivity]. }
    rewrite E in *. rewrite <- rollbackSessions_fold.
    rewrite <- rollbackSessions_fold in I3. apply I3.
    intros y Hy. apply H. right. exact Hy.
Qed.

Lemma rollback_only_releases_witness :
  rollbackSessions [mkSession (make 2025 3 5) "Leading Teams" 1 "06:00" "06:30" "" ""] []
  = [].
Proof.
  apply (proj2 (proj2 (rollback_only_releases
           [mkSession (make 2025 3 5) "Leading Teams" 1 "06:00" "06:30" "" ""]
           []))).
  intros x _. reflexivity.
Defined.

(** ** The fresh grid *)

Lemma grid_get_set_same (grid : AvailabilityGrid) (key : DateKey) (v : DayData) :
  grid_get (grid_set grid key v) key = Some v.
Proof.
  induction grid as [|[k w] grid IH]; cbn [grid_set grid_get].
  - rewrite key_eqb_refl. reflexivity.
  - destruct (key_eqb k key) eqn:E; cbn [grid_get]; rewrite E; auto.
Qed.

Lemma grid_get_set_other (grid : AvailabilityGrid) (key key' : DateKey)
  (v : DayData) :
  key' <> key -> grid_get (grid_set grid key v) key' = grid_get grid key'.
Proof.
  intros Hne. induction grid as [|[k w] grid IH]; cbn [grid_set grid_get].
  - replace (key_eqb key key') with false; [reflexivity|].
    symmetry. apply key_eqb_neq. congruence.
  - destruct (key_eqb k key) eqn:E; cbn [grid_get].
    + apply key_eqb_eq in E. subst k.
      replace (key_eqb key key') with false; [reflexivity|].
      symmetry. apply key_eqb_neq. congruence.
    + rewrite IH. reflexivity.
Qed.

Lemma grid_set_keys (grid : AvailabilityGrid) (key : DateKey) (v : DayData) :
  (In key (map fst grid) /\ map fst (grid_set grid key v) = map fst grid)
  \/ (~ In key (map fst grid)
      /\ map fst (grid_set grid key v) = map fst grid ++ [key]).
Proof.
  induction grid as [|[k w] grid IH]; cbn [grid_set map fst].
  - right. split; [intros []|reflexivity].
  - destruct (key_eqb k key) eqn:E.
    + apply key_eqb_eq in E. subst k. left. split; [left|]; reflexivity.
    + apply key_eqb_neq in E. cbn [map fst].
      destruct IH as [[Hin ->]|[Hout ->]].
      * left. split; [right; exact Hin|reflexivity].
      * right. split; [|reflexivity]. intros [H|H]; contradiction.
Qed.

Lemma grid_set_NoDup (grid : AvailabilityGrid) (key : DateKey) (v : DayData) :
  NoDup (map fst grid) -> NoDup (map fst (grid_set grid key v)).
Proof.
  intros H. destruct (grid_set_keys grid key v) as [[_ ->]|[Hout ->]];
    [exact H|].
  apply NoDup_app; [exact H|repeat constructor; intros []|].
  intros a Ha [<-|[]]. contradiction.
Qed.

Lemma grid_set_In (grid : AvailabilityGrid) (key : DateKey) (v : DayData)
  (e : DateKey * DayData) :
  In e (grid_set grid key v) -> In e grid \/ snd e = v.
Proof.
  induction grid as [|[k w] grid IH]; cbn [grid_set].
  - intros [<-|[]]. right. reflexivity.
  - destruct (key_eqb k key).
    + intros [<-|H]; [right; reflexivity|left; right; exact H].
    + intros [<-|H]; [left; left; reflexivity|].
      destruct (IH H) as [H'|H']; [left; right; exact H'|right; exact H'].
Qed.

Lemma initialize_snoc (ds : list Date) (d : Date) :
  initializeAvailabilityGrid (ds ++ [d])
  = grid_set (initializeAvailabilityGrid ds) (format d) (freshDay d).
Proof. unfold initializeAvailabilityGrid. rewrite fold_left_app. reflexivity. Qed.

Lemma fresh_free (g : AvailabilityGrid) :
  (forall e, In e g -> exists d, snd e = freshDay d) ->
  freeSlots g = totalSlots g /\ occupiedPairs g = [].
Proof.
  induction g as [|e g IH]; intros H; [split; reflexivity|].
  destruct IH as [IH1 IH2]; [intros e' He'; apply H; right; exact He'|].
  destruct (H e) as [d Hd]; [left; reflexivity|].
  cbn [freeSlots totalSlots fold_right occupiedPairs flat_map].
  fold (freeSlots g). fold (totalSlots g). fold (occupiedPairs g).
  rewrite Hd, IH1, IH2. unfold freshDay. cbn [slots].
  assert (F : forall l : list TimeSlot,
            filter available (map (fun slot => mkGridSlot slot true None) l)
            = map (fun slot => mkGridSlot slot true None) l
            /\ filter (fun s => negb (available s))
                      (map (fun slot => mkGridSlot slot true None) l) = []).
  { induction l as [|t l [I1 I2]]; [split; reflexivity|].
    cbn [map filter available negb]. rewrite I1, I2. split; reflexivity. }
  destruct (F (getAvailableTimeSlots d)) as [F1 F2].
  rewrite F1, F2. split; reflexivity.
Qed.

(** X12.  [initializeAvailabilityGrid] gives every date of its list, also
    one that occurs more than once, a day with the slots
    [getAvailableTimeSlots] returns for it, all free and without a session;
    the grid has no other key and no key twice, so all its slots are
    free. *)
Theorem initialize_grid_lookup (dates : list Date) :
  (forall d, In d dates ->
             grid_get (initializeAvailabilityGrid dates) (format d)
             = Some (freshDay d))
  /\ (forall key, ~ In key (map format dates) ->
                  grid_get (initializeAvailabilityGrid dates) key = None)
  /\ NoDup (map fst (initializeAvailabilityGrid dates))
  /\ freeSlots (initializeAvailabilityGrid dates)
     = totalSlots (initializeAvailabilityGrid dates)
  /\ occupiedPairs (initializeAvailabilityGrid dates) = [].
Proof.
  assert (H : (forall d, In d dates ->
                 grid_get (initializeAvailabilityGrid dates) (format d)
                 = Some (freshDay d))
              /\ (forall key, ~ In key (map format dates) ->
                     grid_get (initializeAvailabilityGrid dates) key = None)
              /\ NoDup (map fst (initializeAvailabilityGrid dates))
              /\ (forall e, In e (initializeAvailabilityGrid dates) ->
                     exists d, snd e = freshDay d)).
  { induction dates as [|d0 ds (I1 & I2 & I3 & I4)] using rev_ind.
    - repeat split; try (intros ? []); try reflexivity. constructor.
    - rewrite initialize_snoc. split; [|split; [|split]].
      + intros d Hd.
        destruct (Z.eq_dec d d0) as [->|Hne];
          [apply grid_get_set_same|].
        rewrite grid_get_set_other
          by (intros E; apply format_inj in E; contradiction).
        apply I1. apply in_app_or in Hd as [Hd|[Hd|[]]]; congruence.
      + intros key Hk. rewrite map_app, in_app_iff in Hk. cbn [map In] in Hk.
        rewrite grid_get_set_other by (intros ->; tauto).
        apply I2. tauto.
      + apply grid_set_NoDup. exact I3.
      + intros e He. apply grid_set_In in He as [He|He]; [auto|eauto]. }
  destruct H as (H1 & H2 & H3 & H4).
  destruct (fresh_free _ H4) as [F1 F2]. auto.
Qed.

Lemma initialize_grid_lookup_witness :
  grid_get (initializeAvailabilityGrid [make 2025 3 1; make 2025 3 1])
           (format (make 2025 3 1))
  = Some (freshDay (make 2025 3 1)).
Proof.
  apply (proj1 (initialize_grid_lookup [make 2025 3 1; make 2025 3 1])).
  left. reflexivity.
Defined.

(* ================================================================== *)
(** * scheduleEngine.js: the result of a run *)

(** ** The final sort *)

Lemma compareSessions_antisym (x y : ScheduledSession) :
  compareSessions x y = Gt -> notAfter y x = true.
Proof.
  unfold notAfter, compareSessions.
  destruct (date x =? date y) eqn:E.
  - apply Z.eqb_eq in E. rewrite E, Z.eqb_refl. cbn [negb].
    rewrite (String.compare_antisym (startTime y) (startTime x)).
    intros ->. reflexivity.
  - rewrite Z.eqb_sym, E. cbn [negb].
    rewrite (Z.compare_antisym (date x) (date y)).
    intros H. destruct (date x ?= date y); try discriminate. reflexivity.
Qed.

Lemma orderedSessions_cons (x : ScheduledSession) (l : list ScheduledSession) :
  orderedSessions (x :: l) = true
  <-> (forall y, hd_error l = Some y -> notAfter x y = true)
      /\ orderedSessions l = true.
Proof.
  destruct l as [|y l].
  - cbn. split; [intros _; split; [discriminate|reflexivity]|auto].
  - change (orderedSessions (x :: y :: l))
      with (notAfter x y && orderedSessions (y :: l)).
    rewrite andb_true_iff. cbn [hd_error]. split.
    + intros [H1 H2]. split; [|exact H2]. intros z E. injection E as <-. exact H1.
    + intros [H1 H2]. split; [apply H1; reflexivity|exact H2].
Qed.

Lemma insertSession_ordered (x : ScheduledSession) (l : list ScheduledSession) :
  orderedSessions l = true -> orderedSessions (insertSession x l) = true.
Proof.
  induction l as [|y l IH]; intros H; [reflexivity|].
  cbn [insertSession].
  destruct (compareSessions x y) eqn:E.
  - apply orderedSessions_cons. split; [|exact H].
    intros z Ez. injection Ez as <-. unfold notAfter. rewrite E. reflexivity.
  - apply orderedSessions_cons. split; [|exact H].
    intros z Ez. injection Ez as <-. unfold notAfter. rewrite E. reflexivity.
  - apply orderedSessions_cons in H as [Hy Hl].
    apply orderedSessions_cons. split; [|apply IH; exact Hl].
    intros z Ez. destruct l as [|w l]; cbn [insertSession] in Ez.
    + injection Ez as <-. apply compareSessions_antisym. exact E.
    + destruct (compareSessions x w); cbn [hd_error] in Ez;
        injection Ez as <-;
        first [apply compareSessions_antisym; exact E|apply Hy; reflexivity].
Qed.

Lemma sortSessions_ordered (l : list ScheduledSession) :
  orderedSessions (sortSessions l) = true.
Proof.
  induction l as [|x l IH]; [reflexivity|].
  cbn [sortSessions]. apply insertSession_ordered. exact IH.
Qed.

Lemma notAfter_strict (a b : ScheduledSession) :
  notAfter a b = true -> sessionPair a <> sessionPair b ->
  sessionBefore a b = true.
Proof.
  unfold notAfter, compareSessions, sessionBefore, sessionPair.
  intros H Hne. destruct (date a =? date b) eqn:E; cbn [negb] in H.
  - apply Z.eqb_eq in E. rewrite E, Z.ltb_irrefl. cbn [orb andb].
    unfold String.ltb.
    destruct (String.compare (startTime a) (startTime b)) eqn:C;
      [|reflexivity|discriminate].
    apply String.compare_eq_iff in C. exfalso. apply Hne. congruence.
  - apply Z.eqb_neq in E.
    destruct (date a ?= date b) eqn:C; try discriminate.
    + apply Z.compare_eq in C. contradiction.
    + apply Z.compare_lt_iff in C. apply Z.ltb_lt in C. rewrite C. reflexivity.
Qed.

Lemma ordered_strict (l : list ScheduledSession) :
  orderedSessions l = true -> NoDup (map sessionPair l) ->
  strictlySorted l = true.
Proof.
  induction l as [|a [|b l] IH]; intros H Hnd; try reflexivity.
  change (orderedSessions (a :: b :: l))
    with (notAfter a b && orderedSessions (b :: l)) in H.
  apply andb_true_iff in H as [Hab H].
  change (strictlySorted (a :: b :: l))
    with (sessionBefore a b && strictlySorted (b :: l)).
  inversion Hnd as [|p ps Hp Hps]; subst.
  rewrite (IH H Hps), andb_true_r.
  apply notAfter_strict; [exact Hab|].
  intros E. apply Hp. rewrite E. left. reflexivity.
Qed.

(** The parts of a returned schedule. *)
Lemma generateSchedule_parts (cfg : YearStart) (courses : list Course)
  (quarter : string) (year : Z) (r : Schedule) :
  generateSchedule cfg courses quarter year = Returned r ->
  exists quarterDates grid history S,
    runEngine cfg courses quarter year
    = Returned (quarterDates, (grid, history, S))
    /\ r = mkSchedule (sortSessions S)
                      (generateCalendarGrid (sortSessions S) quarterDates)
                      (calculateStatistics grid (sortSessions S)).
Proof.
  unfold generateSchedule.
  destruct (runEngine cfg courses quarter year)
    as [[qd [[grid history] S]]| |]; cbn [bind]; try discriminate.
  intros H. injection H as <-. exists qd, grid, history, S. auto.
Qed.

(** No two sessions of a run share a date and a start time, and every
    session is on a date of the quarter. *)
Lemma run_sessions (cfg : YearStart) (courses : list Course)
  (quarter : string) (year : Z) (quarterDates : list Date)
  (grid : AvailabilityGrid) (history : CourseHistory)
  (S : list ScheduledSession) :
  runEngine cfg courses quarter year
  = Returned (quarterDates, (grid, history, S)) ->
  NoDup (map sessionPair S)
  /\ forall x, In x S -> In (date x) quarterDates.
Proof.
  intros Hrun.
  destruct (runEngine_inv _ _ _ _ _ _ _ _ Hrun)
    as (Hinv & first & last & _ & ->).
  pose proof (weekdaysBetween_NoDup first last) as Hnd.
  pose proof (inv_seeded _ _ _ _ _ Hinv) as Hseed.
  pose proof (occupiedPairs_NoDup _ _ Hnd Hseed) as Hocc.
  split.
  - eapply Permutation_NoDup; [apply (inv_occupied _ _ _ _ _ Hinv)|exact Hocc].
  - intros x Hx.
    assert (Hp : In (sessionPair x) (occupiedPairs grid)).
    { eapply Permutation_in;
        [apply Permutation_sym, (inv_occupied _ _ _ _ _ Hinv)|].
      apply in_map. exact Hx. }
    apply occupiedPairs_In in Hp as (k & dd & s & Hin & Hs & _ & Ed & Et).
    rewrite <- (seeded_dates _ _ Hseed).
    cbn [sessionPair fst] in Ed. rewrite <- Ed.
    apply (in_map (fun e : DateKey * DayData => day_date (snd e)) _ _ Hin).
Qed.

(** X13.  The sessions [generateSchedule] returns are in strictly
    ascending order of their date and, on one date, of their start time:
    the final sort orders them, and no two of them share both. *)
Theorem result_strictly_sorted (cfg : YearStart) (courses : list Course)
  (quarter : string) (year : Z) (r : Schedule) :
  generateSchedule cfg courses quarter year = Returned r ->
  strictlySorted (scheduledSessions r) = true.
Proof.
  intros H. apply generateSchedule_parts in H
    as (qd & grid & history & S & Hrun & ->).
  cbn [scheduledSessions].
  apply ordered_strict; [apply sortSessions_ordered|].
  destruct (run_sessions _ _ _ _ _ _ _ _ Hrun) as [Hnd _].
  eapply Permutation_NoDup; [|exact Hnd].
  apply Permutation_map, Permutation_sym, sortSessions_perm.
Qed.

Lemma result_strictly_sorted_witness :
  strictlySorted (scheduledSessions sampleSchedule) = true.
Proof.
  apply (result_strictly_sorted April sampleCourses "Q1" 2025).
  vm_compute. reflexivity.
Defined.

(** ** The calendar view *)

Lemma cells_get_push (cells : list (string * list Occupant))
  (l label : string) (o : Occupant) :
  cells_get (label_push cells l o) label
  = if String.eqb l label then cells_get cells label ++ [o]
    else cells_get cells label.
Proof.
  induction cells as [|[k v] cells IH]; cbn [label_push cells_get].
  - destruct (String.eqb l label); reflexivity.
  - destruct (String.eqb k l) eqn:E; cbn [cells_get].
    + apply String.eqb_eq in E. subst k.
      destruct (String.eqb l label); reflexivity.
    + rewrite IH. destruct (String.eqb k label) eqn:E'; [|reflexivity].
      apply String.eqb_eq in E'. subst k. rewrite String.eqb_sym, E.
      reflexivity.
Qed.

Lemma calendar_get_push (grid : list (DateKey * list (string * list Occupant)))
  (k key : DateKey) (l : string) (o : Occupant) :
  calendar_get (calendar_push grid k l o) key
  = if key_eqb k key then label_push (calendar_get grid key) l o
    else calendar_get grid key.
Proof.
  induction grid as [|[k' cells] grid IH]; cbn [calendar_push calendar_get].
  - destruct (key_eqb k key); reflexivity.
  - destruct (key_eqb k' k) eqn:E; cbn [calendar_get].
    + apply key_eqb_eq in E. subst k'.
      destruct (key_eqb k key); reflexivity.
    + rewrite IH. destruct (key_eqb k' key) eqn:E'; [|reflexivity].
      apply key_eqb_eq in E'. subst k'.
      replace (key_eqb k key) with false; [reflexivity|].
      symmetry. apply key_eqb_neq. apply key_eqb_neq in E. congruence.
Qed.

Lemma calendar_cell_push (grid : list (DateKey * list (string * list Occupant)))
  (k key : DateKey) (l label : string) (o : Occupant) :
  calendar_cell (calendar_push grid k l o) key label
  = calendar_cell grid key label
    ++ (if key_eqb k key && String.eqb l label then [o] else []).
Proof.
  unfold calendar_cell. rewrite calendar_get_push.
  destruct (key_eqb k key); cbn [andb]; [|rewrite app_nil_r; reflexivity].
  rewrite cells_get_push.
  destruct (String.eqb l label); [reflexivity|rewrite app_nil_r; reflexivity].
Qed.

Lemma calendar_fold_cell (sessions : list ScheduledSession)
  (grid : list (DateKey * list (string * list Occupant)))
  (key : DateKey) (label : string) :
  calendar_cell
    (fold_left (fun g s => calendar_push g (format (date s)) (timeSlotLabel s)
                             (mkOccupant (courseName s) (sessionNumber s)))
               sessions grid)
    key label
  = calendar_cell grid key label
    ++ map occupantOf (cellSessions sessions key label).
Proof.
  revert grid; induction sessions as [|s sessions IH]; intros grid.
  - cbn. rewrite app_nil_r. reflexivity.
  - cbn [fold_left]. rewrite IH, calendar_cell_push, <- app_assoc.
    f_equal. unfold cellSessions. cbn [filter].
    destruct (key_eqb (format (date s)) key
              && String.eqb (timeSlotLabel s) label); reflexivity.
Qed.

(** The labels of the view: the set and its sort. *)
Lemma seen_labels (labels seen : list string) :
  let out := fold_left (fun seen l => if existsb (String.eqb l) seen then seen
                                      else seen ++ [l])
                       labels seen in
  (forall l, In l out <-> In l seen \/ In l labels)
  /\ (NoDup seen -> NoDup out).
Proof.
  revert seen; induction labels as [|x labels IH]; intros seen; cbv zeta.
  - cbn [fold_left In]. split; [tauto|auto].
  - cbn [fold_left].
    destruct (existsb (String.eqb x) seen) eqn:E.
    + destruct (IH seen) as [I1 I2]. cbv zeta in I1, I2.
      split; [|exact I2]. intros l. rewrite I1. cbn [In].
      apply existsb_exists in E as (y & Hy & Ey).
      apply String.eqb_eq in Ey. subst y.
      split; [tauto|]. intros [H|[<-|H]]; auto.
    + destruct (IH (seen ++ [x])) as [I1 I2]. cbv zeta in I1, I2.
      split.
      * intros l. rewrite I1, in_app_iff. cbn [In]. tauto.
      * intros Hnd. apply I2. apply NoDup_app;
          [exact Hnd|repeat constructor; intros []|].
        intros a Ha [<-|[]].
        assert (Hx : existsb (String.eqb x) seen = true)
          by (apply existsb_exists; exists x; split;
              [exact Ha|apply String.eqb_refl]).
        congruence.
Qed.

Lemma string_leb_total (x y : string) :
  String.leb x y = false -> String.ltb y x = true.
Proof.
  unfold String.leb, String.ltb.
  rewrite (String.compare_antisym y x).
  destruct (String.compare x y); cbn [CompOpp]; congruence.
Qed.

Lemma string_leb_strict (x y : string) :
  String.leb x y = true -> x <> y -> String.ltb x y = true.
Proof.
  unfold String.leb, String.ltb. intros H Hne.
  destruct (String.compare x y) eqn:C; [|reflexivity|discriminate].
  apply String.compare_eq_iff in C. contradiction.
Qed.

Lemma ascending_strings_cons (x : string) (l : list string) :
  ascending_strings (x :: l) = true
  <-> (forall y, hd_error l = Some y -> String.ltb x y = true)
      /\ ascending_strings l = true.
Proof.
  destruct l as [|y l].
  - cbn. split; [intros _; split; [discriminate|reflexivity]|auto].
  - change (ascending_strings (x :: y :: l))
      with (String.ltb x y && ascending_strings (y :: l)).
    rewrite andb_true_iff. cbn [hd_error]. split.
    + intros [H1 H2]. split; [|exact H2]. intros z E. injection E as <-. exact H1.
    + intros [H1 H2]. split; [apply H1; reflexivity|exact H2].
Qed.

Lemma insertLabel_In (x : string) (l : list string) (y : string) :
  In y (insertLabel x l) <-> y = x \/ In y l.
Proof.
  induction l as [|z l IH]; cbn [insertLabel In]; [intuition congruence|].
  destruct (String.leb x z); cbn [In]; [intuition congruence|].
  rewrite IH. intuition congruence.
Qed.

Lemma insertLabel_ascending (x : string) (l : list string) :
  ~ In x l -> ascending_strings l = true ->
  ascending_strings (insertLabel x l) = true.
Proof.
  induction l as [|y l IH]; intros Hx H; [reflexivity|].
  cbn [insertLabel]. destruct (String.leb x y) eqn:E.
  - apply ascending_strings_cons. split; [|exact H].
    intros z Ez. injection Ez as <-. apply string_leb_strict; [exact E|].
    intros ->. apply Hx. left. reflexivity.
  - apply ascending_strings_cons in H as [Hy Hl].
    apply ascending_strings_cons. split;
      [|apply IH; [intros Hin; apply Hx; right; exact Hin|exact Hl]].
    intros z Ez. destruct l as [|w l]; cbn [insertLabel] in Ez.
    + injection Ez as <-. apply string_leb_total. exact E.
    + destruct (String.leb x w); cbn [hd_error] in Ez; injection Ez as <-;
        first [apply string_leb_total; exact E|apply Hy; reflexivity].
Qed.

Lemma sortedLabels_spec (labels : list string) :
  (forall l, In l (sortedLabels labels) <-> In l labels)
  /\ ascending_strings (sortedLabels labels) = true.
Proof.
  unfold sortedLabels.
  destruct (seen_labels labels []) as [H1 H2]. cbv zeta in H1, H2.
  specialize (H2 (NoDup_nil _)).
  set (set_ := fold_left _ labels []) in *. clearbody set_.
  assert (G : (forall l, In l (fold_right insertLabel [] set_) <-> In l set_)
              /\ ascending_strings (fold_right insertLabel [] set_) = true).
  { clear H1. induction set_ as [|x s IH]; [split; [tauto|reflexivity]|].
    inversion H2 as [|? ? Hx Hs]; subst.
    destruct (IH Hs) as [I1 I2]. cbn [fold_right]. split.
    - intros l. rewrite insertLabel_In, I1. cbn [In]. intuition congruence.
    - apply insertLabel_ascending; [rewrite I1; exact Hx|exact I2]. }
  destruct G as [G1 G2]. split; [|exact G2].
  intros l. rewrite G1, H1. cbn [In]. tauto.
Qed.

(** X14.  In the calendar view of [generateCalendarGrid] the cell of a
    date and a label holds the sessions of that date and label, in the
    order of the list and nothing else; the rows are the labels of the
    sessions, each once and in ascending order; the dates are those
    handed in. *)
Theorem calendar_grid_cells (sessions : list ScheduledSession)
  (quarterDates : list Date) :
  let view := generateCalendarGrid sessions quarterDates in
  dates view = quarterDates
  /\ (forall (key : DateKey) (label : string),
        calendar_cell (calendar view) key label
        = map occupantOf (cellSessions sessions key label))
  /\ (forall l : string,
        In l (timeSlots view) <-> exists s, In s sessions /\ timeSlotLabel s = l)
  /\ ascending_strings (timeSlots view) = true.
Proof.
  cbv zeta. unfold generateCalendarGrid. cbn [dates calendar timeSlots].
  split; [reflexivity|]. split; [|split].
  - intros key label. rewrite calendar_fold_cell. reflexivity.
  - intros l. rewrite (proj1 (sortedLabels_spec _)), in_map_iff.
    split; intros (s & H1 & H2); exists s; auto.
  - apply sortedLabels_spec.
Qed.

Lemma calendar_grid_cells_witness :
  In "06:00 - 06:30"
     (timeSlots (generateCalendarGrid
                   [mkSession (make 2025 3 1) "Leading Teams" 1 "06:00" "06:30"
                              "" ""]
                   [make 2025 3 1])).
Proof.
  apply (proj2 (proj1 (proj2 (proj2 (calendar_grid_cells
           [mkSession (make 2025 3 1) "Leading Teams" 1 "06:00" "06:30" "" ""]
           [make 2025 3 1]))) "06:00 - 06:30")).
  eexists. split; [left; reflexivity|reflexivity].
Defined.

(** ** The sessions of a run, one by one *)

Lemma append_same_length (a b r1 r2 : string) :
  String.length a = String.length b ->
  (a ++ r1)%string = (b ++ r2)%string -> a = b.
Proof.
  revert b; induction a as [|c a IH]; intros [|c' b] Hl H;
    try discriminate; [reflexivity|].
  cbn [String.append] in H. injection H as -> H.
  cbn [String.length] in Hl. injection Hl as Hl.
  rewrite (IH b Hl H). reflexivity.
Qed.

Lemma templateStarts_length (st : string) :
  In st templateStarts -> String.length st = 5%nat.
Proof.
  intros H.
  assert (C : forallb (fun s => Nat.eqb (String.length s) 5) templateStarts
              = true) by (vm_compute; reflexivity).
  rewrite forallb_forall in C. apply Nat.eqb_eq. apply C. exact H.
Qed.

Lemma filter_at_most_one {A : Type} (p : A -> bool) (l : list A) :
  NoDup l ->
  (forall x y, In x l -> In y l -> p x = true -> p y = true -> x = y) ->
  (List.length (filter p l) <= 1)%nat.
Proof.
  induction l as [|a l IH]; intros Hnd H; [cbn; lia|].
  inversion Hnd as [|? ? Ha Hl]; subst.
  cbn [filter]. destruct (p a) eqn:E.
  - assert (F : filter p l = []).
    { destruct (filter p l) as [|y rest] eqn:Ef; [reflexivity|].
      assert (Hy : In y (filter p l)) by (rewrite Ef; left; reflexivity).
      apply filter_In in Hy as [Hy Hp].
      assert (a = y) by (apply H; auto; [left; reflexivity|right; exact Hy]).
      subst y. contradiction. }
    rewrite F. cbn. lia.
  - apply IH; [exact Hl|].
    intros x y Hx Hy. apply H; right; assumption.
Qed.

(** What the invariant of a run says of one session. *)
Lemma run_session (cfg : YearStart) (courses : list Course)
  (quarter : string) (year : Z) (quarterDates : list Date)
  (grid : AvailabilityGrid) (history : CourseHistory)
  (S : list ScheduledSession) (x : ScheduledSession) :
  runEngine cfg courses quarter year
  = Returned (quarterDates, (grid, history, S)) ->
  In x S ->
  exists (c : Course) (d0 : Date) (k : nat),
    In c courses /\ (k < Z.to_nat (sessions c))%nat
    /\ x = mkSession (d0 + 7 * Z.of_nat k) (title c) (1 + Z.of_nat k)
                     (startTime x) (endTime x) "" ""
    /\ In (mkTimeSlot (startTime x) (endTime x)) (getAvailableTimeSlots d0)
    /\ In d0 quarterDates
    /\ In (d0 + 7 * (sessions c - 1)) quarterDates.
Proof.
  intros Hrun Hx.
  destruct (run_sessions _ _ _ _ _ _ _ _ Hrun) as [_ Hdates].
  destruct (runEngine_inv _ _ _ _ _ _ _ _ Hrun) as (Hinv & _).
  destruct (inv_instances _ _ _ _ _ Hinv) as (insts & Es & Hinsts).
  rewrite Es in Hx. apply in_concat in Hx as (inst & Hinst & Hx).
  rewrite Forall_forall in Hinsts.
  destruct (Hinsts _ Hinst) as (c & d0 & st & en & Hc & Hd0 & Hs & Ei & Hslot & _).
  subst inst. pose proof Hx as Hx'.
  apply instance_of_In in Hx as (k & Hk & ->).
  exists c, d0, k. cbn [startTime endTime].
  repeat split; auto.
  assert (Hlast : In (mkSession (d0 + 7 * Z.of_nat (Z.to_nat (sessions c) - 1))
                                (title c)
                                (1 + Z.of_nat (Z.to_nat (sessions c) - 1))
                                st en "" "")
                     (instance_of c d0 st en)).
  { unfold instance_of.
    apply (nth_error_In _ (Z.to_nat (sessions c) - 1)).
    apply sessions_on_nth. lia. }
  assert (Hin : In (mkSession (d0 + 7 * Z.of_nat (Z.to_nat (sessions c) - 1))
                              (title c)
                              (1 + Z.of_nat (Z.to_nat (sessions c) - 1))
                              st en "" "") S).
  { rewrite Es. apply in_concat. eexists. split; [exact Hinst|exact Hlast]. }
  apply Hdates in Hin. cbn [date] in Hin.
  replace (sessions c - 1) with (Z.of_nat (Z.to_nat (sessions c) - 1)) by lia.
  exact Hin.
Qed.

(** X15.  In the calendar view of a returned schedule every session is
    alone in its cell: the cell of its date and label holds its entry and
    nothing else, no cell holds two entries, and every row label is one of
    [getAllTimeSlots]. *)
Theorem calendar_one_per_cell (cfg : YearStart) (courses : list Course)
  (quarter : string) (year : Z) (r : Schedule) :
  generateSchedule cfg courses quarter year = Returned r ->
  (forall x, In x (scheduledSessions r) ->
             calendar_cell (calendar (calendarData r)) (format (date x))
                           (timeSlotLabel x)
             = [occupantOf x])
  /\ (forall (key : DateKey) (label : string),
        (List.length (calendar_cell (calendar (calendarData r)) key label)
         <= 1)%nat)
  /\ (forall l, In l (timeSlots (calendarData r)) -> In l getAllTimeSlots).
Proof.
  intros H. apply generateSchedule_parts in H
    as (qd & grid & history & S & Hrun & ->).
  cbn [scheduledSessions calendarData].
  unfold generateCalendarGrid. cbn [calendar timeSlots].
  destruct (run_sessions _ _ _ _ _ _ _ _ Hrun) as [Hnd _].
  assert (Hnd' : NoDup (map sessionPair (sortSessions S))).
  { eapply Permutation_NoDup; [|exact Hnd].
    apply Permutation_map, Permutation_sym, sortSessions_perm. }
  assert (Hin : forall x, In x (sortSessions S) -> In x S)
    by (intros x; apply Permutation_in, sortSessions_perm).
  assert (Hstart : forall x, In x S -> In (startTime x) templateStarts).
  { intros x Hx.
    destruct (run_session _ _ _ _ _ _ _ _ _ Hrun Hx)
      as (c & d0 & k & _ & _ & _ & Hslot & _).
    apply slots_starts_template in Hslot. exact Hslot. }
  assert (Hone : forall key label,
            (List.length (cellSessions (sortSessions S) key label) <= 1)%nat).
  { intros key label. apply filter_at_most_one.
    - apply (NoDup_map_inv sessionPair). exact Hnd'.
    - intros x y Hx Hy Px Py.
      apply andb_true_iff in Px as [Kx Lx]. apply andb_true_iff in Py as [Ky Ly].
      apply key_eqb_eq in Kx, Ky. apply String.eqb_eq in Lx, Ly.
      apply (NoDup_map_In_eq sessionPair _ _ _ Hnd' Hx Hy).
      unfold sessionPair. f_equal.
      + apply format_inj. congruence.
      + unfold timeSlotLabel in Lx, Ly.
        apply (append_same_length _ _ (" - " ++ endTime x) (" - " ++ endTime y)).
        * rewrite !templateStarts_length; auto.
        * congruence. }
  split; [|split].
  - intros x Hx. rewrite calendar_fold_cell. cbn [calendar_cell cells_get calendar_get app].
    specialize (Hone (format (date x)) (timeSlotLabel x)).
    assert (Hx' : In x (cellSessions (sortSessions S) (format (date x))
                                     (timeSlotLabel x))).
    { apply filter_In. split; [exact Hx|].
      rewrite key_eqb_refl, String.eqb_refl. reflexivity. }
    destruct (cellSessions (sortSessions S) (format (date x)) (timeSlotLabel x))
      as [|a [|b rest]]; [contradiction| |cbn in Hone; lia].
    destruct Hx' as [->|[]]. reflexivity.
  - intros key label. rewrite calendar_fold_cell. cbn [calendar_cell cells_get calendar_get app].
    rewrite length_map. apply Hone.
  - intros l Hl.
    apply (proj1 (proj1 (sortedLabels_spec (map timeSlotLabel (sortSessions S)))
                        l)) in Hl.
    apply in_map_iff in Hl as (x & <- & Hx). apply Hin in Hx.
    destruct (run_session _ _ _ _ _ _ _ _ _ Hrun Hx)
      as (c & d0 & k & _ & _ & _ & Hslot & _).
    apply available_slot_label in Hslot. exact Hslot.
Qed.

Lemma calendar_one_per_cell_witness :
  (forall x, In x (scheduledSessions sampleSchedule) ->
             calendar_cell (calendar (calendarData sampleSchedule))
                           (format (date x)) (timeSlotLabel x)
             = [occupantOf x])
  /\ (forall (key : DateKey) (label : string),
        (List.length (calendar_cell (calendar (calendarData sampleSchedule))
                                    key label)
         <= 1)%nat)
  /\ (forall l, In l (timeSlots (calendarData sampleSchedule)) ->
                In l getAllTimeSlots).
Proof.
  apply (calendar_one_per_cell April sampleCourses "Q1" 2025).
  vm_compute. reflexivity.
Defined.

(** X16.  Every session of a returned schedule lies in the requested
    quarter, on a day from Monday to Friday; it belongs to a course of the
    list that has between 1 and 14 sessions, carries a number between 1 and
    that count, and has empty instructor names. *)
Theorem sessions_within_quarter (cfg : YearStart) (courses : list Course)
  (quarter : string) (year : Z) (r : Schedule) (x : ScheduledSession) :
  generateSchedule cfg courses quarter year = Returned r ->
  In x (scheduledSessions r) ->
  exists (startDate endDate : Date) (c : Course),
    getQuarterDateRange cfg quarter year = Returned (startDate, endDate)
    /\ startDate <= date x <= endDate
    /\ 1 <= getDay (date x) <= 5
    /\ In c courses /\ courseName x = title c
    /\ 1 <= sessionNumber x <= sessions c /\ sessions c <= 14
    /\ instructorFirstName x = "" /\ instructorLastName x = "".
Proof.
  intros H Hx. apply generateSchedule_parts in H
    as (qd & grid & history & S & Hrun & ->).
  cbn [scheduledSessions] in Hx.
  apply (Permutation_in _ (sortSessions_perm S)) in Hx.
  destruct (run_sessions _ _ _ _ _ _ _ _ Hrun) as [_ Hdates].
  pose proof (Hdates x Hx) as Hd.
  destruct (run_session _ _ _ _ _ _ _ _ _ Hrun Hx)
    as (c & d0 & k & Hc & Hk & Ex & _ & Hd0 & Hlast).
  destruct (runEngine_inv _ _ _ _ _ _ _ _ Hrun)
    as (_ & first & last & Hrange & ->).
  pose proof (getQuarterDateRange_span _ _ _ _ _ Hrange) as Hspan.
  apply weekdaysBetween_In in Hd, Hd0, Hlast.
  exists first, last, c. split; [exact Hrange|].
  split; [tauto|]. split; [tauto|]. split; [exact Hc|].
  rewrite Ex. cbn [courseName sessionNumber instructorFirstName
                   instructorLastName].
  repeat split; lia.
Qed.

Lemma sessions_within_quarter_witness :
  exists (startDate endDate : Date) (c : Course),
    getQuarterDateRange April "Q1" 2025 = Returned (startDate, endDate)
    /\ startDate <= make 2025 3 1 <= endDate
    /\ 1 <= getDay (make 2025 3 1) <= 5
    /\ In c sampleCourses /\ "Leading Teams" = title c
    /\ 1 <= 1 <= sessions c /\ sessions c <= 14
    /\ "" = "" /\ "" = "".
Proof.
  apply (sessions_within_quarter April sampleCourses "Q1" 2025 sampleSchedule
           (mkSession (make 2025 3 1) "Leading Teams" 1 "06:00" "06:30" "" ""));
    vm_compute; auto.
Defined.

(* ================================================================== *)
(** * scheduleEngine.js: the order of the courses, and bookings that succeed *)

Lemma scheduleCourses_app (cs1 cs2 : list Course) (fyStart : Date)
  (quarterDates : list Date) (st : EngineState) :
  scheduleCourses (cs1 ++ cs2) fyStart quarterDates st
  = bind (scheduleCourses cs1 fyStart quarterDates st)
         (scheduleCourses cs2 fyStart quarterDates).
Proof.
  revert st; induction cs1 as [|c cs1 IH]; intros [[g h] S]; [reflexivity|].
  cbn [app scheduleCourses].
  destruct (scheduleCourse c fyStart quarterDates g h) as [[[g1 h1] out]| |];
    cbn [bind]; [apply IH|reflexivity|reflexivity].
Qed.

Lemma scheduleCourses_extends (cs : list Course) (fyStart : Date)
  (quarterDates : list Date) :
  forall g h S g' h' S',
    scheduleCourses cs fyStart quarterDates (g, h, S) = Returned (g', h', S') ->
    exists added, S' = S ++ added.
Proof.
  induction cs as [|c cs IH]; intros g h S g' h' S' H.
  - cbn in H. injection H as <- <- <-. exists []. rewrite app_nil_r. reflexivity.
  - cbn [scheduleCourses] in H.
    destruct (scheduleCourse c fyStart quarterDates g h) as [[[g1 h1] out]| |];
      cbn [bind] in H; try discriminate.
    apply IH in H as [added ->]. exists (out ++ added).
    rewrite app_assoc. reflexivity.
Qed.

(** X17.  The courses are served in the order of the list: courses
    appended to the list leave the sessions of the courses before them as
    they are, and only add sessions. *)
Theorem earlier_courses_unaffected (cfg : YearStart) (cs1 cs2 : list Course)
  (quarter : string) (year : Z) (r1 r : Schedule) :
  generateSchedule cfg cs1 quarter year = Returned r1 ->
  generateSchedule cfg (cs1 ++ cs2) quarter year = Returned r ->
  exists added : list ScheduledSession,
    Permutation (scheduledSessions r) (scheduledSessions r1 ++ added)
    /\ forall x, In x (scheduledSessions r1) -> In x (scheduledSessions r).
Proof.
  intros H1 H.
  apply generateSchedule_parts in H1 as (qd1 & g1 & h1 & S1 & Hrun1 & ->).
  apply generateSchedule_parts in H as (qd & g & h & S & Hrun & ->).
  cbn [scheduledSessions].
  unfold runEngine in Hrun1, Hrun.
  destruct (getWeekdaysInQuarter cfg quarter year) as [dates| |];
    cbn [bind] in Hrun1, Hrun; try discriminate.
  rewrite scheduleCourses_app in Hrun.
  destruct (scheduleCourses cs1 _ dates _) as [[[ga ha] Sa]| |] eqn:E1;
    cbn [bind] in Hrun1, Hrun; try discriminate.
  injection Hrun1 as <- <- <- <-.
  destruct (scheduleCourses cs2 _ dates _) as [[[gb hb] Sb]| |] eqn:E2;
    cbn [bind] in Hrun; try discriminate.
  injection Hrun as <- <- <- <-.
  apply scheduleCourses_extends in E2 as [added ->].
  assert (P : Permutation (sortSessions (Sa ++ added))
                          (sortSessions Sa ++ added)).
  { rewrite sortSessions_perm. apply Permutation_app_tail.
    symmetry. apply sortSessions_perm. }
  exists added. split; [exact P|].
  intros x Hx. apply (Permutation_in _ (Permutation_sym P)).
  apply in_or_app. left. exact Hx.
Qed.

Lemma earlier_courses_unaffected_witness :
  exists added : list ScheduledSession,
    Permutation (scheduledSessions sampleSchedule)
                (scheduledSessions
                   (returned (generateSchedule April
                                [mkCourse "Leading Teams" 12 2] "Q1" 2025))
                 ++ added)
    /\ forall x,
         In x (scheduledSessions
                 (returned (generateSchedule April
                              [mkCourse "Leading Teams" 12 2] "Q1" 2025))) ->
         In x (scheduledSessions sampleSchedule).
Proof.
  apply (earlier_courses_unaffected April [mkCourse "Leading Teams" 12 2]
           [mkCourse "Financial Intelligence" 12 2] "Q1" 2025);
    vm_compute; reflexivity.
Defined.

(** ** Bookings that succeed *)

Lemma findIndex_exists {A : Type} (p : A -> bool) (l : list A) :
  existsb p l = true -> exists i, findIndex p l = Some i.
Proof.
  induction l as [|a l IH]; [discriminate|].
  cbn [existsb findIndex]. destruct (p a); [eauto|].
  cbn [orb]. intros H. destruct (IH H) as [i ->]. eauto.
Qed.

Lemma find_first_ascending (p : Date -> bool) (quarterDates : list Date)
  (cur : Date) :
  ascending quarterDates = true -> In cur quarterDates -> p cur = true ->
  (forall x, x < cur -> p x = false) ->
  find p quarterDates = Some cur.
Proof.
  intros Hasc Hin Hp Hlt.
  induction quarterDates as [|a l IH]; [contradiction|].
  cbn [find]. destruct Hin as [->|Hin]; [rewrite Hp; reflexivity|].
  rewrite (Hlt a); [|apply (ascending_head _ _ Hasc); exact Hin].
  apply IH; [apply (ascending_tail a); exact Hasc|exact Hin].
Qed.

Lemma keysAmong_In (grid : AvailabilityGrid) (quarterDates : list Date)
  (d : Date) (dd : DayData) :
  keysAmong grid quarterDates = true ->
  grid_get grid (format d) = Some dd -> In d quarterDates.
Proof.
  intros Hk Hg. apply grid_get_In in Hg.
  unfold keysAmong in Hk. rewrite forallb_forall in Hk.
  specialize (Hk (format d) (in_map fst _ _ Hg)).
  apply existsb_exists in Hk as (d' & Hd' & E).
  apply key_eqb_eq, format_inj in E. subst d'. exact Hd'.
Qed.

Lemma bookSessions_succeeds (c : Course) (sl : SuitableSlot)
  (quarterDates : list Date) :
  ascending quarterDates = true ->
  forall (remaining : nat) (num : Z) (cur : Date) (g : AvailabilityGrid)
         (acc : list ScheduledSession),
    keysAmong g quarterDates = true ->
    dayOfWeek sl = dayName (getDay cur) ->
    (forall k : nat, (k < remaining)%nat ->
                     slotFree g (cur + 7 * Z.of_nat k) (slotStart sl) = true) ->
    snd (bookSessions c sl quarterDates remaining num cur g acc)
    = acc ++ sessions_on c (slotStart sl) (slotEnd sl) num (weekly cur remaining).
Proof.
  intros Hasc. induction remaining as [|n IH]; intros num cur g acc Hk Hd Hfree.
  - cbn. rewrite app_nil_r. reflexivity.
  - cbn [bookSessions].
    pose proof (Hfree O ltac:(lia)) as H0. unfold slotFree in H0.
    replace (cur + 7 * Z.of_nat 0) with cur in H0 by lia.
    destruct (grid_get g (format cur)) as [dd|] eqn:Hg; [|discriminate].
    pose proof (keysAmong_In _ _ _ _ Hk Hg) as Hin.
    assert (Hnext : findNextAvailableDate cur (dayOfWeek sl) quarterDates
                    = Some cur).
    { unfold findNextAvailableDate. rewrite Hd, indexOf_dayName.
      apply find_first_ascending; auto.
      - rewrite Z.leb_refl, Z.eqb_refl. reflexivity.
      - intros x Hx. replace (cur <=? x) with false; [reflexivity|].
        symmetry. apply Z.leb_gt. exact Hx. }
    rewrite Hnext, Hg.
    destruct (findIndex_exists _ _ H0) as [i ->].
    rewrite IH.
    + rewrite <- app_assoc. cbn [weekly sessions_on app].
      unfold addWeeks, addDays. change (1 * 7) with 7. reflexivity.
    + unfold keysAmong. rewrite grid_update_keys. exact Hk.
    + unfold addWeeks, addDays. change (1 * 7) with 7.
      replace (cur + 7) with (cur + 7 * 1) by lia.
      rewrite getDay_shift. exact Hd.
    + intros k Hlt. unfold slotFree.
      rewrite grid_get_update_other.
      * specialize (Hfree (S k) ltac:(lia)). unfold slotFree in Hfree.
        unfold addWeeks, addDays. change (1 * 7) with 7.
        replace (cur + 7 + 7 * Z.of_nat k) with (cur + 7 * Z.of_nat (S k))
          by lia.
        exact Hfree.
      * intros E. apply format_inj in E. unfold addWeeks, addDays in E. lia.
Qed.

(** X18.  A booking whose slots are all free succeeds: when
    [findSuitableSlot] finds a slot for the start date and the slot at that
    start time is free on the start date and on each of the following
    [sessions - 1] dates a week apart, [scheduleCourseSessions] returns the
    whole instance, one session a week at that slot. *)
Theorem booking_succeeds (c : Course) (startDate : Date)
  (quarterDates : list Date) (grid : AvailabilityGrid)
  (courseHistory : CourseHistory) (isFinancialIntelligence : bool)
  (sl : SuitableSlot) :
  ascending quarterDates = true ->
  keysAmong grid quarterDates = true ->
  findSuitableSlot startDate c grid (history_get courseHistory (title c))
                   isFinancialIntelligence = Some sl ->
  (forall k : nat,
     (k < Z.to_nat (sessions c))%nat ->
     slotFree grid (startDate + 7 * Z.of_nat k) (slotStart sl) = true) ->
  snd (scheduleCourseSessions c startDate quarterDates grid courseHistory
                              isFinancialIntelligence)
  = instance_of c startDate (slotStart sl) (slotEnd sl)
  /\ List.length (snd (scheduleCourseSessions c startDate quarterDates grid
                         courseHistory isFinancialIntelligence))
     = Z.to_nat (sessions c).
Proof.
  intros Hasc Hk Hs Hfree.
  assert (E : snd (scheduleCourseSessions c startDate quarterDates grid
                     courseHistory isFinancialIntelligence)
              = instance_of c startDate (slotStart sl) (slotEnd sl)).
  { unfold scheduleCourseSessions. rewrite Hs.
    rewrite (bookSessions_succeeds c sl quarterDates Hasc); auto.
    apply findSuitableSlot_Some in Hs as (dd & s & _ & _ & _ & ->).
    reflexivity. }
  split; [exact E|]. rewrite E. apply instance_of_length.
Qed.

Lemma booking_succeeds_witness :
  snd (scheduleCourseSessions threeSessions (make 2025 3 1) sampleDates
         (initializeAvailabilityGrid sampleDates) [] false)
  = instance_of threeSessions (make 2025 3 1) "06:00" "06:30"
  /\ List.length (snd (scheduleCourseSessions threeSessions (make 2025 3 1)
                         sampleDates (initializeAvailabilityGrid sampleDates)
                         [] false))
     = Z.to_nat (sessions threeSessions).
Proof.
  apply (booking_succeeds threeSessions (make 2025 3 1) sampleDates
           (initializeAvailabilityGrid sampleDates) [] false
           (mkSuitableSlot "TUESDAY" "06:00" "06:30")).
  - vm_compute. reflexivity.
  - vm_compute. reflexivity.
  - vm_compute. reflexivity.
  - intros k Hk. destruct k as [|[|[|k]]];
      [vm_compute; reflexivity..|cbn in Hk; lia].
Defined.

(* ================================================================== *)
(** * The capacity of a quarter, and the week of a session *)

(** The month of a date is one of twelve. *)
Lemma civil_month_bounds (z : Z) : 1 <= snd (fst (civil_from_days z)) <= 12.
Proof.
  unfold civil_from_days. cbv zeta.
  set (z' := z + 719468).
  set (era := z' / 146097).
  set (doe := z' - era * 146097).
  assert (Hdoe : 0 <= doe < 146097)
    by (subst doe era; Z.div_mod_to_equations; lia).
  clearbody doe.
  set (yoe := (doe - doe / 1460 + doe / 36524 - doe / 146096) / 365).
  assert (Hyoe : 0 <= yoe <= 399) by (subst yoe; Z.div_mod_to_equations; lia).
  set (doy := doe - (365 * yoe + yoe / 4 - yoe / 100)).
  assert (Hdoy : 0 <= doy <= 365).
  { subst doy yoe. Z.div_mod_to_equations; lia. }
  set (mp := (5 * doy + 2) / 153).
  assert (Hmp : 0 <= mp <= 11) by (subst mp; Z.div_mod_to_equations; lia).
  clearbody mp. cbn [fst snd].
  destruct (mp <? 10) eqn:E; [apply Z.ltb_lt in E|apply Z.ltb_ge in E]; lia.
Qed.

(** [setDate] moves a date by the difference of the days of the month. *)
Lemma setDate_shift (d : Date) (day : Z) : setDate d day = d + (day - getDate d).
Proof.
  unfold setDate, getFullYear, getMonth, getDate.
  pose proof (civil_month_bounds d) as Hm.
  pose proof (date_of_format d) as Hf. unfold format in Hf.
  destruct (civil_from_days d) as [[y m] dd]. cbn [fst snd] in *.
  specialize (Hf y m dd eq_refl).
  rewrite (make_day y (m - 1) day).
  rewrite Hf. rewrite (days_from_civil_day y m dd).
  rewrite (make_civil y (m - 1) 1) by lia.
  replace (m - 1 + 1) with m by lia. lia.
Qed.

(** X19.  The week key of the sheet by weeks is the Monday of the week of
    the date: six days back at most and, for a Sunday, the day after; for
    every session of a returned schedule it is the Monday on or before the
    session, four days back at most. *)
Theorem week_start_monday :
  (forall d : Date,
     weekStartOf d = d - getDay d + 1 /\ getDay (weekStartOf d) = 1)
  /\ (forall (cfg : YearStart) (courses : list Course) (quarter : string)
             (year : Z) (r : Schedule) (x : ScheduledSession),
        generateSchedule cfg courses quarter year = Returned r ->
        In x (scheduledSessions r) ->
        weekStartOf (date x) <= date x <= weekStartOf (date x) + 4).
Proof.
  assert (H : forall d : Date,
            weekStartOf d = d - getDay d + 1 /\ getDay (weekStartOf d) = 1).
  { intros d. unfold weekStartOf. rewrite setDate_shift.
    split; [lia|].
    replace (d + (getDate d - getDay d + 1 - getDate d))
      with (d - getDay d + 1) by lia.
    unfold getDay. Z.div_mod_to_equations. lia. }
  split; [exact H|].
  intros cfg courses quarter year r x Hr Hx.
  apply generateSchedule_parts in Hr as (qd & grid & history & S & Hrun & ->).
  cbn [scheduledSessions] in Hx.
  apply (Permutation_in _ (sortSessions_perm S)) in Hx.
  destruct (run_sessions _ _ _ _ _ _ _ _ Hrun) as [_ Hdates].
  pose proof (Hdates x Hx) as Hd.
  destruct (runEngine_inv _ _ _ _ _ _ _ _ Hrun)
    as (_ & first & last & _ & ->).
  apply weekdaysBetween_In in Hd.
  rewrite (proj1 (H (date x))). lia.
Qed.

Lemma week_start_monday_witness :
  weekStartOf (make 2025 3 1) <= make 2025 3 1 <= weekStartOf (make 2025 3 1) + 4.
Proof.
  apply (proj2 week_start_monday April sampleCourses "Q1" 2025 sampleSchedule
           (mkSession (make 2025 3 1) "Leading Teams" 1 "06:00" "06:30" "" ""));
    vm_compute; auto.
Defined.

(** ** The capacity *)

Lemma seeded_capacity (quarterDates : list Date) (grid : AvailabilityGrid) :
  grid_seeded quarterDates grid -> totalSlots grid = capacity quarterDates.
Proof.
  intros Hseed. rewrite <- (seeded_dates _ _ Hseed).
  destruct Hseed as [_ Hs].
  induction grid as [|[k dd] grid IH]; [reflexivity|].
  cbn [totalSlots capacity fold_right map snd].
  fold (totalSlots grid).
  fold (capacity (map (fun e : DateKey * DayData => day_date (snd e)) grid)).
  destruct (Hs k dd (or_introl eq_refl)) as (_ & Hslots & _).
  rewrite <- Hslots, length_map, IH; [reflexivity|].
  intros k' dd' Hin. apply Hs. right. exact Hin.
Qed.

Lemma capacity_In (quarterDates : list Date) (d : Date) :
  In d quarterDates ->
  Z.of_nat (List.length (getAvailableTimeSlots d)) <= capacity quarterDates.
Proof.
  assert (Hpos : forall l, 0 <= capacity l).
  { induction l as [|a l IH]; cbn [capacity fold_right]; [lia|].
    fold (capacity l). lia. }
  induction quarterDates as [|a l IH]; [contradiction|].
  cbn [capacity fold_right]. fold (capacity l).
  pose proof (Hpos l) as Hl.
  intros [->|Hin]; [lia|]. specialize (IH Hin). lia.
Qed.

Lemma capacity_length (quarterDates : list Date) :
  capacity quarterDates <= 14 * Z.of_nat (List.length quarterDates).
Proof.
  induction quarterDates as [|a l IH]; [cbn; lia|].
  cbn [capacity fold_right List.length]. fold (capacity l).
  pose proof (slots_length a). lia.
Qed.

Ltac bool_facts :=
  repeat match goal with
         | H : _ && _ = true |- _ => apply andb_true_iff in H; destruct H
         | H : _ || _ = true |- _ => apply orb_true_iff in H; destruct H
         | H : (_ =? _) = true |- _ => apply Z.eqb_eq in H
         end.

(** A Wednesday of the second week of January, April, July or October is
    an ordinary day. *)
Lemma ordinary_wednesday (w : Date) (y m dd : Z) :
  format w = (y, m, dd) -> getDay w = 3 ->
  m = 1 \/ m = 4 \/ m = 7 \/ m = 10 -> 8 <= dd <= 14 ->
  List.length (getAvailableTimeSlots w) = 12%nat.
Proof.
  intros Hf Hday Hmi Hdd.
  assert (Hm : monthOf w = m) by (unfold monthOf; rewrite Hf; reflexivity).
  assert (Hd : dayOfMonth w = dd)
    by (unfold dayOfMonth; rewrite Hf; reflexivity).
  assert (Hw : isWeekend w = false)
    by (unfold isWeekend; rewrite Hday; reflexivity).
  assert (He : isFullDayExclusion w = false).
  { destruct (isFullDayExclusion w) eqn:E; [exfalso|reflexivity].
    unfold isFullDayExclusion, isFixedHoliday, isFourthThursdayOfNovember in E.
    rewrite Hm, Hd, Hday in E. bool_facts; lia. }
  assert (Hc : restrictionCutoff w = None).
  { unfold restrictionCutoff. rewrite Hm, Hd.
    destruct (((m =? 4) && (dd =? 17))
              || ((m =? 5) && (dd =? 22))
              || ((m =? 6) && (dd =? 19))) eqn:E1;
      [exfalso; bool_facts; lia|].
    destruct ((m =? 12) && ((dd =? 24) || (dd =? 31))) eqn:E2;
      [exfalso; bool_facts; lia|reflexivity]. }
  rewrite getAvailableTimeSlots_spec, Hw, He, Hc.
  unfold weekdayTemplate. rewrite Hday.
  destruct (twoDigitYear (getFullYear w)); reflexivity.
Qed.

Lemma second_wednesday (y mi : Z) :
  mi = 0 \/ mi = 3 \/ mi = 6 \/ mi = 9 ->
  exists w, make y mi 1 <= w <= make y mi 1 + 13
            /\ getDay w = 3
            /\ List.length (getAvailableTimeSlots w) = 12%nat.
Proof.
  intros Hmi.
  assert (Hj : 0 <= (3 - getDay (make y mi 1 + 7)) mod 7 < 7)
    by (apply Z.mod_pos_bound; lia).
  remember ((3 - getDay (make y mi 1 + 7)) mod 7) as j eqn:Ej.
  assert (Hday : getDay (make y mi (8 + j)) = 3).
  { rewrite (make_day y mi (8 + j)).
    replace (make y mi 1 + (8 + j - 1)) with (make y mi 1 + 7 + j) by lia.
    rewrite Ej. unfold getDay. generalize (make y mi 1 + 7). intros t.
    Z.div_mod_to_equations. lia. }
  assert (Hf : format (make y mi (8 + j)) = (y, mi + 1, 8 + j)).
  { apply format_make; [lia|].
    pose proof (daysInMonth_bounds y (mi + 1)). lia. }
  exists (make y mi (8 + j)).
  split; [rewrite (make_day y mi (8 + j)); lia|]. split; [exact Hday|].
  apply (ordinary_wednesday _ _ _ _ Hf Hday); lia.
Qed.

(** The capacity of a quarter. *)
Lemma quarter_capacity_bounds (cfg : YearStart) (quarter : string) (year : Z)
  (startDate endDate : Date) :
  getQuarterDateRange cfg quarter year = Returned (startDate, endDate) ->
  12 <= capacity (weekdaysBetween startDate endDate) <= 924.
Proof.
  intros Hrange.
  pose proof (getQuarterDateRange_span _ _ _ _ _ Hrange) as Hspan.
  apply getQuarterDateRange_months in Hrange as (y & mi & Hmi & -> & -> & _).
  destruct (second_wednesday y mi Hmi) as (w & Hw & Hday & Hlen).
  assert (Hin : In w (weekdaysBetween (make y mi 1) (make y (mi + 2 + 1) 0)))
    by (apply weekdaysBetween_In; lia).
  pose proof (capacity_In _ _ Hin) as Hlow.
  pose proof (capacity_length
                (weekdaysBetween (make y mi 1) (make y (mi + 2 + 1) 0))) as Hup.
  assert (Hq : (List.length (weekdaysBetween (make y mi 1)
                                             (make y (mi + 2 + 1) 0))
                <= 66)%nat).
  { unfold weekdaysBetween. rewrite dates_loop_days by lia.
    apply (quarter_business_days
             (Z.to_nat (make y (mi + 2 + 1) 0 - make y mi 1 + 1))). lia. }
  rewrite Hlen in Hlow. lia.
Qed.

(** X20.  For a year whose days, and those of the next year, are dates,
    the number of slots a run reports does not depend on the courses: it is
    the number of slots [getAvailableTimeSlots] gives the weekdays of the
    quarter, at least 12 and at most 924; so the utilization is the text
    that [toFixed(2)] prints and not the number 0 of the other branch.  The
    dates of the calendar view are those weekdays. *)
Theorem quarter_capacity (cfg : YearStart) (courses : list Course)
  (quarter : string) (year : Z) (r : Schedule) :
  representableYear year -> representableYear (year + 1) ->
  generateSchedule cfg courses quarter year = Returned r ->
  exists quarterDates : list Date,
    getWeekdaysInQuarter cfg quarter year = Returned quarterDates
    /\ dates (calendarData r) = quarterDates
    /\ totalAvailableSlots (statistics r) = capacity quarterDates
    /\ 12 <= capacity quarterDates <= 924
    /\ exists n, utilizationPercentage (statistics r) = Fixed2 n.
Proof.
  intros _ _ Hr.
  apply generateSchedule_parts in Hr as (qd & grid & history & S & Hrun & ->).
  destruct (runEngine_inv _ _ _ _ _ _ _ _ Hrun)
    as (Hinv & first & last & Hrange & Eqd).
  pose proof (quarter_capacity_bounds _ _ _ _ _ Hrange) as Hcap.
  rewrite <- Eqd in Hcap.
  pose proof (seeded_capacity _ _ (inv_seeded _ _ _ _ _ Hinv)) as Htotal.
  exists qd. split; [|split; [reflexivity|split; [|split; [exact Hcap|]]]].
  - unfold runEngine in Hrun.
    destruct (getWeekdaysInQuarter cfg quarter year) as [dates| |];
      cbn [bind] in Hrun; try discriminate.
    destruct (scheduleCourses _ _ dates _) as [st| |];
      cbn [bind] in Hrun; try discriminate.
    injection Hrun as <- _. reflexivity.
  - cbn [statistics]. unfold calculateStatistics.
    rewrite statistics_loop_spec. cbn [totalAvailableSlots]. exact Htotal.
  - cbn [statistics]. unfold calculateStatistics.
    rewrite statistics_loop_spec. cbn [utilizationPercentage].
    pose proof (freeSlots_bounds grid) as Hfree.
    destruct (utilization_quarter (totalSlots grid) (freeSlots grid))
      as (n & Hn & _); [unfold maxQuarterSlots; lia|lia|].
    exists n. exact Hn.
Qed.

Lemma quarter_capacity_witness :
  exists quarterDates : list Date,
    getWeekdaysInQuarter April "Q1" 2025 = Returned quarterDates
    /\ dates (calendarData sampleSchedule) = quarterDates
    /\ totalAvailableSlots (statistics sampleSchedule) = capacity quarterDates
    /\ 12 <= capacity quarterDates <= 924
    /\ exists n, utilizationPercentage (statistics sampleSchedule) = Fixed2 n.
Proof.
  apply (quarter_capacity April sampleCourses "Q1" 2025).
  - vm_compute. split; discriminate.
  - vm_compute. split; discriminate.
  - vm_compute. reflexivity.
Defined.

Lemma fresh_not_full (g : AvailabilityGrid) :
  (forall e, In e g -> exists d, snd e = freshDay d) ->
  filter isFullyBooked (map snd g) = [].
Proof.
  induction g as [|e g IH]; intros H; [reflexivity|].
  cbn [map filter]. rewrite IH by (intros e' He'; apply H; right; exact He').
  destruct (H e (or_introl eq_refl)) as [d ->].
  unfold isFullyBooked, freshDay. cbn [slots].
  assert (F : forall l : list TimeSlot,
            filter available (map (fun slot => mkGridSlot slot true None) l)
            = map (fun slot => mkGridSlot slot true None) l).
  { induction l as [|t l I]; [reflexivity|].
    cbn [map filter available]. rewrite I. reflexivity. }
  rewrite F.
  destruct (0 <? Z.of_nat (List.length
                             (map (fun slot => mkGridSlot slot true None)
                                  (getAvailableTimeSlots d)))) eqn:E;
    [|reflexivity].
  apply Z.ltb_lt in E. cbn [andb].
  replace (Z.of_nat (List.length
                       (map (fun slot => mkGridSlot slot true None)
                            (getAvailableTimeSlots d))) =? 0)
    with false by (symmetry; apply Z.eqb_neq; lia).
  reflexivity.
Qed.

(** X21.  With no course, a quarter the engine knows and a year whose
    days, and those of the next year, are dates, [generateSchedule] returns
    a schedule without sessions: the calendar view has no row and no cell,
    every slot is free, no date is fully booked and the utilization is the
    text 0.00. *)
Theorem no_courses_schedule (cfg : YearStart) (quarter : string) (year : Z) :
  representableYear year -> representableYear (year + 1) ->
  In quarter quarterNames ->
  exists r,
    generateSchedule cfg [] quarter year = Returned r
    /\ scheduledSessions r = []
    /\ timeSlots (calendarData r) = []
    /\ calendar (calendarData r) = []
    /\ totalScheduledSessions (statistics r) = 0
    /\ slotsAfterScheduling (statistics r) = totalAvailableSlots (statistics r)
    /\ fullyBookedDates (statistics r) = []
    /\ utilizationPercentage (statistics r) = Fixed2 0.
Proof.
  intros _ _ Hq.
  destruct (getQuarterDateRange_known cfg quarter year Hq) as (s & e & R).
  pose proof (quarter_capacity_bounds _ _ _ _ _ R) as Hcap.
  pose proof (getQuarterDateRange_span _ _ _ _ _ R) as Hspan.
  assert (W : getWeekdaysInQuarter cfg quarter year
              = Returned (weekdaysBetween s e)).
  { unfold getWeekdaysInQuarter, getAllDatesInQuarter. rewrite R. reflexivity. }
  unfold generateSchedule, runEngine. rewrite W. cbn [bind scheduleCourses].
  eexists. split; [reflexivity|]. cbn [scheduledSessions calendarData statistics
    sortSessions generateCalendarGrid timeSlots calendar map fold_left].
  unfold calculateStatistics. rewrite statistics_loop_spec.
  cbn [totalScheduledSessions slotsAfterScheduling totalAvailableSlots
       fullyBookedDates utilizationPercentage List.length].
  pose proof (weekdaysBetween_NoDup s e) as Hnd.
  assert (Hfresh : forall en, In en (initializeAvailabilityGrid
                                       (weekdaysBetween s e)) ->
                     exists d, snd en = freshDay d).
  { rewrite (initialize_spec _ Hnd). intros en Hen.
    apply in_map_iff in Hen as (d & <- & _). exists d. reflexivity. }
  destruct (fresh_free _ Hfresh) as [Hfree _].
  pose proof (seeded_capacity _ _ (initialize_seeded _ Hnd)) as Htotal.
  rewrite (fresh_not_full _ Hfresh), Hfree.
  repeat split.
  destruct (utilization_quarter
              (totalSlots (initializeAvailabilityGrid (weekdaysBetween s e)))
              (totalSlots (initializeAvailabilityGrid (weekdaysBetween s e))))
    as (n & -> & _ & Hn); [unfold maxQuarterSlots; lia|lia|].
  unfold roundedPercentage in Hn. rewrite Htotal in Hn.
  f_equal. nia.
Qed.

Lemma no_courses_schedule_witness :
  exists r,
    generateSchedule April [] "Q2" 2025 = Returned r
    /\ scheduledSessions r = []
    /\ timeSlots (calendarData r) = []
    /\ calendar (calendarData r) = []
    /\ totalScheduledSessions (statistics r) = 0
    /\ slotsAfterScheduling (statistics r) = totalAvailableSlots (statistics r)
    /\ fullyBookedDates (statistics r) = []
    /\ utilizationPercentage (statistics r) = Fixed2 0.
Proof.
  apply (no_courses_schedule April "Q2" 2025).
  - vm_compute. split; discriminate.
  - vm_compute. split; discriminate.
  - cbn [quarterNames In]. auto.
Defined.

(* ================================================================== *)
(** * The application: the four quarters of a year *)

(** What one quarter contributes. *)
Lemma schedule_facts (cfg : YearStart) (courses : list Course)
  (quarter : string) (year : Z) (r : Schedule) :
  generateSchedule cfg courses quarter year = Returned r ->
  exists startDate endDate,
    getQuarterDateRange cfg quarter year = Returned (startDate, endDate)
    /\ NoDup (map sessionPair (scheduledSessions r))
    /\ (forall x, In x (scheduledSessions r) -> startDate <= date x <= endDate)
    /\ totalScheduledSessions (statistics r)
       = Z.of_nat (List.length (scheduledSessions r))
    /\ totalAvailableSlots (statistics r)
       = slotsAfterScheduling (statistics r)
         + totalScheduledSessions (statistics r)
    /\ 12 <= totalAvailableSlots (statistics r) <= 924.
Proof.
  intros Hr.
  apply generateSchedule_parts in Hr as (qd & grid & history & S & Hrun & ->).
  destruct (run_sessions _ _ _ _ _ _ _ _ Hrun) as [Hnd Hdates].
  destruct (runEngine_inv _ _ _ _ _ _ _ _ Hrun)
    as (Hinv & first & last & Hrange & Eqd).
  pose proof (quarter_capacity_bounds _ _ _ _ _ Hrange) as Hcap.
  rewrite <- Eqd in Hcap.
  pose proof (seeded_capacity _ _ (inv_seeded _ _ _ _ _ Hinv)) as Htotal.
  exists first, last. split; [exact Hrange|].
  cbn [scheduledSessions statistics]. unfold calculateStatistics.
  rewrite statistics_loop_spec.
  cbn [totalScheduledSessions totalAvailableSlots slotsAfterScheduling].
  split; [|split; [|split; [reflexivity|split]]].
  - eapply Permutation_NoDup; [|exact Hnd].
    apply Permutation_map, Permutation_sym, sortSessions_perm.
  - intros x Hx. apply (Permutation_in _ (sortSessions_perm S)) in Hx.
    specialize (Hdates x Hx). rewrite Eqd in Hdates.
    apply weekdaysBetween_In in Hdates. lia.
  - rewrite (occupiedPairs_length grid).
    rewrite (Permutation_length (inv_occupied _ _ _ _ _ Hinv)), length_map.
    rewrite (Permutation_length (sortSessions_perm S)). reflexivity.
  - lia.
Qed.

(** The quarters come one after the other. *)
Lemma quarters_in_order (cfg : YearStart) (year : Z) :
  year <> -1 -> year <> 99 ->
  exists s1 e1 s2 e2 s3 e3 s4 e4,
    getQuarterDateRange cfg "Q1" year = Returned (s1, e1)
    /\ getQuarterDateRange cfg "Q2" year = Returned (s2, e2)
    /\ getQuarterDateRange cfg "Q3" year = Returned (s3, e3)
    /\ getQuarterDateRange cfg "Q4" year = Returned (s4, e4)
    /\ e1 < s2 /\ e2 < s3 /\ e3 < s4.
Proof.
  intros Hm Hn. pose proof (fullYear_succ year Hm Hn) as Hfy.
  destruct cfg.
  - destruct (quarter_ranges January year) as (R1 & R2 & R3 & R4).
    cbv zeta in R1, R2, R3, R4.
    change (0 + 3) with 3 in *. change (0 + 6) with 6 in *.
    change ((0 + 9) mod 12) with 9 in *. change (0 + 9) with 9 in *.
    do 8 eexists. repeat (split; [eassumption|]).
    generalize (fullYear year). intros Y.
    rewrite (make_day Y 3 0), (make_day Y 6 0), (make_day Y 9 0).
    lia.
  - destruct (quarter_ranges April year) as (R1 & R2 & R3 & R4).
    cbv zeta in R1, R2, R3, R4.
    change (3 + 3) with 6 in *. change (3 + 6) with 9 in *.
    change ((3 + 9) mod 12) with 0 in *. change (3 + 9) with 12 in *.
    do 8 eexists. repeat (split; [eassumption|]).
    rewrite Hfy. generalize (fullYear year). intros Y.
    rewrite (make_day Y 6 0), (make_day Y 9 0), (make_day Y 12 0).
    rewrite (make_next_year Y 1). lia.
Qed.

Lemma tagged_pairs (l : list ScheduledSession) (quarter : string) :
  map (fun t => sessionPair (session_of t)) (map (fun s => mkTagged s quarter) l)
  = map sessionPair l.
Proof. rewrite map_map. reflexivity. Qed.

Lemma NoDup_pairs_app (l1 l2 : list ScheduledSession) (bound : Date) :
  NoDup (map sessionPair l1) -> NoDup (map sessionPair l2) ->
  (forall x, In x l1 -> date x <= bound) ->
  (forall x, In x l2 -> bound < date x) ->
  NoDup (map sessionPair (l1 ++ l2)).
Proof.
  intros H1 H2 B1 B2. rewrite map_app. apply NoDup_app; auto.
  intros p Hp1 Hp2.
  apply in_map_iff in Hp1 as (x & <- & Hx).
  apply in_map_iff in Hp2 as (y & E & Hy).
  specialize (B1 x Hx). specialize (B2 y Hy).
  unfold sessionPair in E. injection E as E _. lia.
Qed.

(** X22.  For a year other than 99 whose days, and those of the next
    year, are dates, and for courses with a cadence of one week or more,
    the application's run over the four quarters returns; in the
    sessions of the full year no two share a date and a start time, every
    session carries the quarter whose range holds its date, and the totals
    satisfy available = free + scheduled, with 48 to 3696 slots in the
    year. *)
Theorem full_year_schedule (cfg : YearStart) (courses : list Course)
  (year : Z) :
  representableYear year -> representableYear (year + 1) ->
  year <> 99 ->
  (forall c, In c courses -> 1 <= cadence c) ->
  exists (allSessions : list TaggedSession) (stats : YearStatistics),
    generateFullYear cfg courses year = Returned (allSessions, stats)
    /\ NoDup (map (fun t => sessionPair (session_of t)) allSessions)
    /\ (forall t, In t allSessions ->
          exists startDate endDate,
            getQuarterDateRange cfg (quarter_of t) year
            = Returned (startDate, endDate)
            /\ startDate <= date (session_of t) <= endDate)
    /\ y_totalScheduledSessions stats = Z.of_nat (List.length allSessions)
    /\ y_totalAvailableSlots stats
       = y_slotsAfterScheduling stats + y_totalScheduledSessions stats
    /\ 48 <= y_totalAvailableSlots stats <= 3696.
Proof.
  intros [Hm _] _ Hn Hc.
  destruct (quarters_in_order cfg year ltac:(lia) Hn)
    as (s1 & e1 & s2 & e2 & s3 & e3 & s4 & e4 & R1 & R2 & R3 & R4
        & H12 & H23 & H34).
  assert (Hret : forall quarter s e,
            getQuarterDateRange cfg quarter year = Returned (s, e) ->
            exists r, generateSchedule cfg courses quarter year = Returned r).
  { intros quarter s e R.
    pose proof (generateSchedule_outcome cfg courses quarter year) as Ho.
    rewrite R in Ho. destruct Ho as [_ Ho]. apply Ho. exact Hc. }
  destruct (Hret _ _ _ R1) as [r1 G1]. destruct (Hret _ _ _ R2) as [r2 G2].
  destruct (Hret _ _ _ R3) as [r3 G3]. destruct (Hret _ _ _ R4) as [r4 G4].
  destruct (schedule_facts _ _ _ _ _ G1)
    as (a1 & b1 & Q1 & N1 & D1 & L1 & T1 & C1).
  destruct (schedule_facts _ _ _ _ _ G2)
    as (a2 & b2 & Q2 & N2 & D2 & L2 & T2 & C2).
  destruct (schedule_facts _ _ _ _ _ G3)
    as (a3 & b3 & Q3 & N3 & D3 & L3 & T3 & C3).
  destruct (schedule_facts _ _ _ _ _ G4)
    as (a4 & b4 & Q4 & N4 & D4 & L4 & T4 & C4).
  rewrite R1 in Q1. injection Q1 as <- <-.
  rewrite R2 in Q2. injection Q2 as <- <-.
  rewrite R3 in Q3. injection Q3 as <- <-.
  rewrite R4 in Q4. injection Q4 as <- <-.
  pose proof (getQuarterDateRange_span _ _ _ _ _ R1) as P1.
  pose proof (getQuarterDateRange_span _ _ _ _ _ R2) as P2.
  pose proof (getQuarterDateRange_span _ _ _ _ _ R3) as P3.
  pose proof (getQuarterDateRange_span _ _ _ _ _ R4) as P4.
  unfold generateFullYear. cbn [yearLoop]. rewrite G1. cbn [bind].
  rewrite G2. cbn [bind]. rewrite G3. cbn [bind]. rewrite G4. cbn [bind app].
  do 2 eexists. split; [reflexivity|].
  cbn [y_totalScheduledSessions y_totalAvailableSlots y_slotsAfterScheduling].
  split; [|split; [|split; [|split]]].
  - rewrite !map_app, !tagged_pairs, <- !map_app.
    apply (NoDup_pairs_app _ _ e3); auto.
    + apply (NoDup_pairs_app _ _ e2); auto.
      * apply (NoDup_pairs_app _ _ e1); auto.
        -- intros x Hx. specialize (D1 x Hx). lia.
        -- intros x Hx. specialize (D2 x Hx). lia.
      * intros x Hx. apply in_app_or in Hx as [Hx|Hx];
          [specialize (D1 x Hx)|specialize (D2 x Hx)]; lia.
      * intros x Hx. specialize (D3 x Hx). lia.
    + intros x Hx. apply in_app_or in Hx as [Hx|Hx];
        [apply in_app_or in Hx as [Hx|Hx];
         [specialize (D1 x Hx)|specialize (D2 x Hx)]
        |specialize (D3 x Hx)]; lia.
    + intros x Hx. specialize (D4 x Hx). lia.
  - intros t Ht.
    repeat (apply in_app_or in Ht as [Ht|Ht]);
      apply in_map_iff in Ht as (x & <- & Hx); cbn [quarter_of session_of];
      eauto.
  - rewrite !length_app, !length_map. lia.
  - lia.
  - lia.
Qed.

Lemma full_year_schedule_witness :
  exists (allSessions : list TaggedSession) (stats : YearStatistics),
    generateFullYear April sampleCourses 2025 = Returned (allSessions, stats)
    /\ NoDup (map (fun t => sessionPair (session_of t)) allSessions)
    /\ (forall t, In t allSessions ->
          exists startDate endDate,
            getQuarterDateRange April (quarter_of t) 2025
            = Returned (startDate, endDate)
            /\ startDate <= date (session_of t) <= endDate)
    /\ y_totalScheduledSessions stats = Z.of_nat (List.length allSessions)
    /\ y_totalAvailableSlots stats
       = y_slotsAfterScheduling stats + y_totalScheduledSessions stats
    /\ 48 <= y_totalAvailableSlots stats <= 3696.
Proof.
  apply (full_year_schedule April sampleCourses 2025).
  - vm_compute. split; discriminate.
  - vm_compute. split; discriminate.
  - discriminate.
  - intros c Hc. cbn [sampleCourses In] in Hc.
    destruct Hc as [<-|[<-|[]]]; cbn [cadence]; lia.
Defined.

(* ================================================================== *)
(** * The first sweep of a course *)

Lemma last_entry_In {A : Type} (l : list A) (x : A) :
  last_entry l = Some x -> In x l.
Proof.
  intros H. apply last_entry_Some in H as [l' ->].
  apply in_or_app. right. left. reflexivity.
Qed.

(** March 31 of the next year is after the first days of the year of the
    engine. *)
Lemma year_end_after_start (y mi : Z) :
  mi = 0 \/ mi = 3 -> make y mi 1 + 2 <= make (y + 1) 2 31.
Proof.
  intros H. unfold make, days_from_civil.
  destruct H as [->| ->];
    cbn [Z.add Pos.add Pos.succ Z.div Z.modulo Z.div_eucl Z.pos_div_eucl
         Z.leb Z.ltb Z.compare Pos.compare Pos.compare_cont Z.mul Pos.mul
         Z.sub Z.opp Z.pos_sub Z.succ_double Z.pred_double Z.double
         Pos.pred_double fst snd Z.of_N];
    Z.div_mod_to_equations; lia.
Qed.

(** The quarters lie in the year of the engine. *)
Lemma quarter_after_year_start (cfg : YearStart) (quarter : string) (year : Z)
  (startDate endDate : Date) :
  year <> -1 -> year <> 99 ->
  getQuarterDateRange cfg quarter year = Returned (startDate, endDate) ->
  getFinancialYearStart cfg year <= startDate.
Proof.
  intros Hm Hn R.
  destruct (quarters_in_order cfg year Hm Hn)
    as (s1 & e1 & s2 & e2 & s3 & e3 & s4 & e4 & R1 & R2 & R3 & R4
        & H12 & H23 & H34).
  pose proof (getQuarterDateRange_span _ _ _ _ _ R1) as P1.
  pose proof (getQuarterDateRange_span _ _ _ _ _ R2) as P2.
  pose proof (getQuarterDateRange_span _ _ _ _ _ R3) as P3.
  assert (Hs1 : getFinancialYearStart cfg year = s1).
  { destruct (quarter_ranges cfg year) as (Q1 & _). cbv zeta in Q1.
    rewrite R1 in Q1. injection Q1 as -> _. destruct cfg; reflexivity. }
  assert (Hq : In quarter quarterNames).
  { destruct (in_dec string_dec quarter quarterNames) as [H|H]; [exact H|].
    destruct (getQuarterDateRange_unknown cfg quarter year H) as [err E].
    congruence. }
  cbn [quarterNames In] in Hq.
  destruct Hq as [<-|[<-|[<-|[<-|[]]]]];
    [rewrite R1 in R|rewrite R2 in R|rewrite R3 in R|rewrite R4 in R];
    injection R as <- <-; lia.
Qed.

Lemma quarter_has_weekday (cfg : YearStart) (quarter : string) (year : Z)
  (startDate endDate : Date) :
  getQuarterDateRange cfg quarter year = Returned (startDate, endDate) ->
  exists w, In w (weekdaysBetween startDate endDate).
Proof.
  intros R.
  pose proof (getQuarterDateRange_span _ _ _ _ _ R) as Hspan.
  apply getQuarterDateRange_months in R as (y & mi & Hmi & -> & -> & _).
  destruct (second_wednesday y mi Hmi) as (w & Hw & Hday & _).
  exists w. apply weekdaysBetween_In. lia.
Qed.

Lemma calculateCadenceStartDates_returns (c : Course)
  (financialYearStart : Date) (quarterDates : list Date) :
  1 <= cadence c ->
  exists l, calculateCadenceStartDates c financialYearStart quarterDates
            = Returned l.
Proof.
  intros Hc. rewrite calculateCadenceStartDates_loop.
  match goal with
  | |- context [cadence_loop ?f c quarterDates ?e ?cur] =>
      destruct (cadence_loop_returns c quarterDates e f Hc cur) as (l & ->)
  end; [rewrite !Nat2Z.inj_succ; lia|eauto].
Qed.

(** X23.  For a year other than 99 whose days, and those of the next
    year, are dates, the first cadence date of every course with a cadence
    of one week or more is the first working day of the year of the
    engine, which is not after any date of the quarter: whatever the
    cadence, the first sweep of [scheduleCourse] tries every weekday of the
    quarter as a start date. *)
Theorem first_sweep_covers_quarter (cfg : YearStart) (quarter : string)
  (year : Z) (quarterDates : list Date) (c : Course) :
  representableYear year -> representableYear (year + 1) ->
  year <> 99 ->
  getWeekdaysInQuarter cfg quarter year = Returned quarterDates ->
  1 <= cadence c ->
  exists (cadenceDate : Date) (rest : list Date),
    calculateCadenceStartDates c (getFinancialYearStart cfg year) quarterDates
    = Returned (cadenceDate :: rest)
    /\ cadenceDate = skip_weekend 2 (getFinancialYearStart cfg year)
    /\ filter (fun date => cadenceDate <=? date) quarterDates = quarterDates.
Proof.
  intros [Hlo _] _ Hn Hw Hc.
  assert (Hm : year <> -1) by lia. clear Hlo.
  destruct (getQuarterDateRange cfg quarter year) as [[s e]| |] eqn:R;
    unfold getWeekdaysInQuarter, getAllDatesInQuarter in Hw; rewrite R in Hw;
    cbn [bind] in Hw; try discriminate.
  injection Hw as <-. fold (weekdaysBetween s e).
  pose proof (quarter_after_year_start _ _ _ _ _ Hm Hn R) as Hs.
  pose proof (getQuarterDateRange_span _ _ _ _ _ R) as Hspan.
  remember (getFinancialYearStart cfg year) as fys eqn:Ef.
  destruct (skip_weekend_spec fys) as (Hwk & Hr & Hb).
  remember (skip_weekend 2 fys) as first eqn:E1.
  assert (Hall : forall x, In x (weekdaysBetween s e) -> first <= x).
  { intros x Hx. apply weekdaysBetween_In in Hx as [Hx Hd].
    destruct (Z_le_gt_dec first x) as [H|H]; [exact H|].
    specialize (Hb x ltac:(lia)). unfold isWeekend in Hb.
    apply orb_true_iff in Hb as [Hb|Hb]; apply Z.eqb_eq in Hb; lia. }
  assert (Hlast : before_last first (weekdaysBetween s e) = true).
  { unfold before_last.
    destruct (last_entry (weekdaysBetween s e)) as [l|] eqn:El.
    - apply Z.leb_le. apply Hall. apply last_entry_In. exact El.
    - apply last_entry_None in El.
      destruct (quarter_has_weekday cfg quarter year s e R) as (w & Hin).
      rewrite El in Hin. contradiction. }
  assert (Hend : first <= financialYearEnd fys).
  { rewrite Ef, financialYearEnd_value.
    pose proof (year_end_after_start (fullYear year)
                  (match cfg with January => 0 | April => 3 end)) as Hy.
    rewrite Ef in Hr.
    destruct cfg; unfold getFinancialYearStart, newDate in Hr;
      specialize (Hy ltac:(auto)); lia. }
  destruct (calculateCadenceStartDates_returns c fys (weekdaysBetween s e) Hc)
    as (l & Hl).
  rewrite Hl. rewrite calculateCadenceStartDates_loop in Hl.
  apply (cadence_loop_progression c _ _ _ Hc) in Hl as ([n ->] & _ & HC).
  rewrite <- E1 in HC.
  specialize (HC 0 ltac:(lia)).
  replace (first + cadence c * 7 * 0) with first in HC by lia.
  specialize (HC Hend Hlast). rewrite <- E1 in *.
  destruct n as [|n]; [contradiction|]. cbn [progression].
  exists first, (progression (first + cadence c * 7) (cadence c * 7) n).
  split; [reflexivity|]. split; [reflexivity|].
  apply forallb_filter_id. apply forallb_forall.
  intros x Hx. apply Z.leb_le. apply Hall. exact Hx.
Qed.

Lemma first_sweep_covers_quarter_witness :
  exists (cadenceDate : Date) (rest : list Date),
    calculateCadenceStartDates (mkCourse "Leading Teams" 12 2)
                               (getFinancialYearStart April 2025) sampleDates
    = Returned (cadenceDate :: rest)
    /\ cadenceDate = skip_weekend 2 (getFinancialYearStart April 2025)
    /\ filter (fun date => cadenceDate <=? date) sampleDates = sampleDates.
Proof.
  apply (first_sweep_covers_quarter April "Q1" 2025 sampleDates
           (mkCourse "Leading Teams" 12 2)).
  - vm_compute. split; discriminate.
  - vm_compute. split; discriminate.
  - discriminate.
  - reflexivity.
  - cbn [cadence]. lia.
Defined.
